(** * dsPIC33FJ32MC204 firmware: system lifecycle and ADC driver

    A shallow embedding of [config.h], [config.c] and [adc.c] / [adc.h],
    and the properties of the system lifecycle state machine, the interrupt
    gate, the clock configuration and the analog converter driver.

    Conventions.
    - C integers are [Z]; a value stored in a [uintN_t] object is reduced
      modulo [2^N] at the store ([to_uint8], [to_uint16], [to_uint32]).
    - A special function register is a 16-bit [Z]; a bit-field of the
      [xxxbits] view is read and written with [get_field] / [set_field].
    - What the device header and the compiler provide (which SFR macros
      exist, where a bit-field sits, whether [__XC16__] is defined) is not in
      the repository: it is a parameter, the record [Device].
    - A loop that waits for something the program itself never does is run
      with fuel; running out of fuel is the outcome [Blocked], which carries
      the machine state at that moment. *)

From Stdlib Require Import ZArith Lia List Bool String.
From Stdlib Require Import Ascii DecimalString.
Import ListNotations.
Local Open Scope Z_scope.

(* ====================================================================== *)
(** * Fixed-width integers and bit-fields *)
(* ====================================================================== *)

Module Bits.

Definition to_uint8 (z : Z) : Z := z mod 2 ^ 8.
Definition to_uint16 (z : Z) : Z := z mod 2 ^ 16.
Definition to_uint32 (z : Z) : Z := z mod 2 ^ 32.

(** A bit-field of a register: [width] bits starting at bit [lsb]. *)
Record BitField : Type := mkField { lsb : nat; width : nat }.

Definition field_mask (f : BitField) : Z :=
  Z.shiftl (Z.ones (Z.of_nat (width f))) (Z.of_nat (lsb f)).

(** [REGbits.F] as an rvalue. *)
Definition get_field (f : BitField) (reg : Z) : Z :=
  Z.land (Z.shiftr reg (Z.of_nat (lsb f))) (Z.ones (Z.of_nat (width f))).

(** [REGbits.F = v]: the bits of the field are replaced by the low bits of
    [v], every other bit of the register is kept. *)
Definition set_field (f : BitField) (v reg : Z) : Z :=
  Z.lor (Z.ldiff reg (field_mask f))
        (Z.land (Z.shiftl v (Z.of_nat (lsb f))) (field_mask f)).

(** Two fields of one register that share no bit. *)
Definition disjoint (f g : BitField) : Prop :=
  (lsb f + width f <= lsb g)%nat \/ (lsb g + width g <= lsb f)%nat.

Lemma testbit_field_mask (f : BitField) (i : Z) :
  0 <= i ->
  Z.testbit (field_mask f) i =
  (Z.of_nat (lsb f) <=? i) && (i <? Z.of_nat (lsb f) + Z.of_nat (width f)).
Proof.
  intros Hi. unfold field_mask.
  rewrite Z.shiftl_spec by exact Hi.
  destruct (Z.leb_spec (Z.of_nat (lsb f)) i) as [Hle | Hlt].
  - rewrite Z.testbit_ones by lia.
    destruct (Z.ltb_spec i (Z.of_nat (lsb f) + Z.of_nat (width f)));
      destruct (Z.ltb_spec (i - Z.of_nat (lsb f)) (Z.of_nat (width f)));
      destruct (Z.leb_spec 0 (i - Z.of_nat (lsb f))); simpl; try reflexivity; lia.
  - rewrite Z.testbit_neg_r by lia. reflexivity.
Qed.

Lemma testbit_get_field (f : BitField) (reg i : Z) :
  0 <= i ->
  Z.testbit (get_field f reg) i =
  Z.testbit reg (i + Z.of_nat (lsb f)) && (i <? Z.of_nat (width f)).
Proof.
  intros Hi. unfold get_field.
  rewrite Z.land_spec, Z.shiftr_spec by exact Hi.
  rewrite Z.testbit_ones by lia.
  destruct (Z.leb_spec 0 i); [reflexivity | lia].
Qed.

Lemma testbit_set_field (f : BitField) (v reg i : Z) :
  0 <= i ->
  Z.testbit (set_field f v reg) i =
  if (Z.of_nat (lsb f) <=? i) && (i <? Z.of_nat (lsb f) + Z.of_nat (width f))
  then Z.testbit v (i - Z.of_nat (lsb f))
  else Z.testbit reg i.
Proof.
  intros Hi. unfold set_field.
  rewrite Z.lor_spec, Z.ldiff_spec, Z.land_spec, Z.shiftl_spec by exact Hi.
  rewrite testbit_field_mask by exact Hi.
  destruct ((Z.of_nat (lsb f) <=? i) &&
            (i <? Z.of_nat (lsb f) + Z.of_nat (width f))); simpl.
  - rewrite andb_false_r, andb_true_r. reflexivity.
  - rewrite andb_true_r, andb_false_r, orb_false_r. reflexivity.
Qed.

(** Reading back the field just written gives the value truncated to the
    field's width. *)
Lemma get_set_same (f : BitField) (v reg : Z) :
  get_field f (set_field f v reg) = v mod 2 ^ Z.of_nat (width f).
Proof.
  rewrite <- Z.land_ones by lia.
  apply Z.bits_inj'. intros i Hi.
  rewrite testbit_get_field, Z.land_spec by exact Hi.
  rewrite testbit_set_field by lia.
  rewrite Z.testbit_ones by lia.
  destruct (Z.ltb_spec i (Z.of_nat (width f))) as [Hlt | Hge].
  - replace ((Z.of_nat (lsb f) <=? i + Z.of_nat (lsb f)) &&
             (i + Z.of_nat (lsb f) <? Z.of_nat (lsb f) + Z.of_nat (width f)))
      with true.
    + replace (i + Z.of_nat (lsb f) - Z.of_nat (lsb f)) with i by lia.
      destruct (Z.leb_spec 0 i); [reflexivity | lia].
    + symmetry. apply andb_true_intro. split.
      * apply Z.leb_le. lia.
      * apply Z.ltb_lt. lia.
  - rewrite !andb_false_r. reflexivity.
Qed.

(** Writing one field leaves every disjoint field as it was. *)
Lemma get_set_other (f g : BitField) (v reg : Z) :
  disjoint f g ->
  get_field f (set_field g v reg) = get_field f reg.
Proof.
  intros Hd. apply Z.bits_inj'. intros i Hi.
  rewrite !testbit_get_field by exact Hi.
  rewrite testbit_set_field by lia.
  destruct (Z.ltb_spec i (Z.of_nat (width f))) as [Hlt | Hge].
  - replace ((Z.of_nat (lsb g) <=? i + Z.of_nat (lsb f)) &&
             (i + Z.of_nat (lsb f) <? Z.of_nat (lsb g) + Z.of_nat (width g)))
      with false; [reflexivity |].
    symmetry. apply andb_false_iff.
    destruct Hd as [Hd | Hd].
    + left. apply Z.leb_gt. lia.
    + right. apply Z.ltb_ge. lia.
  - rewrite !andb_false_r. reflexivity.
Qed.

(** Writing zero to a field clears the bits of the field and nothing
    else. *)
Lemma set_field_zero (f : BitField) (reg : Z) :
  set_field f 0 reg = Z.ldiff reg (field_mask f).
Proof.
  unfold set_field. rewrite Z.shiftl_0_l, Z.land_0_l, Z.lor_0_r. reflexivity.
Qed.

Lemma testbit_to_uint16 (z i : Z) :
  0 <= i -> Z.testbit (to_uint16 z) i = Z.testbit z i && (i <? 16).
Proof.
  intros Hi. unfold to_uint16.
  destruct (Z.ltb_spec i 16).
  - rewrite Z.mod_pow2_bits_low by lia. rewrite andb_true_r. reflexivity.
  - rewrite Z.mod_pow2_bits_high by lia. rewrite andb_false_r. reflexivity.
Qed.

(** A field that lies within the 16 bits of a register. *)
Definition in_register (f : BitField) : Prop := (lsb f + width f <= 16)%nat.

Lemma get_field_to_uint16 (f : BitField) (reg : Z) :
  in_register f -> get_field f (to_uint16 reg) = get_field f reg.
Proof.
  unfold in_register. intros Hf. apply Z.bits_inj'. intros i Hi.
  rewrite !testbit_get_field by exact Hi.
  rewrite testbit_to_uint16 by lia.
  destruct (Z.ltb_spec i (Z.of_nat (width f))) as [Hlt | Hge].
  - replace (i + Z.of_nat (lsb f) <? 16) with true;
      [rewrite !andb_true_r; reflexivity |].
    symmetry. apply Z.ltb_lt. lia.
  - rewrite !andb_false_r. reflexivity.
Qed.

Lemma land_ones_range (z : Z) (n : Z) :
  0 <= n -> 0 <= Z.land z (Z.ones n) < 2 ^ n.
Proof.
  intros Hn. rewrite Z.land_ones by exact Hn. apply Z.mod_pos_bound. lia.
Qed.

(** Only the low [width] bits of the value written to a field count. *)
Lemma set_field_mod (f : BitField) (v reg : Z) :
  set_field f (v mod 2 ^ Z.of_nat (width f)) reg = set_field f v reg.
Proof.
  apply Z.bits_inj'. intros i Hi.
  rewrite !testbit_set_field by exact Hi.
  destruct (Z.leb_spec (Z.of_nat (lsb f)) i) as [Hle | Hlt]; simpl;
    [| reflexivity].
  destruct (Z.ltb_spec i (Z.of_nat (lsb f) + Z.of_nat (width f)))
    as [Hin | Hout]; [| reflexivity].
  apply Z.mod_pow2_bits_low. lia.
Qed.

(** Masking with [0xFF00] keeps a value within 16 bits. *)
Lemma to_uint16_land_high (t : Z) :
  to_uint16 (Z.land t 0xFF00) = Z.land t 0xFF00.
Proof.
  apply Z.bits_inj'. intros i Hi.
  rewrite testbit_to_uint16, Z.land_spec by exact Hi.
  destruct (Z.ltb_spec i 16) as [Hlt | Hge].
  - rewrite andb_true_r. reflexivity.
  - rewrite andb_false_r.
    replace (Z.testbit 0xFF00 i) with false; [rewrite andb_false_r; reflexivity |].
    symmetry. change 0xFF00 with (Z.shiftl (Z.ones 8) 8).
    rewrite Z.shiftl_spec, Z.testbit_ones_nonneg by lia.
    apply Z.ltb_ge. lia.
Qed.

Lemma testbit_0xFF (i : Z) : 0 <= i -> Z.testbit 0xFF i = (i <? 8).
Proof.
  intros Hi. change 0xFF with (Z.ones 8). apply Z.testbit_ones_nonneg; lia.
Qed.

Lemma testbit_0xFF00 (i : Z) :
  0 <= i -> Z.testbit 0xFF00 i = (8 <=? i) && (i <? 16).
Proof.
  intros Hi. change 0xFF00 with (Z.shiftl (Z.ones 8) 8).
  rewrite Z.shiftl_spec by exact Hi.
  destruct (Z.leb_spec 8 i) as [Hle | Hlt]; simpl.
  - rewrite Z.testbit_ones_nonneg by lia.
    destruct (Z.ltb_spec (i - 8) 8), (Z.ltb_spec i 16); try reflexivity; lia.
  - apply Z.testbit_neg_r. lia.
Qed.

(** Setting the low byte of a 16-bit register and keeping the rest. *)
Lemma set_low_byte_low (t : Z) :
  Z.land (to_uint16 (Z.lor t 0xFF)) 0xFF = 0xFF.
Proof.
  apply Z.bits_inj'. intros i Hi.
  rewrite Z.land_spec, testbit_to_uint16, Z.lor_spec, testbit_0xFF by exact Hi.
  destruct (Z.ltb_spec i 8), (Z.ltb_spec i 16), (Z.testbit t i);
    try reflexivity; lia.
Qed.

Lemma set_low_byte_high (t : Z) :
  Z.land (to_uint16 (Z.lor t 0xFF)) 0xFF00 = Z.land t 0xFF00.
Proof.
  apply Z.bits_inj'. intros i Hi.
  rewrite !Z.land_spec, testbit_to_uint16, Z.lor_spec, testbit_0xFF,
    testbit_0xFF00 by exact Hi.
  destruct (Z.ltb_spec i 8), (Z.ltb_spec i 16), (Z.leb_spec 8 i),
    (Z.testbit t i); try reflexivity; lia.
Qed.

(** A 16-bit value whose low byte is all ones is got back by clearing and
    then setting its low byte. *)
Lemma clear_then_set_low_byte (t : Z) :
  0 <= t < 2 ^ 16 -> Z.land t 0xFF = 0xFF ->
  to_uint16 (Z.lor (Z.land t 0xFF00) 0xFF) = t.
Proof.
  intros Ht Hlow. apply Z.bits_inj'. intros i Hi.
  rewrite testbit_to_uint16, Z.lor_spec, Z.land_spec, testbit_0xFF,
    testbit_0xFF00 by exact Hi.
  assert (Hl : Z.testbit (Z.land t 0xFF) i = Z.testbit 0xFF i)
    by (rewrite Hlow; reflexivity).
  rewrite Z.land_spec, testbit_0xFF in Hl by exact Hi.
  assert (Hh : 16 <= i -> Z.testbit t i = false).
  { intros H16. rewrite <- (Z.mod_small t (2 ^ 16)) by exact Ht.
    apply Z.mod_pow2_bits_high. lia. }
  destruct (Z.ltb_spec i 8), (Z.ltb_spec i 16), (Z.leb_spec 8 i);
    try lia; simpl.
  - rewrite andb_true_r in Hl. rewrite Hl. reflexivity.
  - destruct (Z.testbit t i); reflexivity.
  - rewrite Hh by lia. reflexivity.
Qed.

Lemma testbit_1 (i : Z) : 0 <= i -> Z.testbit 1 i = (i <? 1).
Proof.
  intros Hi. change 1 with (Z.ones 1) at 1.
  apply Z.testbit_ones_nonneg; lia.
Qed.

Lemma testbit_0xFFFE (i : Z) :
  0 <= i -> Z.testbit 0xFFFE i = (1 <=? i) && (i <? 16).
Proof.
  intros Hi. change 0xFFFE with (Z.shiftl (Z.ones 15) 1).
  rewrite Z.shiftl_spec by exact Hi.
  destruct (Z.leb_spec 1 i) as [Hle | Hlt]; simpl.
  - rewrite Z.testbit_ones_nonneg by lia.
    destruct (Z.ltb_spec (i - 1) 15), (Z.ltb_spec i 16); try reflexivity; lia.
  - apply Z.testbit_neg_r. lia.
Qed.

(** Clearing bit 0 of a 16-bit register, and setting it. *)
Lemma clear_bit0_low (r : Z) : Z.land (to_uint16 (Z.land r 0xFFFE)) 1 = 0.
Proof.
  apply Z.bits_inj'. intros i Hi.
  rewrite Z.land_spec, testbit_to_uint16, Z.land_spec, testbit_0xFFFE,
    testbit_1, Z.bits_0 by exact Hi.
  destruct (Z.ltb_spec i 1), (Z.leb_spec 1 i), (Z.ltb_spec i 16),
    (Z.testbit r i); try reflexivity; lia.
Qed.

Lemma clear_bit0_high (r : Z) :
  Z.land (to_uint16 (Z.land r 0xFFFE)) 0xFFFE = Z.land r 0xFFFE.
Proof.
  apply Z.bits_inj'. intros i Hi.
  rewrite !Z.land_spec, testbit_to_uint16, Z.land_spec, testbit_0xFFFE
    by exact Hi.
  destruct (Z.leb_spec 1 i), (Z.ltb_spec i 16), (Z.testbit r i);
    try reflexivity; lia.
Qed.

Lemma set_bit0_low (r : Z) : Z.land (to_uint16 (Z.lor r 1)) 1 = 1.
Proof.
  apply Z.bits_inj'. intros i Hi.
  rewrite Z.land_spec, testbit_to_uint16, Z.lor_spec, testbit_1 by exact Hi.
  destruct (Z.ltb_spec i 1), (Z.ltb_spec i 16), (Z.testbit r i);
    try reflexivity; lia.
Qed.

(** A value of at most eight bits has nothing in the high byte. *)
Lemma land_high_of_byte (x : Z) : 0 <= x <= 255 -> Z.land x 0xFF00 = 0.
Proof.
  intros Hx. apply Z.bits_inj'. intros i Hi.
  rewrite Z.land_spec, testbit_0xFF00, Z.bits_0 by exact Hi.
  destruct (Z.leb_spec 8 i) as [Hle | Hlt]; simpl.
  - replace (Z.testbit x i) with false; [reflexivity |].
    symmetry. rewrite <- (Z.mod_small x (2 ^ 8)) by (change (2 ^ 8) with 256; lia).
    apply Z.mod_pow2_bits_high. lia.
  - apply andb_false_r.
Qed.

(** The eight bits above the low four of a 12-bit value. *)
Lemma top_eight_of_twelve (v : Z) :
  0 <= v <= 4095 ->
  to_uint8 (Z.land (Z.shiftr v 4) 0xFF) = v / 16 /\ 0 <= v / 16 <= 255.
Proof.
  intros Hv.
  assert (Hq : 0 <= v / 16 <= 255).
  { split; [apply Z.div_pos; lia |].
    apply Z.lt_succ_r. apply Z.div_lt_upper_bound; lia. }
  split; [| exact Hq].
  rewrite Z.shiftr_div_pow2 by lia. change (2 ^ 4) with 16.
  change 0xFF with (Z.ones 8). rewrite Z.land_ones by lia.
  unfold to_uint8. change (2 ^ 8) with 256.
  rewrite (Z.mod_small (v / 16) 256) by lia.
  apply Z.mod_small. lia.
Qed.

(** A high byte and a low byte put together stay within 16 bits. *)
Lemma to_uint16_lor_bytes (t x : Z) :
  0 <= x <= 255 ->
  to_uint16 (Z.lor (Z.land t 0xFF00) x) = Z.lor (Z.land t 0xFF00) x.
Proof.
  intros Hx. apply Z.bits_inj'. intros i Hi.
  rewrite testbit_to_uint16, Z.lor_spec, Z.land_spec, testbit_0xFF00
    by exact Hi.
  destruct (Z.ltb_spec i 16) as [Hlt | Hge].
  - rewrite andb_true_r. reflexivity.
  - rewrite andb_false_r.
    replace (Z.testbit x i) with false.
    + destruct (Z.testbit t i), (8 <=? i); reflexivity.
    + symmetry.
      rewrite <- (Z.mod_small x (2 ^ 8)) by (change (2 ^ 8) with 256; lia).
      apply Z.mod_pow2_bits_high. lia.
Qed.

Lemma lor_bytes_low (t x : Z) :
  0 <= x <= 255 -> Z.land (Z.lor (Z.land t 0xFF00) x) 0xFF = x.
Proof.
  intros Hx. apply Z.bits_inj'. intros i Hi.
  rewrite Z.land_spec, Z.lor_spec, Z.land_spec, testbit_0xFF00, testbit_0xFF
    by exact Hi.
  destruct (Z.ltb_spec i 8) as [Hlt | Hge].
  - destruct (Z.leb_spec 8 i); [lia |].
    rewrite andb_false_l, andb_false_r, orb_false_l, andb_true_r.
    reflexivity.
  - replace (Z.testbit x i) with false; [apply andb_false_r |].
    symmetry.
    rewrite <- (Z.mod_small x (2 ^ 8)) by (change (2 ^ 8) with 256; lia).
    apply Z.mod_pow2_bits_high. lia.
Qed.

Lemma lor_bytes_high (t x : Z) :
  0 <= x <= 255 -> Z.land (Z.lor (Z.land t 0xFF00) x) 0xFF00 = Z.land t 0xFF00.
Proof.
  intros Hx. apply Z.bits_inj'. intros i Hi.
  rewrite !Z.land_spec, Z.lor_spec, Z.land_spec, testbit_0xFF00 by exact Hi.
  destruct (Z.leb_spec 8 i) as [Hle | Hlt]; simpl.
  - replace (Z.testbit x i) with false.
    + destruct (Z.testbit t i), (i <? 16); reflexivity.
    + symmetry.
      rewrite <- (Z.mod_small x (2 ^ 8)) by (change (2 ^ 8) with 256; lia).
      apply Z.mod_pow2_bits_high. lia.
  - rewrite !andb_false_r. reflexivity.
Qed.

Lemma to_uint8_range (z : Z) : 0 <= to_uint8 z <= 255.
Proof.
  unfold to_uint8. change (2 ^ 8) with 256.
  pose proof (Z.mod_pos_bound z 256 ltac:(lia)). lia.
Qed.

End Bits.

(* ====================================================================== *)
(** * What the tool chain provides: [<xc.h>] and the compiler *)
(* ====================================================================== *)

Module Xc.
Import Bits.

(** The part of the device header and of the compiler's predefined macros
    that the sources test with [#ifdef] or reach through an [xxxbits] view.
    None of it is in the repository, so every function below takes it as a
    parameter. *)
Record Device : Type := mkDevice {
  def_XC16 : bool;            (** [__XC16__] is defined *)
  def_LATB : bool;            (** [LATB] is defined *)
  def_TRISB : bool;           (** [TRISB] is defined *)
  def_TRISBbits : bool;       (** [TRISBbits] is defined *)
  bf_TRISB : nat -> BitField; (** [TRISBbits.TRISB0] .. [TRISBbits.TRISB7] *)
  def_AD1CON1 : bool;         (** [AD1CON1] is defined *)
  def_AD1CHS0 : bool;         (** [AD1CHS0] is defined *)
  def_ADC1BUF0 : bool;        (** [ADC1BUF0] is defined *)
  bf_SAMP : BitField;         (** [AD1CON1bits.SAMP] *)
  bf_DONE : BitField;         (** [AD1CON1bits.DONE] *)
  bf_CH0SA : BitField         (** [AD1CHS0bits.CH0SA] *)
}.

(** The target of the repository, built with XC16: every register the
    sources name exists, [DONE] is bit 0 and [SAMP] bit 1 of [AD1CON1],
    [CH0SA] is bits 4..0 of [AD1CHS0], [TRISBn] is bit [n] of [TRISB]. *)
Definition p33FJ32MC204 : Device :=
  {| def_XC16 := true;
     def_LATB := true; def_TRISB := true; def_TRISBbits := true;
     bf_TRISB := fun n => mkField n 1;
     def_AD1CON1 := true; def_AD1CHS0 := true; def_ADC1BUF0 := true;
     bf_SAMP := mkField 1 1; bf_DONE := mkField 0 1;
     bf_CH0SA := mkField 0 5 |}.

(** A tool chain that defines none of the tested macros: every [#ifdef]
    of the sources takes its fallback. *)
Definition bare_toolchain : Device :=
  {| def_XC16 := false;
     def_LATB := false; def_TRISB := false; def_TRISBbits := false;
     bf_TRISB := fun n => mkField n 1;
     def_AD1CON1 := false; def_AD1CHS0 := false; def_ADC1BUF0 := false;
     bf_SAMP := mkField 1 1; bf_DONE := mkField 0 1;
     bf_CH0SA := mkField 0 5 |}.

End Xc.

(* ====================================================================== *)
(** * config.h: option selection and the clock constants *)
(* ====================================================================== *)

Module Config.
Import Bits.

(** The choices a user of [config.h] makes: which [CONFIG_*] lines are left
    uncommented (section 1 and section 8 of the header), and which of the
    frequency macros are already defined when the header is read (each
    [#define] of a frequency is guarded by [#ifndef]). *)
Record Options : Type := mkOptions {
  CONFIG_OSC_INTERNO_PLL : bool;
  CONFIG_OSC_INTERNO_SIMPLE : bool;
  CONFIG_OSC_EXTERNO_PLL : bool;
  CONFIG_OSC_EXTERNO_SIMPLE : bool;
  CONFIG_PORT_B_ENABLED : bool;
  predefined_FOSC_PRIM : option Z;
  predefined_FOSC : option Z;
  predefined_FCY : option Z
}.

(** The header as it stands in the repository: option A and port B. *)
Definition config_h : Options :=
  {| CONFIG_OSC_INTERNO_PLL := true;
     CONFIG_OSC_INTERNO_SIMPLE := false;
     CONFIG_OSC_EXTERNO_PLL := false;
     CONFIG_OSC_EXTERNO_SIMPLE := false;
     CONFIG_PORT_B_ENABLED := true;
     predefined_FOSC_PRIM := None;
     predefined_FOSC := None;
     predefined_FCY := None |}.

(** The header with every oscillator option commented out. *)
Definition no_oscillator_selected : Options :=
  {| CONFIG_OSC_INTERNO_PLL := false;
     CONFIG_OSC_INTERNO_SIMPLE := false;
     CONFIG_OSC_EXTERNO_PLL := false;
     CONFIG_OSC_EXTERNO_SIMPLE := false;
     CONFIG_PORT_B_ENABLED := true;
     predefined_FOSC_PRIM := None;
     predefined_FOSC := None;
     predefined_FCY := None |}.

(** What the preprocessor reports while reading the header. A warning lets
    the build go on, an error stops it. *)
Inductive Diagnostic : Type :=
| PpWarning (msg : string)
| PpError (msg : string).

(** The [#warning] of the last branch of the oscillator chain: the
    configuration warning for "no oscillator option selected". *)
Definition ConfigurationWarning : Diagnostic :=
  PpWarning "Ninguna opción de oscilador seleccionada en config.h: usando valores por defecto".

Definition is_fatal (d : Diagnostic) : bool :=
  match d with PpWarning _ => false | PpError _ => true end.

(** The three frequency macros; [None] is "not defined". *)
Record Macros : Type := mkMacros {
  FOSC_PRIM : option Z;
  FOSC : option Z;
  FCY : option Z
}.

(** [#ifndef M] / [#define M body] / [#endif]. *)
Definition ifndef_define (M : option Z) (body : Z) : option Z :=
  match M with
  | Some v => Some v
  | None => Some body
  end.

Definition value (M : option Z) : Z :=
  match M with Some v => v | None => 0 end.

(** An [UL] constant. *)
Definition UL (z : Z) : Z := to_uint32 z.

(** The value a frequency macro stands for is that of an integer constant:
    not negative, and within the widest integer type of the compiler (64
    bits). *)
Definition integer_constant (z : Z) : Prop := 0 <= z < 2 ^ 64.

(** [a / 2UL], the division of a macro's value by an [UL] constant. The
    usual arithmetic conversions bring both operands to the wider of
    their types: a dividend that fits [unsigned long] is divided there, and
    one that does not has a 64-bit type ([long long] or
    [unsigned long long]), to which the divisor is converted. In both
    cases no bit of the dividend is lost before the division, so that the
    quotient of an integer constant is the mathematical one; it is cut to
    32 bits only where it is converted ([SYSTEM_GetClockFrequency]). *)
Definition div_UL (a b : Z) : Z := a / UL b.

(** The three guarded definitions of a branch that names both frequencies
    (options A and C): [FOSC_PRIM prim], [FOSC sys], [FCY (FOSC / 2UL)]. *)
Definition define_pll (prim sys : Z) (m : Macros) : Macros :=
  let m1 := mkMacros (ifndef_define (FOSC_PRIM m) (UL prim)) (FOSC m) (FCY m) in
  let m2 := mkMacros (FOSC_PRIM m1) (ifndef_define (FOSC m1) (UL sys)) (FCY m1) in
  mkMacros (FOSC_PRIM m2) (FOSC m2)
           (ifndef_define (FCY m2) (div_UL (value (FOSC m2)) 2)).

(** The three guarded definitions of a branch without PLL (options B, D
    and the default): [FOSC_PRIM prim], [FOSC FOSC_PRIM],
    [FCY (FOSC / 2UL)]. *)
Definition define_simple (prim : Z) (m : Macros) : Macros :=
  let m1 := mkMacros (ifndef_define (FOSC_PRIM m) (UL prim)) (FOSC m) (FCY m) in
  let m2 := mkMacros (FOSC_PRIM m1)
                     (ifndef_define (FOSC m1) (value (FOSC_PRIM m1))) (FCY m1) in
  mkMacros (FOSC_PRIM m2) (FOSC m2)
           (ifndef_define (FCY m2) (div_UL (value (FOSC m2)) 2)).

(** Lines 88-166 of [config.h]: the [#if] / [#elif] chain over the
    oscillator options, then the check that [FCY] is defined. *)
Definition preprocess (o : Options) : Macros * list Diagnostic :=
  let m0 := mkMacros (predefined_FOSC_PRIM o) (predefined_FOSC o)
                     (predefined_FCY o) in
  let '(m, ds) :=
    if CONFIG_OSC_INTERNO_PLL o then (define_pll 8000000 80000000 m0, [])
    else if CONFIG_OSC_INTERNO_SIMPLE o then (define_simple 7370000 m0, [])
    else if CONFIG_OSC_EXTERNO_PLL o then (define_pll 8000000 80000000 m0, [])
    else if CONFIG_OSC_EXTERNO_SIMPLE o then (define_simple 7370000 m0, [])
    else (define_simple 7370000 m0, [ConfigurationWarning]) in
  match FCY m with
  | Some _ => (m, ds)
  | None => (m, ds ++ [PpError "FCY no definido. Revisa la sección de configuración de oscilador en config.h"])
  end.

Definition macros (o : Options) : Macros := fst (preprocess o).
Definition diagnostics (o : Options) : list Diagnostic := snd (preprocess o).

(** The build goes through when no diagnostic is an error. *)
Definition builds (o : Options) : bool :=
  forallb (fun d => negb (is_fatal d)) (diagnostics o).

(** [SYSTEM_GetClockFrequency] of [config.c] (and its inline twin in
    [config.h]): [return (uint32_t)FCY;]. *)
Definition SYSTEM_GetClockFrequency (o : Options) : Z :=
  to_uint32 (value (FCY (macros o))).

Lemma FCY_always_defined (o : Options) :
  exists v, FCY (macros o) = Some v.
Proof.
  unfold macros, preprocess, define_pll, define_simple, ifndef_define.
  destruct o as [a b c d p fp fs fc]; simpl.
  destruct a, b, c, d, fc; simpl; eauto.
Qed.

Example config_h_clock : SYSTEM_GetClockFrequency config_h = 40000000.
Proof. reflexivity. Qed.

Example config_h_silent : diagnostics config_h = [].
Proof. reflexivity. Qed.

(** C9. When no oscillator option is selected (and no frequency macro is
    defined ahead of the header), reading [config.h] signals the
    configuration warning and nothing else, the warning is not fatal (the
    build goes on), the default profile [FOSC_PRIM = FOSC = 7370000] is
    substituted, and [SYSTEM_GetClockFrequency()] returns half of
    7,370,000, that is 3,685,000. *)
Theorem no_oscillator_default_clock (o : Options) :
  CONFIG_OSC_INTERNO_PLL o = false ->
  CONFIG_OSC_INTERNO_SIMPLE o = false ->
  CONFIG_OSC_EXTERNO_PLL o = false ->
  CONFIG_OSC_EXTERNO_SIMPLE o = false ->
  predefined_FOSC_PRIM o = None ->
  predefined_FOSC o = None ->
  predefined_FCY o = None ->
  diagnostics o = [ConfigurationWarning] /\
  is_fatal ConfigurationWarning = false /\
  builds o = true /\
  FOSC_PRIM (macros o) = Some 7370000 /\
  FOSC (macros o) = Some 7370000 /\
  SYSTEM_GetClockFrequency o = 7370000 / 2 /\
  SYSTEM_GetClockFrequency o = 3685000.
Proof.
  intros Ha Hb Hc Hd Hp Hs Hf.
  unfold SYSTEM_GetClockFrequency, builds, diagnostics, macros, preprocess.
  rewrite Ha, Hb, Hc, Hd, Hp, Hs, Hf.
  repeat split; reflexivity.
Qed.

Lemma no_oscillator_default_clock_witness :
  diagnostics no_oscillator_selected = [ConfigurationWarning] /\
  is_fatal ConfigurationWarning = false /\
  builds no_oscillator_selected = true /\
  FOSC_PRIM (macros no_oscillator_selected) = Some 7370000 /\
  FOSC (macros no_oscillator_selected) = Some 7370000 /\
  SYSTEM_GetClockFrequency no_oscillator_selected = 7370000 / 2 /\
  SYSTEM_GetClockFrequency no_oscillator_selected = 3685000.
Proof.
  apply (no_oscillator_default_clock no_oscillator_selected); reflexivity.
Defined.

(** ** More of the oscillator chain *)

Definition no_oscillator_option (o : Options) : bool :=
  negb (CONFIG_OSC_INTERNO_PLL o) && negb (CONFIG_OSC_INTERNO_SIMPLE o) &&
  negb (CONFIG_OSC_EXTERNO_PLL o) && negb (CONFIG_OSC_EXTERNO_SIMPLE o).

(** Options B and C both uncommented, A and D commented out. *)
Definition two_options_selected : Options :=
  {| CONFIG_OSC_INTERNO_PLL := false;
     CONFIG_OSC_INTERNO_SIMPLE := true;
     CONFIG_OSC_EXTERNO_PLL := true;
     CONFIG_OSC_EXTERNO_SIMPLE := false;
     CONFIG_PORT_B_ENABLED := true;
     predefined_FOSC_PRIM := None;
     predefined_FOSC := None;
     predefined_FCY := None |}.

(** The repository's header compiled with [-DFOSC=20000000UL]. *)
Definition fosc_on_command_line : Options :=
  {| CONFIG_OSC_INTERNO_PLL := true;
     CONFIG_OSC_INTERNO_SIMPLE := false;
     CONFIG_OSC_EXTERNO_PLL := false;
     CONFIG_OSC_EXTERNO_SIMPLE := false;
     CONFIG_PORT_B_ENABLED := true;
     predefined_FOSC_PRIM := None;
     predefined_FOSC := Some 20000000;
     predefined_FCY := None |}.

Example two_options_first_wins :
  SYSTEM_GetClockFrequency two_options_selected = 3685000 /\
  diagnostics two_options_selected = [].
Proof. split; reflexivity. Qed.

(** The repository's header compiled with [-DFOSC=5000000000]: a constant
    of type [long long], beyond [unsigned long]. *)
Definition fosc_beyond_unsigned_long : Options :=
  {| CONFIG_OSC_INTERNO_PLL := true;
     CONFIG_OSC_INTERNO_SIMPLE := false;
     CONFIG_OSC_EXTERNO_PLL := false;
     CONFIG_OSC_EXTERNO_SIMPLE := false;
     CONFIG_PORT_B_ENABLED := true;
     predefined_FOSC_PRIM := None;
     predefined_FOSC := Some 5000000000;
     predefined_FCY := None |}.

(** The header with option B compiled with [-DFOSC_PRIM=5000000000]:
    [FOSC] is [FOSC_PRIM] there, and [FCY] half of it. *)
Definition fosc_prim_beyond_unsigned_long : Options :=
  {| CONFIG_OSC_INTERNO_PLL := false;
     CONFIG_OSC_INTERNO_SIMPLE := true;
     CONFIG_OSC_EXTERNO_PLL := false;
     CONFIG_OSC_EXTERNO_SIMPLE := false;
     CONFIG_PORT_B_ENABLED := true;
     predefined_FOSC_PRIM := Some 5000000000;
     predefined_FOSC := None;
     predefined_FCY := None |}.

Example fosc_beyond_unsigned_long_clock :
  SYSTEM_GetClockFrequency fosc_beyond_unsigned_long = 2500000000 /\
  SYSTEM_GetClockFrequency fosc_prim_beyond_unsigned_long = 2500000000.
Proof. split; reflexivity. Qed.

Example fosc_on_command_line_clock :
  SYSTEM_GetClockFrequency fosc_on_command_line = 10000000 /\
  FOSC_PRIM (macros fosc_on_command_line) = Some 8000000.
Proof. split; reflexivity. Qed.

(** X1. Whatever options are selected and whatever frequency macros are
    defined ahead of the header, reading [config.h] never reaches its
    [#error]: [FCY] is defined at the check, the build goes through, and the
    header reports either nothing or the one configuration warning. *)
Theorem config_h_never_fatal (o : Options) :
  builds o = true /\
  (exists v, FCY (macros o) = Some v) /\
  (forall msg, ~ In (PpError msg) (diagnostics o)) /\
  (diagnostics o = [] \/ diagnostics o = [ConfigurationWarning]).
Proof.
  unfold builds, diagnostics, macros, preprocess, define_pll, define_simple,
    ifndef_define.
  destruct o as [a b c d p fp fs fc]; simpl.
  destruct a, b, c, d, fc; simpl;
    (split; [reflexivity |]);
    (split; [eexists; reflexivity |]);
    (split; [intros msg Hin; simpl in Hin;
             repeat (destruct Hin as [Hin | Hin]; [discriminate Hin |]);
             exact Hin |]);
    first [left; reflexivity | right; reflexivity].
Qed.

(** X2. The configuration warning is given exactly when none of the four
    oscillator options is defined; any one option, alone or with others,
    silences it, and a frequency macro defined ahead of the header does
    not. *)
Theorem warning_iff_no_oscillator_option (o : Options) :
  (In ConfigurationWarning (diagnostics o) <->
   CONFIG_OSC_INTERNO_PLL o = false /\
   CONFIG_OSC_INTERNO_SIMPLE o = false /\
   CONFIG_OSC_EXTERNO_PLL o = false /\
   CONFIG_OSC_EXTERNO_SIMPLE o = false) /\
  diagnostics o =
    (if no_oscillator_option o then [ConfigurationWarning] else []).
Proof.
  unfold no_oscillator_option, diagnostics, preprocess, define_pll,
    define_simple, ifndef_define.
  destruct o as [a b c d p fp fs fc]; simpl.
  destruct a, b, c, d, fc; simpl; (split; [| reflexivity]);
    split; try (intros []; fail); try (intros (H1 & H2 & H3 & H4); discriminate);
    try (intros _; repeat split; reflexivity);
    try (intros _; left; reflexivity).
Qed.

(** X3. With no frequency macro defined ahead of the header, the first
    defined option in the order A, B, C, D of the [#if] chain decides, also
    when several are defined at once: the instruction frequency is
    40,000,000 when that option is a PLL one (A or C) and 3,685,000 when it
    is not (B, D, or none); and the instruction frequency is always half of
    [FOSC]. *)
Theorem clock_follows_first_option (o : Options) :
  predefined_FOSC_PRIM o = None ->
  predefined_FOSC o = None ->
  predefined_FCY o = None ->
  SYSTEM_GetClockFrequency o =
    (if CONFIG_OSC_INTERNO_PLL o then 40000000
     else if CONFIG_OSC_INTERNO_SIMPLE o then 3685000
     else if CONFIG_OSC_EXTERNO_PLL o then 40000000
     else 3685000) /\
  FOSC (macros o) = Some (2 * SYSTEM_GetClockFrequency o).
Proof.
  intros Hp Hs Hf.
  unfold SYSTEM_GetClockFrequency, macros, preprocess.
  rewrite Hp, Hs, Hf.
  destruct (CONFIG_OSC_INTERNO_PLL o), (CONFIG_OSC_INTERNO_SIMPLE o),
    (CONFIG_OSC_EXTERNO_PLL o), (CONFIG_OSC_EXTERNO_SIMPLE o);
    split; reflexivity.
Qed.

Lemma clock_follows_first_option_witness :
  SYSTEM_GetClockFrequency two_options_selected =
    (if CONFIG_OSC_INTERNO_PLL two_options_selected then 40000000
     else if CONFIG_OSC_INTERNO_SIMPLE two_options_selected then 3685000
     else if CONFIG_OSC_EXTERNO_PLL two_options_selected then 40000000
     else 3685000) /\
  FOSC (macros two_options_selected) =
    Some (2 * SYSTEM_GetClockFrequency two_options_selected).
Proof.
  apply (clock_follows_first_option two_options_selected); reflexivity.
Defined.

(** X4. The [#ifndef] guards let a frequency defined ahead of the header
    win over the header's own value, whatever option is selected: a
    predefined [FCY] is what [SYSTEM_GetClockFrequency()] returns (as a
    [uint32_t]); with [FCY] left to the header, a predefined [FOSC] that is
    an integer constant makes [FCY] exactly half of it, also when it does
    not fit [unsigned long] (the division is then a 64-bit one), and
    [SYSTEM_GetClockFrequency()] returns that half as a [uint32_t]; and a
    predefined [FOSC_PRIM] is kept as it is. *)
Theorem predefined_frequency_wins (o : Options) :
  (forall f, predefined_FCY o = Some f ->
             SYSTEM_GetClockFrequency o = to_uint32 f) /\
  (forall f, predefined_FCY o = None -> predefined_FOSC o = Some f ->
             integer_constant f ->
             FCY (macros o) = Some (f / 2) /\
             SYSTEM_GetClockFrequency o = to_uint32 (f / 2)) /\
  (forall f, predefined_FOSC_PRIM o = Some f ->
             FOSC_PRIM (macros o) = Some f).
Proof.
  unfold SYSTEM_GetClockFrequency, macros, preprocess, define_pll,
    define_simple, ifndef_define, div_UL, UL.
  destruct o as [a b c d p fp fs fc]; simpl.
  split; [| split]; intros f; intros; subst;
    destruct a, b, c, d; simpl; try (split; reflexivity); try reflexivity;
    repeat match goal with x : option Z |- _ => destruct x end;
    try (split; reflexivity); reflexivity.
Qed.

(** The two chains in closed form, for use outside this module. *)
Lemma diagnostics_chain (o : Options) :
  diagnostics o =
  (if no_oscillator_option o then [ConfigurationWarning] else []).
Proof.
  unfold no_oscillator_option, diagnostics, preprocess, define_pll,
    define_simple, ifndef_define.
  destruct o as [a b c d p fp fs fc]; simpl.
  destruct a, b, c, d, fc; reflexivity.
Qed.

Lemma clock_chain (o : Options) :
  predefined_FOSC_PRIM o = None ->
  predefined_FOSC o = None ->
  predefined_FCY o = None ->
  SYSTEM_GetClockFrequency o =
    (if CONFIG_OSC_INTERNO_PLL o then 40000000
     else if CONFIG_OSC_INTERNO_SIMPLE o then 3685000
     else if CONFIG_OSC_EXTERNO_PLL o then 40000000
     else 3685000).
Proof.
  intros Hp Hs Hf.
  unfold SYSTEM_GetClockFrequency, macros, preprocess.
  rewrite Hp, Hs, Hf.
  destruct (CONFIG_OSC_INTERNO_PLL o), (CONFIG_OSC_INTERNO_SIMPLE o),
    (CONFIG_OSC_EXTERNO_PLL o), (CONFIG_OSC_EXTERNO_SIMPLE o); reflexivity.
Qed.

Lemma clock_in_uint32 (o : Options) :
  to_uint32 (SYSTEM_GetClockFrequency o) = SYSTEM_GetClockFrequency o.
Proof.
  unfold SYSTEM_GetClockFrequency, to_uint32.
  apply Z.mod_mod. discriminate.
Qed.

End Config.

(* ====================================================================== *)
(** * config.c: the system lifecycle *)
(* ====================================================================== *)

Module System.
Import Bits Xc.

(** [System_State_t] of [config.h], with the values the enumeration
    gives its members. *)
Inductive System_State_t : Type :=
| SYS_STATE_INIT
| SYS_STATE_READY
| SYS_STATE_BUSY
| SYS_STATE_ERROR
| SYS_STATE_SLEEP.

Definition enum_value (s : System_State_t) : Z :=
  match s with
  | SYS_STATE_INIT => 0
  | SYS_STATE_READY => 1
  | SYS_STATE_BUSY => 2
  | SYS_STATE_ERROR => 3
  | SYS_STATE_SLEEP => 4
  end.

(** The C comparison [a == b] of two states. *)
Definition state_eqb (a b : System_State_t) : bool :=
  enum_value a =? enum_value b.

(** What the lifecycle functions do to the world outside their own
    locals: the two interrupt builtins, and the stores to the port-B
    registers and to [system_state]. *)
Inductive Action : Type :=
| DisableInterrupts                        (** [__builtin_disable_interrupts()] *)
| EnableInterrupts                         (** [__builtin_enable_interrupts()] *)
| Store_LATB (v : Z)                       (** [LATB = v] *)
| Store_TRISB (v : Z)                      (** [TRISB = v], also through [TRISBbits] *)
| Store_system_state (s : System_State_t). (** [system_state = s] *)

Definition is_port_store (a : Action) : bool :=
  match a with
  | Store_LATB _ | Store_TRISB _ => true
  | _ => false
  end.

(** The machine as [config.c] sees it: its one static variable, the two
    port-B registers, the CPU's interrupt-enable flag, and a log of the
    actions performed so far, oldest first. Each log entry records the
    interrupt-enable flag at the moment the action was performed. The log is
    only written, never read, by the functions below. *)
Record Sys : Type := mkSys {
  system_state : System_State_t;
  LATB : Z;
  TRISB : Z;
  interrupts_enabled : bool;
  trace : list (Action * bool)
}.

(** The machine at reset: [static volatile System_State_t system_state =
    SYS_STATE_INIT;], the registers and the flag as the hardware left them. *)
Definition boot (latb trisb : Z) (ie : bool) : Sys :=
  mkSys SYS_STATE_INIT latb trisb ie [].

(** Modelled from the spec: the compiler builtins
    [__builtin_disable_interrupts] and [__builtin_enable_interrupts] are
    not in the repository. Section 4.2 of the specification gives them as
    switching a single process-wide maskable-interrupt flag off and on,
    without a nesting count. Each maps the flag before the call to the flag
    after it. *)
Definition builtin_disable_interrupts (flag : bool) : bool := false.
Definition builtin_enable_interrupts (flag : bool) : bool := true.

(** What an action does to the machine: the builtins act on the flag, a
    store replaces the stored value (a register holds 16 bits). *)
Definition effect (a : Action) (st : Sys) : Sys :=
  match a with
  | DisableInterrupts =>
      mkSys (system_state st) (LATB st) (TRISB st)
            (builtin_disable_interrupts (interrupts_enabled st)) (trace st)
  | EnableInterrupts =>
      mkSys (system_state st) (LATB st) (TRISB st)
            (builtin_enable_interrupts (interrupts_enabled st)) (trace st)
  | Store_LATB v =>
      mkSys (system_state st) (to_uint16 v) (TRISB st)
            (interrupts_enabled st) (trace st)
  | Store_TRISB v =>
      mkSys (system_state st) (LATB st) (to_uint16 v)
            (interrupts_enabled st) (trace st)
  | Store_system_state s =>
      mkSys s (LATB st) (TRISB st) (interrupts_enabled st) (trace st)
  end.

Definition record (a : Action) (st : Sys) : Sys :=
  mkSys (system_state st) (LATB st) (TRISB st) (interrupts_enabled st)
        (trace st ++ [(a, interrupts_enabled st)]).

(** Perform one action: log it with the flag as it is now, then apply it. *)
Definition perform (a : Action) (st : Sys) : Sys := effect a (record a st).

(** The entries the run from [st] to [st'] added to the log. *)
Definition since (st st' : Sys) : list (Action * bool) :=
  skipn (List.length (trace st)) (trace st').

(** [__builtin_nop()]: no effect on this machine. *)
Definition builtin_nop (st : Sys) : Sys := st.

(** Result of a call that may wait: it came back, or it was still waiting
    when the fuel ran out; either way with the machine as it then is. *)
Inductive Outcome : Type :=
| Returned (st : Sys)
| Blocked (st : Sys).

Definition machine (o : Outcome) : Sys :=
  match o with Returned st => st | Blocked st => st end.

Definition has_returned (o : Outcome) : bool :=
  match o with Returned _ => true | Blocked _ => false end.

Section Lifecycle.

Variable dev : Device.
Variable opts : Config.Options.

Definition SYSTEM_EnableInterrupts (st : Sys) : Sys :=
  if def_XC16 dev then perform EnableInterrupts st else st.

Definition SYSTEM_DisableInterrupts (st : Sys) : Sys :=
  if def_XC16 dev then perform DisableInterrupts st else st.

(** [TRISBbits.TRISBn = v]. *)
Definition store_TRISBbit (n : nat) (v : Z) (st : Sys) : Sys :=
  perform (Store_TRISB (set_field (bf_TRISB dev n) v (TRISB st))) st.

Definition ports_init (st : Sys) : Sys :=
  let st := if def_LATB dev then perform (Store_LATB 0) st else st in
  if Config.CONFIG_PORT_B_ENABLED opts then
    if def_TRISBbits dev then
      let st := store_TRISBbit 0 0 st in
      let st := store_TRISBbit 1 0 st in
      let st := store_TRISBbit 2 0 st in
      let st := store_TRISBbit 3 0 st in
      let st := store_TRISBbit 4 0 st in
      let st := store_TRISBbit 5 0 st in
      let st := store_TRISBbit 6 0 st in
      let st := store_TRISBbit 7 0 st in
      st
    else
      perform (Store_TRISB (Z.land (TRISB st) (to_uint16 (Z.lnot 255)))) st
  else
    if def_TRISB dev then perform (Store_TRISB (Z.lor (TRISB st) 255)) st
    else st.

Definition SYSTEM_Initialize (st : Sys) : Sys :=
  let st := SYSTEM_DisableInterrupts st in
  let st := ports_init st in
  let st := perform (Store_system_state SYS_STATE_READY) st in
  SYSTEM_EnableInterrupts st.

Definition SYSTEM_Deinitialize (st : Sys) : Sys :=
  let st := if def_TRISB dev
            then perform (Store_TRISB (Z.lor (TRISB st) 255)) st else st in
  perform (Store_system_state SYS_STATE_INIT) st.

Definition SYSTEM_Wakeup (st : Sys) : Sys :=
  if state_eqb (system_state st) SYS_STATE_SLEEP
  then perform (Store_system_state SYS_STATE_READY) st
  else st.

Definition SYSTEM_GetState (st : Sys) : System_State_t := system_state st.

(** A [while (cond) { __builtin_nop(); }] loop of the main context, with
    the one other execution context the design knows: an interrupt handler
    that calls [SYSTEM_Wakeup()]. [wake k = true] means that the handler
    runs just before the loop condition is evaluated for the [k]-th time
    (counted from 0). Each unit of fuel pays for one evaluation of the
    condition. *)
Fixpoint busy_wait (cond : Sys -> bool) (wake : nat -> bool)
         (k fuel : nat) (st : Sys) : Outcome :=
  match fuel with
  | O => Blocked st
  | S fuel' =>
      let st := if wake k then SYSTEM_Wakeup st else st in
      if cond st
      then busy_wait cond wake (S k) fuel' (builtin_nop st)
      else Returned st
  end.

Definition SYSTEM_EnterSleep (wake : nat -> bool) (fuel : nat) (st : Sys)
  : Outcome :=
  let st := perform (Store_system_state SYS_STATE_SLEEP) st in
  busy_wait (fun st => state_eqb (system_state st) SYS_STATE_SLEEP)
            wake 0 fuel st.

Definition SYSTEM_Reset (wake : nat -> bool) (fuel : nat) (st : Sys)
  : Outcome :=
  let st := perform (Store_system_state SYS_STATE_INIT) st in
  busy_wait (fun _ => true) wake 0 fuel st.

(** The calls that move the lifecycle machine. *)
Inductive Call : Type :=
| CallInitialize
| CallDeinitialize
| CallEnterSleep
| CallWakeup
| CallReset.

Definition run (c : Call) (wake : nat -> bool) (fuel : nat) (st : Sys)
  : Outcome :=
  match c with
  | CallInitialize => Returned (SYSTEM_Initialize st)
  | CallDeinitialize => Returned (SYSTEM_Deinitialize st)
  | CallEnterSleep => SYSTEM_EnterSleep wake fuel st
  | CallWakeup => Returned (SYSTEM_Wakeup st)
  | CallReset => SYSTEM_Reset wake fuel st
  end.

(** The machine states the firmware can be in: the state at boot, and
    the state in which any call leaves the machine, or in which it has the
    machine while it waits, whatever the interrupt handler does meanwhile. *)
Inductive reachable : Sys -> Prop :=
| reach_boot (latb trisb : Z) (ie : bool) :
    reachable (boot latb trisb ie)
| reach_run (c : Call) (wake : nat -> bool) (fuel : nat) (st : Sys) :
    reachable st -> reachable (machine (run c wake fuel st)).

(** ** Basic facts about actions and the log *)

Lemma state_eqb_eq (a b : System_State_t) :
  state_eqb a b = true <-> a = b.
Proof.
  unfold state_eqb. rewrite Z.eqb_eq.
  split; [| intros ->; reflexivity].
  destruct a, b; simpl; intros H; try reflexivity; discriminate.
Qed.

Lemma trace_perform (a : Action) (st : Sys) :
  trace (perform a st) = trace st ++ [(a, interrupts_enabled st)].
Proof. destruct a; reflexivity. Qed.

Lemma since_app (st st' : Sys) (l : list (Action * bool)) :
  trace st' = trace st ++ l -> since st st' = l.
Proof.
  intros H. unfold since. rewrite H, skipn_app, skipn_all, Nat.sub_diag.
  reflexivity.
Qed.

Lemma since_refl (st : Sys) : since st st = [].
Proof. apply since_app. rewrite app_nil_r. reflexivity. Qed.

Lemma since_perform (a : Action) (st : Sys) :
  since st (perform a st) = [(a, interrupts_enabled st)].
Proof. apply since_app, trace_perform. Qed.

(** A store to a port register changes neither the lifecycle state nor the
    interrupt flag. *)
Lemma perform_port_store (a : Action) (st : Sys) :
  is_port_store a = true ->
  system_state (perform a st) = system_state st /\
  interrupts_enabled (perform a st) = interrupts_enabled st.
Proof. destruct a; simpl; intros H; try discriminate; split; reflexivity. Qed.

(** [st'] comes from [st] by port stores only, all of them performed
    under the interrupt flag of [st]. *)
Definition port_stores_only (st st' : Sys) : Prop :=
  exists l,
    trace st' = trace st ++ l /\
    Forall (fun e => is_port_store (fst e) = true /\
                     snd e = interrupts_enabled st) l /\
    system_state st' = system_state st /\
    interrupts_enabled st' = interrupts_enabled st.

Lemma port_stores_only_refl (st : Sys) : port_stores_only st st.
Proof.
  exists []. rewrite app_nil_r. repeat split. constructor.
Qed.

Lemma port_stores_only_step (a : Action) (st st' : Sys) :
  is_port_store a = true ->
  port_stores_only st st' ->
  port_stores_only st (perform a st').
Proof.
  intros Ha (l & Ht & Hl & Hs & Hi).
  destruct (perform_port_store a st' Ha) as [Hs' Hi'].
  exists (l ++ [(a, interrupts_enabled st')]).
  rewrite trace_perform, Ht, app_assoc. repeat split.
  - apply Forall_app. split; [exact Hl |].
    constructor; [| constructor]. simpl. split; [exact Ha | exact Hi].
  - congruence.
  - congruence.
Qed.

(** What [ports_init] adds to the log: port stores only. *)
Lemma ports_init_log (st : Sys) : port_stores_only st (ports_init st).
Proof.
  unfold ports_init, store_TRISBbit.
  destruct (def_LATB dev), (Config.CONFIG_PORT_B_ENABLED opts),
    (def_TRISBbits dev), (def_TRISB dev); cbn zeta;
    repeat (apply port_stores_only_step; [reflexivity |]);
    apply port_stores_only_refl.
Qed.

(** ** The port registers after [ports_init] *)

Definition clear_TRISBbit (n : nat) (t : Z) : Z :=
  to_uint16 (set_field (bf_TRISB dev n) 0 t).

(** The value [ports_init] leaves in [TRISB], from the value it found. *)
Definition TRISB_after_ports (t : Z) : Z :=
  if Config.CONFIG_PORT_B_ENABLED opts then
    if def_TRISBbits dev then
      clear_TRISBbit 7 (clear_TRISBbit 6 (clear_TRISBbit 5 (clear_TRISBbit 4
        (clear_TRISBbit 3 (clear_TRISBbit 2 (clear_TRISBbit 1
          (clear_TRISBbit 0 t)))))))
    else to_uint16 (Z.land t (to_uint16 (Z.lnot 255)))
  else
    if def_TRISB dev then to_uint16 (Z.lor t 255) else t.

Lemma ports_init_TRISB (st : Sys) :
  TRISB (ports_init st) = TRISB_after_ports (TRISB st).
Proof.
  unfold ports_init, TRISB_after_ports, store_TRISBbit, clear_TRISBbit.
  destruct (def_LATB dev), (Config.CONFIG_PORT_B_ENABLED opts),
    (def_TRISBbits dev), (def_TRISB dev); reflexivity.
Qed.

Lemma ports_init_LATB (st : Sys) :
  LATB (ports_init st) = if def_LATB dev then 0 else LATB st.
Proof.
  unfold ports_init, store_TRISBbit.
  destruct (def_LATB dev), (Config.CONFIG_PORT_B_ENABLED opts),
    (def_TRISBbits dev), (def_TRISB dev); reflexivity.
Qed.

(** Clearing a one-bit field of a 16-bit register is masking the register
    with the 16-bit complement of the field. *)
Definition keep_mask (n : nat) : Z :=
  Z.ldiff (Z.ones 16) (field_mask (bf_TRISB dev n)).

Lemma clear_TRISBbit_land (n : nat) (t : Z) :
  clear_TRISBbit n t = Z.land t (keep_mask n).
Proof.
  unfold clear_TRISBbit, keep_mask.
  apply Z.bits_inj'. intros i Hi.
  rewrite testbit_to_uint16, set_field_zero by exact Hi.
  rewrite Z.land_spec, !Z.ldiff_spec, Z.testbit_ones_nonneg by lia.
  destruct (Z.testbit t i), (Z.testbit (field_mask (bf_TRISB dev n)) i),
    (i <? 16); reflexivity.
Qed.

Lemma land_land_same (t k : Z) : Z.land (Z.land t k) k = Z.land t k.
Proof. rewrite <- Z.land_assoc, Z.land_diag. reflexivity. Qed.

Definition keep_all : Z :=
  Z.land (keep_mask 0) (Z.land (keep_mask 1) (Z.land (keep_mask 2)
    (Z.land (keep_mask 3) (Z.land (keep_mask 4) (Z.land (keep_mask 5)
      (Z.land (keep_mask 6) (keep_mask 7))))))).

Lemma clear_TRISB0_7 (t : Z) :
  clear_TRISBbit 7 (clear_TRISBbit 6 (clear_TRISBbit 5 (clear_TRISBbit 4
    (clear_TRISBbit 3 (clear_TRISBbit 2 (clear_TRISBbit 1
      (clear_TRISBbit 0 t))))))) = Z.land t keep_all.
Proof.
  rewrite !clear_TRISBbit_land. unfold keep_all.
  rewrite <- !Z.land_assoc. reflexivity.
Qed.

(** Running the port setup on its own result changes nothing more. *)
Lemma TRISB_after_ports_idempotent (t : Z) :
  TRISB_after_ports (TRISB_after_ports t) = TRISB_after_ports t.
Proof.
  unfold TRISB_after_ports.
  destruct (Config.CONFIG_PORT_B_ENABLED opts), (def_TRISBbits dev),
    (def_TRISB dev); try reflexivity.
  1, 2: rewrite !clear_TRISB0_7; apply land_land_same.
  1, 2: apply Z.bits_inj'; intros i Hi;
        repeat first [ rewrite testbit_to_uint16 by exact Hi
                     | rewrite Z.land_spec ];
        destruct (Z.testbit t i), (Z.testbit (Z.lnot 255) i), (i <? 16);
        reflexivity.
  all: apply Z.bits_inj'; intros i Hi;
       repeat first [ rewrite testbit_to_uint16 by exact Hi
                    | rewrite Z.lor_spec ];
       destruct (Z.testbit t i), (Z.testbit 255 i), (i <? 16); reflexivity.
Qed.

(** ** The interrupt gate and [SYSTEM_Initialize], field by field *)

Lemma SYSTEM_EnableInterrupts_fields (st : Sys) :
  system_state (SYSTEM_EnableInterrupts st) = system_state st /\
  LATB (SYSTEM_EnableInterrupts st) = LATB st /\
  TRISB (SYSTEM_EnableInterrupts st) = TRISB st /\
  interrupts_enabled (SYSTEM_EnableInterrupts st) =
    (if def_XC16 dev then true else interrupts_enabled st).
Proof.
  unfold SYSTEM_EnableInterrupts. destruct (def_XC16 dev); repeat split.
Qed.

Lemma SYSTEM_DisableInterrupts_fields (st : Sys) :
  system_state (SYSTEM_DisableInterrupts st) = system_state st /\
  LATB (SYSTEM_DisableInterrupts st) = LATB st /\
  TRISB (SYSTEM_DisableInterrupts st) = TRISB st /\
  interrupts_enabled (SYSTEM_DisableInterrupts st) =
    (if def_XC16 dev then false else interrupts_enabled st).
Proof.
  unfold SYSTEM_DisableInterrupts. destruct (def_XC16 dev); repeat split.
Qed.

Lemma SYSTEM_Initialize_fields (st : Sys) :
  system_state (SYSTEM_Initialize st) = SYS_STATE_READY /\
  LATB (SYSTEM_Initialize st) = (if def_LATB dev then 0 else LATB st) /\
  TRISB (SYSTEM_Initialize st) = TRISB_after_ports (TRISB st) /\
  interrupts_enabled (SYSTEM_Initialize st) =
    (if def_XC16 dev then true else interrupts_enabled st).
Proof.
  unfold SYSTEM_Initialize.
  set (st1 := SYSTEM_DisableInterrupts st).
  set (st2 := ports_init st1).
  set (st3 := perform (Store_system_state SYS_STATE_READY) st2).
  destruct (SYSTEM_EnableInterrupts_fields st3) as (Hs & Hl & Ht & Hi).
  destruct (SYSTEM_DisableInterrupts_fields st) as (_ & Hl1 & Ht1 & Hi1).
  destruct (ports_init_log st1) as (l & _ & _ & _ & Hi2).
  rewrite Hs, Hl, Ht, Hi. fold st1 in Hl1, Ht1, Hi1. fold st2 in Hi2.
  repeat split.
  - change (LATB st3) with (LATB st2). unfold st2.
    rewrite ports_init_LATB, Hl1. reflexivity.
  - change (TRISB st3) with (TRISB st2). unfold st2.
    rewrite ports_init_TRISB, Ht1. reflexivity.
  - change (interrupts_enabled st3) with (interrupts_enabled st2).
    rewrite Hi2, Hi1. destruct (def_XC16 dev); reflexivity.
Qed.

(** C4. [SYSTEM_Wakeup()] sets the state to Ready exactly when the current
    state is Sleep: in state Sleep it performs the one store
    [system_state = SYS_STATE_READY] (and nothing else); in each of the
    states Init, Ready, Busy and Error it performs nothing and leaves the
    whole machine, the state included, as it was. *)
Theorem SYSTEM_Wakeup_only_from_sleep (st : Sys) :
  (system_state st = SYS_STATE_SLEEP ->
     SYSTEM_GetState (SYSTEM_Wakeup st) = SYS_STATE_READY /\
     SYSTEM_Wakeup st = perform (Store_system_state SYS_STATE_READY) st) /\
  (system_state st = SYS_STATE_INIT \/ system_state st = SYS_STATE_READY \/
   system_state st = SYS_STATE_BUSY \/ system_state st = SYS_STATE_ERROR ->
     SYSTEM_Wakeup st = st /\
     SYSTEM_GetState (SYSTEM_Wakeup st) = SYSTEM_GetState st) /\
  (In (Store_system_state SYS_STATE_READY)
      (map fst (since st (SYSTEM_Wakeup st))) <->
   system_state st = SYS_STATE_SLEEP).
Proof.
  unfold SYSTEM_Wakeup, SYSTEM_GetState.
  destruct (system_state st) eqn:E;
    cbv beta iota delta [state_eqb enum_value Z.eqb Pos.eqb].
  all: rewrite ?since_refl, ?since_perform; simpl.
  all: split; [| split].
  all: try (intros H; discriminate H).
  all: try (intros _; split; reflexivity).
  all: try (intros _; split; [reflexivity | exact E]).
  all: try (intros [H | [H | [H | H]]]; discriminate H).
  all: split; intros H; try discriminate H; try contradiction.
  all: try (destruct H as [H | []]; discriminate H).
  all: try (left; reflexivity).
  all: try reflexivity.
Qed.

(** C5. [SYSTEM_Initialize()] has no failure path and no loop: called from
    any machine state it returns, and the lifecycle state is then Ready. A
    second call straight after the first returns as well, the state is
    Ready again, and the port registers and the interrupt flag are as the
    first call left them. *)
Theorem SYSTEM_Initialize_ready_idempotent (st : Sys) :
  let once := SYSTEM_Initialize st in
  let twice := SYSTEM_Initialize once in
  (forall wake fuel, run CallInitialize wake fuel st = Returned once) /\
  (forall wake fuel, run CallInitialize wake fuel once = Returned twice) /\
  SYSTEM_GetState once = SYS_STATE_READY /\
  SYSTEM_GetState twice = SYS_STATE_READY /\
  LATB twice = LATB once /\
  TRISB twice = TRISB once /\
  interrupts_enabled twice = interrupts_enabled once.
Proof.
  intros once twice. unfold SYSTEM_GetState.
  destruct (SYSTEM_Initialize_fields st) as (Hs & Hl & Ht & Hi).
  destruct (SYSTEM_Initialize_fields once) as (Hs' & Hl' & Ht' & Hi').
  fold once in Hs, Hl, Ht, Hi. fold twice in Hs', Hl', Ht', Hi'.
  repeat split; try assumption.
  - rewrite Hl', Hl. destruct (def_LATB dev); reflexivity.
  - rewrite Ht', Ht. apply TRISB_after_ports_idempotent.
  - rewrite Hi', Hi. destruct (def_XC16 dev); reflexivity.
Qed.

(** C8. Built with XC16, the interrupt gate is a flat flag without a
    nesting count: from any starting value of the flag,
    [Disable(); Disable(); Enable();] leaves interrupts enabled, and so does
    one [Enable()] after any number [n] of [Disable()] calls, while a
    [Disable()] leaves them disabled. *)
Theorem interrupt_gate_does_not_nest (st : Sys) (n : nat) :
  def_XC16 dev = true ->
  interrupts_enabled
    (SYSTEM_EnableInterrupts
       (SYSTEM_DisableInterrupts (SYSTEM_DisableInterrupts st))) = true /\
  interrupts_enabled
    (SYSTEM_EnableInterrupts (Nat.iter n SYSTEM_DisableInterrupts st)) = true /\
  interrupts_enabled (SYSTEM_DisableInterrupts st) = false /\
  interrupts_enabled
    (SYSTEM_DisableInterrupts (SYSTEM_DisableInterrupts st)) = false.
Proof.
  intros Hxc.
  pose proof (fun s => proj2 (proj2 (proj2 (SYSTEM_EnableInterrupts_fields s))))
    as He.
  pose proof (fun s => proj2 (proj2 (proj2 (SYSTEM_DisableInterrupts_fields s))))
    as Hd.
  rewrite Hxc in He, Hd.
  repeat split; first [apply He | apply Hd].
Qed.

(** C6. Built with XC16, [SYSTEM_Initialize()] performs, in this order: the
    disabling of interrupts, the port setup (stores to the port registers
    only), the store of Ready to the state, the enabling of interrupts.
    Every store to a port register it performs happens with interrupts
    disabled, and interrupts are enabled when it returns. *)
Theorem SYSTEM_Initialize_critical_section (st : Sys) :
  def_XC16 dev = true ->
  let st1 := SYSTEM_DisableInterrupts st in
  let ports := since st1 (ports_init st1) in
  since st (SYSTEM_Initialize st) =
    [(DisableInterrupts, interrupts_enabled st)] ++ ports ++
    [(Store_system_state SYS_STATE_READY, false); (EnableInterrupts, false)] /\
  Forall (fun e => is_port_store (fst e) = true /\ snd e = false) ports /\
  (forall a ie, In (a, ie) (since st (SYSTEM_Initialize st)) ->
                is_port_store a = true -> ie = false) /\
  interrupts_enabled (SYSTEM_Initialize st) = true.
Proof.
  intros Hxc st1 ports.
  destruct (ports_init_log st1) as (l & Ht & Hl & Hs & Hi).
  assert (Hie1 : interrupts_enabled st1 = false).
  { unfold st1, SYSTEM_DisableInterrupts. rewrite Hxc. reflexivity. }
  assert (Ht1 : trace st1 = trace st ++ [(DisableInterrupts, interrupts_enabled st)]).
  { unfold st1, SYSTEM_DisableInterrupts. rewrite Hxc. apply trace_perform. }
  assert (Hports : ports = l) by (apply since_app; exact Ht).
  rewrite Hie1 in Hl, Hi.
  assert (Hsince : since st (SYSTEM_Initialize st) =
    [(DisableInterrupts, interrupts_enabled st)] ++ ports ++
    [(Store_system_state SYS_STATE_READY, false); (EnableInterrupts, false)]).
  { apply since_app. unfold SYSTEM_Initialize, SYSTEM_EnableInterrupts.
    fold st1. rewrite Hxc, !trace_perform, Ht, Ht1, Hports.
    change (interrupts_enabled
              (perform (Store_system_state SYS_STATE_READY) (ports_init st1)))
      with (interrupts_enabled (ports_init st1)).
    rewrite Hi, <- !app_assoc. reflexivity. }
  split; [exact Hsince |].
  split; [rewrite Hports; exact Hl |].
  split.
  - intros a ie Hin Ha. rewrite Hsince in Hin.
    rewrite !in_app_iff in Hin. simpl in Hin.
    destruct Hin as [[Hin | []] | [Hin | [Hin | [Hin | []]]]].
    + inversion Hin; subst; discriminate.
    + rewrite Hports in Hin. rewrite Forall_forall in Hl.
      apply (Hl (a, ie) Hin).
    + inversion Hin; subst; discriminate.
    + inversion Hin; subst; discriminate.
  - rewrite (proj2 (proj2 (proj2 (SYSTEM_Initialize_fields st)))), Hxc.
    reflexivity.
Qed.

(** ** Sleeping and waking *)

(** The wait loop of [SYSTEM_EnterSleep], entered in state Sleep at poll
    number [k] with [fuel] polls to go: either it is still waiting, the
    state reads Sleep and the handler has not called [SYSTEM_Wakeup()] at
    any of the polls paid for; or it has returned, the state is Ready and
    the handler did call [SYSTEM_Wakeup()] at one of those polls. *)
Lemma sleep_loop (wake : nat -> bool) (fuel : nat) :
  forall (k : nat) (st : Sys),
    system_state st = SYS_STATE_SLEEP ->
    match busy_wait (fun st => state_eqb (system_state st) SYS_STATE_SLEEP)
                    wake k fuel st with
    | Blocked st' =>
        system_state st' = SYS_STATE_SLEEP /\
        forall j, (k <= j < k + fuel)%nat -> wake j = false
    | Returned st' =>
        system_state st' = SYS_STATE_READY /\
        exists j, (k <= j < k + fuel)%nat /\ wake j = true
    end.
Proof.
  induction fuel as [| fuel IH]; intros k st Hs; simpl.
  - split; [exact Hs | intros j Hj; lia].
  - destruct (wake k) eqn:W.
    + unfold SYSTEM_Wakeup. rewrite Hs. simpl.
      split; [reflexivity | exists k; split; [lia | exact W]].
    + rewrite Hs. simpl. unfold builtin_nop.
      specialize (IH (S k) st Hs).
      destruct (busy_wait _ wake (S k) fuel st) as [st' | st'].
      * destruct IH as (Hr & j & Hj & Hw).
        split; [exact Hr | exists j; split; [lia | exact Hw]].
      * destruct IH as (Hr & Hall).
        split; [exact Hr |]. intros j Hj.
        destruct (Nat.eq_dec j k) as [-> | Hne]; [exact W |].
        apply Hall. lia.
Qed.

(** C7. [SYSTEM_EnterSleep()] sets the state to Sleep and then blocks:
    as long as the other context has not called [SYSTEM_Wakeup()], the call
    has not returned and [SYSTEM_GetState()] reads Sleep; whenever the call
    is still blocked the state reads Sleep; the call returns only after the
    other context has called [SYSTEM_Wakeup()], and the state is then Ready;
    and once [SYSTEM_Wakeup()] has been called, the call does return. *)
Theorem SYSTEM_EnterSleep_blocks_until_wakeup (wake : nat -> bool) (st : Sys) :
  (forall fuel,
     (forall k, (k < fuel)%nat -> wake k = false) ->
     exists st', SYSTEM_EnterSleep wake fuel st = Blocked st' /\
                 SYSTEM_GetState st' = SYS_STATE_SLEEP) /\
  (forall fuel st',
     SYSTEM_EnterSleep wake fuel st = Blocked st' ->
     SYSTEM_GetState st' = SYS_STATE_SLEEP) /\
  (forall fuel st',
     SYSTEM_EnterSleep wake fuel st = Returned st' ->
     (exists k, (k < fuel)%nat /\ wake k = true) /\
     SYSTEM_GetState st' = SYS_STATE_READY) /\
  (forall k fuel,
     wake k = true -> (k < fuel)%nat ->
     exists st', SYSTEM_EnterSleep wake fuel st = Returned st' /\
                 SYSTEM_GetState st' = SYS_STATE_READY).
Proof.
  unfold SYSTEM_EnterSleep, SYSTEM_GetState.
  set (st0 := perform (Store_system_state SYS_STATE_SLEEP) st).
  assert (Hs : system_state st0 = SYS_STATE_SLEEP) by reflexivity.
  pose proof (fun fuel => sleep_loop wake fuel 0 st0 Hs) as Hloop.
  split; [| split; [| split]].
  - intros fuel Hquiet. specialize (Hloop fuel).
    destruct (busy_wait _ wake 0 fuel st0) as [st' | st'].
    + destruct Hloop as (_ & j & Hj & Hw).
      rewrite Hquiet in Hw by lia. discriminate Hw.
    + exists st'. split; [reflexivity | apply Hloop].
  - intros fuel st' Hrun. specialize (Hloop fuel).
    rewrite Hrun in Hloop. apply Hloop.
  - intros fuel st' Hrun. specialize (Hloop fuel).
    rewrite Hrun in Hloop. destruct Hloop as (Hready & j & Hj & Hw).
    split; [exists j; split; [lia | exact Hw] | exact Hready].
  - intros k fuel Hw Hk. specialize (Hloop fuel).
    destruct (busy_wait _ wake 0 fuel st0) as [st' | st'].
    + exists st'. split; [reflexivity | apply Hloop].
    + destruct Hloop as (_ & Hall).
      rewrite Hall in Hw by lia. discriminate Hw.
Qed.

(** ** The states the lifecycle can reach *)

Definition lifecycle_state (s : System_State_t) : Prop :=
  s = SYS_STATE_INIT \/ s = SYS_STATE_READY \/ s = SYS_STATE_SLEEP.

(** An action that does not store Busy or Error to [system_state]. *)
Definition assigns_lifecycle_state (a : Action) : Prop :=
  match a with
  | Store_system_state s => lifecycle_state s
  | _ => True
  end.

(** The invariant: the state is one of Init, Ready, Sleep, and no store of
    another state has ever been performed. *)
Definition lifecycle_invariant (st : Sys) : Prop :=
  lifecycle_state (system_state st) /\
  Forall (fun e => assigns_lifecycle_state (fst e)) (trace st).

Lemma perform_invariant (a : Action) (st : Sys) :
  assigns_lifecycle_state a ->
  lifecycle_invariant st -> lifecycle_invariant (perform a st).
Proof.
  intros Ha [Hs Ht]. split.
  - destruct a; simpl in *; assumption.
  - rewrite trace_perform. apply Forall_app. split; [exact Ht |].
    constructor; [exact Ha | constructor].
Qed.

Lemma ports_init_invariant (st : Sys) :
  lifecycle_invariant st -> lifecycle_invariant (ports_init st).
Proof.
  intros [Hs Ht].
  destruct (ports_init_log st) as (l & Hl & Hall & Hst & _).
  split.
  - rewrite Hst. exact Hs.
  - rewrite Hl. apply Forall_app. split; [exact Ht |].
    eapply Forall_impl; [| exact Hall].
    intros [a ie] [Ha _]. simpl in *. destruct a; try discriminate; exact I.
Qed.

Lemma SYSTEM_Wakeup_invariant (st : Sys) :
  lifecycle_invariant st -> lifecycle_invariant (SYSTEM_Wakeup st).
Proof.
  intros H. unfold SYSTEM_Wakeup.
  destruct (state_eqb (system_state st) SYS_STATE_SLEEP); [| exact H].
  apply perform_invariant; [right; left; reflexivity | exact H].
Qed.

Lemma busy_wait_invariant (cond : Sys -> bool) (wake : nat -> bool)
      (fuel : nat) :
  forall (k : nat) (st : Sys),
    lifecycle_invariant st ->
    lifecycle_invariant (machine (busy_wait cond wake k fuel st)).
Proof.
  induction fuel as [| fuel IH]; intros k st H; simpl; [exact H |].
  assert (H' : lifecycle_invariant (if wake k then SYSTEM_Wakeup st else st)).
  { destruct (wake k); [apply SYSTEM_Wakeup_invariant |]; exact H. }
  destruct (cond (if wake k then SYSTEM_Wakeup st else st)).
  - apply IH. exact H'.
  - exact H'.
Qed.

Lemma run_invariant (c : Call) (wake : nat -> bool) (fuel : nat) (st : Sys) :
  lifecycle_invariant st ->
  lifecycle_invariant (machine (run c wake fuel st)).
Proof.
  intros H. destruct c; simpl.
  - unfold SYSTEM_Initialize, SYSTEM_EnableInterrupts,
      SYSTEM_DisableInterrupts.
    destruct (def_XC16 dev);
      repeat first [ apply perform_invariant; [simpl; try exact I;
                                               right; left; reflexivity |]
                   | apply ports_init_invariant ]; exact H.
  - unfold SYSTEM_Deinitialize.
    apply perform_invariant; [left; reflexivity |].
    destruct (def_TRISB dev); [apply perform_invariant; [exact I |] |];
      exact H.
  - unfold SYSTEM_EnterSleep. apply busy_wait_invariant.
    apply perform_invariant; [right; right; reflexivity | exact H].
  - apply SYSTEM_Wakeup_invariant. exact H.
  - unfold SYSTEM_Reset. apply busy_wait_invariant.
    apply perform_invariant; [left; reflexivity | exact H].
Qed.

(** C10. Starting from the state Init at boot, the states Busy and Error
    cannot be reached: in every machine state the lifecycle calls
    (Initialize, Deinitialize, EnterSleep, Wakeup, Reset) can produce, the
    lifecycle state is one of Init, Ready and Sleep, and none of the stores
    to [system_state] performed on the way stored Busy or Error. *)
Theorem busy_and_error_unreachable (st : Sys) :
  reachable st ->
  SYSTEM_GetState st <> SYS_STATE_BUSY /\
  SYSTEM_GetState st <> SYS_STATE_ERROR /\
  (SYSTEM_GetState st = SYS_STATE_INIT \/
   SYSTEM_GetState st = SYS_STATE_READY \/
   SYSTEM_GetState st = SYS_STATE_SLEEP) /\
  (forall s ie, In (Store_system_state s, ie) (trace st) ->
                s <> SYS_STATE_BUSY /\ s <> SYS_STATE_ERROR).
Proof.
  intros Hr.
  assert (Hinv : lifecycle_invariant st).
  { induction Hr as [latb trisb ie | c wake fuel st Hr IH].
    - split; [left; reflexivity | constructor].
    - apply run_invariant. exact IH. }
  destruct Hinv as [Hs Ht]. unfold SYSTEM_GetState.
  assert (Hno : forall s, lifecycle_state s ->
                          s <> SYS_STATE_BUSY /\ s <> SYS_STATE_ERROR).
  { intros s [-> | [-> | ->]]; split; discriminate. }
  destruct (Hno _ Hs) as [Hb He].
  split; [exact Hb | split; [exact He | split; [exact Hs |]]].
  intros s ie Hin. rewrite Forall_forall in Ht.
  apply (Hno s), (Ht (Store_system_state s, ie) Hin).
Qed.

End Lifecycle.

(** ** The target build, run on concrete machines *)

(** The machine at power-on: port B all inputs, some latch value,
    interrupts enabled. *)
Definition power_on : Sys := boot 0x1234 0xFFFF true.

(** The interrupt handler calls [SYSTEM_Wakeup()] just before poll 3. *)
Definition wake_at_3 (k : nat) : bool := Nat.eqb k 3.

Example initialize_from_power_on :
  since power_on (SYSTEM_Initialize p33FJ32MC204 Config.config_h power_on) =
  [ (DisableInterrupts, true);
    (Store_LATB 0, false);
    (Store_TRISB 0xFFFE, false); (Store_TRISB 0xFFFC, false);
    (Store_TRISB 0xFFF8, false); (Store_TRISB 0xFFF0, false);
    (Store_TRISB 0xFFE0, false); (Store_TRISB 0xFFC0, false);
    (Store_TRISB 0xFF80, false); (Store_TRISB 0xFF00, false);
    (Store_system_state SYS_STATE_READY, false);
    (EnableInterrupts, false) ].
Proof. vm_compute. reflexivity. Qed.

Example bare_toolchain_gate_is_a_stub :
  interrupts_enabled
    (SYSTEM_EnableInterrupts bare_toolchain
       (SYSTEM_DisableInterrupts bare_toolchain (boot 0 0 false))) = false.
Proof. reflexivity. Qed.

Example sleep_still_blocked_after_3_polls :
  SYSTEM_EnterSleep wake_at_3 3 power_on =
  Blocked (mkSys SYS_STATE_SLEEP 0x1234 0xFFFF true
                 [(Store_system_state SYS_STATE_SLEEP, true)]).
Proof. reflexivity. Qed.

Example sleep_returns_at_poll_4 :
  SYSTEM_EnterSleep wake_at_3 4 power_on =
  Returned (mkSys SYS_STATE_READY 0x1234 0xFFFF true
                  [(Store_system_state SYS_STATE_SLEEP, true);
                   (Store_system_state SYS_STATE_READY, true)]).
Proof. reflexivity. Qed.

Example reset_never_returns :
  has_returned (SYSTEM_Reset wake_at_3 1000 power_on) = false.
Proof. reflexivity. Qed.

Lemma interrupt_gate_does_not_nest_witness :
  def_XC16 p33FJ32MC204 = true /\
  interrupts_enabled
    (SYSTEM_EnableInterrupts p33FJ32MC204
       (SYSTEM_DisableInterrupts p33FJ32MC204
          (SYSTEM_DisableInterrupts p33FJ32MC204 (boot 0 0 false)))) = true /\
  interrupts_enabled
    (SYSTEM_EnableInterrupts p33FJ32MC204
       (Nat.iter 5 (SYSTEM_DisableInterrupts p33FJ32MC204) (boot 0 0 false)))
    = true /\
  interrupts_enabled
    (SYSTEM_DisableInterrupts p33FJ32MC204 (boot 0 0 false)) = false /\
  interrupts_enabled
    (SYSTEM_DisableInterrupts p33FJ32MC204
       (SYSTEM_DisableInterrupts p33FJ32MC204 (boot 0 0 false))) = false.
Proof.
  split; [reflexivity |].
  apply (interrupt_gate_does_not_nest p33FJ32MC204 (boot 0 0 false) 5).
  reflexivity.
Defined.

Lemma SYSTEM_Initialize_critical_section_witness :
  def_XC16 p33FJ32MC204 = true /\
  (let st1 := SYSTEM_DisableInterrupts p33FJ32MC204 power_on in
   let ports := since st1 (ports_init p33FJ32MC204 Config.config_h st1) in
   since power_on (SYSTEM_Initialize p33FJ32MC204 Config.config_h power_on) =
     [(DisableInterrupts, interrupts_enabled power_on)] ++ ports ++
     [(Store_system_state SYS_STATE_READY, false); (EnableInterrupts, false)] /\
   Forall (fun e => is_port_store (fst e) = true /\ snd e = false) ports /\
   (forall a ie,
       In (a, ie) (since power_on
                     (SYSTEM_Initialize p33FJ32MC204 Config.config_h power_on)) ->
       is_port_store a = true -> ie = false) /\
   interrupts_enabled
     (SYSTEM_Initialize p33FJ32MC204 Config.config_h power_on) = true).
Proof.
  split; [reflexivity |].
  apply (SYSTEM_Initialize_critical_section
           p33FJ32MC204 Config.config_h power_on).
  reflexivity.
Defined.

(** Boot, initialise, go to sleep, get woken by the handler. *)
Definition woken_up : Sys :=
  machine (run p33FJ32MC204 Config.config_h CallEnterSleep wake_at_3 10
    (machine (run p33FJ32MC204 Config.config_h CallInitialize wake_at_3 0
       power_on))).

Lemma busy_and_error_unreachable_witness :
  SYSTEM_GetState woken_up = SYS_STATE_READY /\
  SYSTEM_GetState woken_up <> SYS_STATE_BUSY /\
  SYSTEM_GetState woken_up <> SYS_STATE_ERROR /\
  (SYSTEM_GetState woken_up = SYS_STATE_INIT \/
   SYSTEM_GetState woken_up = SYS_STATE_READY \/
   SYSTEM_GetState woken_up = SYS_STATE_SLEEP) /\
  (forall s ie, In (Store_system_state s, ie) (trace woken_up) ->
                s <> SYS_STATE_BUSY /\ s <> SYS_STATE_ERROR).
Proof.
  split; [reflexivity |].
  apply (busy_and_error_unreachable p33FJ32MC204 Config.config_h woken_up).
  unfold woken_up, power_on.
  apply reach_run, reach_run, reach_boot.
Defined.

(** ** Further properties of the lifecycle functions *)

Section LifecycleFrame.

Variable dev : Device.
Variable opts : Config.Options.

(** The header puts [TRISBn] at bit [n] of [TRISB], for [n] from 0 to 7. *)
Definition TRISB_bits_in_place : Prop :=
  forall n, (n < 8)%nat -> bf_TRISB dev n = mkField n 1.

Lemma SYSTEM_Wakeup_frame (st : Sys) :
  LATB (SYSTEM_Wakeup st) = LATB st /\
  TRISB (SYSTEM_Wakeup st) = TRISB st /\
  interrupts_enabled (SYSTEM_Wakeup st) = interrupts_enabled st.
Proof.
  unfold SYSTEM_Wakeup.
  destruct (state_eqb (system_state st) SYS_STATE_SLEEP); repeat split.
Qed.

Lemma busy_wait_frame (cond : Sys -> bool) (wake : nat -> bool) (fuel : nat) :
  forall (k : nat) (st : Sys),
    LATB (machine (busy_wait cond wake k fuel st)) = LATB st /\
    TRISB (machine (busy_wait cond wake k fuel st)) = TRISB st /\
    interrupts_enabled (machine (busy_wait cond wake k fuel st)) =
      interrupts_enabled st.
Proof.
  induction fuel as [| fuel IH]; intros k st; simpl; [repeat split |].
  assert (Hw : LATB (if wake k then SYSTEM_Wakeup st else st) = LATB st /\
               TRISB (if wake k then SYSTEM_Wakeup st else st) = TRISB st /\
               interrupts_enabled (if wake k then SYSTEM_Wakeup st else st) =
                 interrupts_enabled st).
  { destruct (wake k); [apply SYSTEM_Wakeup_frame | repeat split]. }
  destruct Hw as (Hl & Ht & Hi).
  destruct (cond (if wake k then SYSTEM_Wakeup st else st)).
  - unfold builtin_nop.
    destruct (IH (S k) (if wake k then SYSTEM_Wakeup st else st))
      as (Hl' & Ht' & Hi').
    rewrite Hl', Ht', Hi'. repeat split; assumption.
  - simpl. repeat split; assumption.
Qed.

Lemma SYSTEM_Deinitialize_fields (st : Sys) :
  system_state (SYSTEM_Deinitialize dev st) = SYS_STATE_INIT /\
  LATB (SYSTEM_Deinitialize dev st) = LATB st /\
  TRISB (SYSTEM_Deinitialize dev st) =
    (if def_TRISB dev then to_uint16 (Z.lor (TRISB st) 0xFF) else TRISB st) /\
  interrupts_enabled (SYSTEM_Deinitialize dev st) = interrupts_enabled st.
Proof.
  unfold SYSTEM_Deinitialize. destruct (def_TRISB dev); repeat split.
Qed.

(** With [TRISBn] at bit [n], both ways [ports_init] has of making
    RB0..RB7 outputs, bit by bit through [TRISBbits] and with the mask on
    [TRISB], clear exactly the low byte. *)
Lemma TRISB_after_ports_enabled (t : Z) :
  Config.CONFIG_PORT_B_ENABLED opts = true ->
  TRISB_bits_in_place ->
  TRISB_after_ports dev opts t = Z.land t 0xFF00.
Proof.
  intros Hen Hbits. unfold TRISB_after_ports. rewrite Hen.
  destruct (def_TRISBbits dev).
  - rewrite clear_TRISB0_7. unfold keep_all, keep_mask.
    rewrite !Hbits by lia. reflexivity.
  - change (to_uint16 (Z.lnot 255)) with 0xFF00.
    apply to_uint16_land_high.
Qed.

(** X5. [SYSTEM_Deinitialize()] puts the state back to Init from any
    state, and where [TRISB] exists it makes RB0..RB7 inputs again (the low
    byte of [TRISB] becomes all ones) without touching the direction of
    RB8..RB15. It does not touch [LATB] (the latch keeps what
    [SYSTEM_Initialize] or the application wrote) and does not touch the
    interrupt flag; where [TRISB] does not exist it only stores the
    state. *)
Theorem SYSTEM_Deinitialize_releases_port_B (st : Sys) :
  SYSTEM_GetState (SYSTEM_Deinitialize dev st) = SYS_STATE_INIT /\
  LATB (SYSTEM_Deinitialize dev st) = LATB st /\
  interrupts_enabled (SYSTEM_Deinitialize dev st) = interrupts_enabled st /\
  (def_TRISB dev = true ->
     Z.land (TRISB (SYSTEM_Deinitialize dev st)) 0xFF = 0xFF /\
     Z.land (TRISB (SYSTEM_Deinitialize dev st)) 0xFF00 =
       Z.land (TRISB st) 0xFF00) /\
  (def_TRISB dev = false ->
     TRISB (SYSTEM_Deinitialize dev st) = TRISB st /\
     since st (SYSTEM_Deinitialize dev st) =
       [(Store_system_state SYS_STATE_INIT, interrupts_enabled st)]).
Proof.
  destruct (SYSTEM_Deinitialize_fields st) as (Hs & Hl & Ht & Hi).
  unfold SYSTEM_GetState.
  split; [exact Hs | split; [exact Hl | split; [exact Hi | split]]].
  - intros Hdef. rewrite Ht, Hdef.
    split; [apply set_low_byte_low | apply set_low_byte_high].
  - intros Hdef. rewrite Ht, Hdef. split; [reflexivity |].
    unfold SYSTEM_Deinitialize. rewrite Hdef. apply since_perform.
Qed.

(** X6. With port B enabled in [config.h] and [TRISBn] at bit [n],
    [SYSTEM_Initialize()] makes RB0..RB7 outputs and leaves the direction of
    RB8..RB15 as it was: [TRISB] ends as its old value masked with [0xFF00],
    whichever of the two [#ifdef TRISBbits] branches is compiled; and where
    [LATB] exists all sixteen latch bits are cleared first. *)
Theorem SYSTEM_Initialize_makes_RB0_7_outputs (st : Sys) :
  Config.CONFIG_PORT_B_ENABLED opts = true ->
  TRISB_bits_in_place ->
  TRISB (SYSTEM_Initialize dev opts st) = Z.land (TRISB st) 0xFF00 /\
  Z.land (TRISB (SYSTEM_Initialize dev opts st)) 0xFF = 0 /\
  LATB (SYSTEM_Initialize dev opts st) =
    (if def_LATB dev then 0 else LATB st).
Proof.
  intros Hen Hbits.
  destruct (SYSTEM_Initialize_fields dev opts st) as (_ & Hl & Ht & _).
  rewrite Ht, Hl, (TRISB_after_ports_enabled _ Hen Hbits).
  split; [reflexivity | split; [| reflexivity]].
  rewrite <- Z.land_assoc. change (Z.land 0xFF00 0xFF) with 0.
  apply Z.land_0_r.
Qed.

(** X7. Round trip of the pin directions. With port B enabled, [TRISBn]
    at bit [n] and [TRISB] present: if [TRISB] holds a 16-bit value whose
    low byte is all ones (RB0..RB7 inputs, as after reset),
    [SYSTEM_Initialize()] followed by [SYSTEM_Deinitialize()] gives [TRISB]
    its old value back and leaves the state Init. The latch is not part of
    the round trip: where [LATB] exists it stays cleared. And a
    [SYSTEM_Initialize()] after a [SYSTEM_Deinitialize()] leaves [TRISB] as
    a first [SYSTEM_Initialize()] does. *)
Theorem Initialize_Deinitialize_restores_TRISB (st : Sys) :
  Config.CONFIG_PORT_B_ENABLED opts = true ->
  TRISB_bits_in_place ->
  def_TRISB dev = true ->
  0 <= TRISB st < 2 ^ 16 ->
  Z.land (TRISB st) 0xFF = 0xFF ->
  TRISB (SYSTEM_Deinitialize dev (SYSTEM_Initialize dev opts st)) = TRISB st /\
  SYSTEM_GetState (SYSTEM_Deinitialize dev (SYSTEM_Initialize dev opts st)) =
    SYS_STATE_INIT /\
  LATB (SYSTEM_Deinitialize dev (SYSTEM_Initialize dev opts st)) =
    (if def_LATB dev then 0 else LATB st) /\
  TRISB (SYSTEM_Initialize dev opts (SYSTEM_Deinitialize dev st)) =
    TRISB (SYSTEM_Initialize dev opts st).
Proof.
  intros Hen Hbits Hdef Hrange Hlow.
  destruct (SYSTEM_Deinitialize_fields (SYSTEM_Initialize dev opts st))
    as (Hs & Hl & Ht & _).
  destruct (SYSTEM_Initialize_fields dev opts st) as (_ & Hl0 & Ht0 & _).
  destruct (SYSTEM_Initialize_fields dev opts (SYSTEM_Deinitialize dev st))
    as (_ & _ & Ht1 & _).
  destruct (SYSTEM_Deinitialize_fields st) as (_ & _ & Ht2 & _).
  unfold SYSTEM_GetState.
  rewrite Hs, Hl, Ht, Hl0, Ht0, Ht1, Ht2, Hdef,
    !(TRISB_after_ports_enabled _ Hen Hbits).
  split; [apply clear_then_set_low_byte; assumption |].
  split; [reflexivity | split; [reflexivity |]].
  apply set_low_byte_high.
Qed.

(** X8. [SYSTEM_Reset()] never returns: it stores Init and then spins
    in [while (1)], however long it is run. The interrupt handler's
    [SYSTEM_Wakeup()] calls change nothing meanwhile: the state stays Init,
    the one store of Init is all the call ever performs, and the port
    registers and the interrupt flag are as at the call. *)
Theorem SYSTEM_Reset_never_returns
        (wake : nat -> bool) (fuel : nat) (st : Sys) :
  SYSTEM_Reset wake fuel st =
    Blocked (perform (Store_system_state SYS_STATE_INIT) st) /\
  has_returned (SYSTEM_Reset wake fuel st) = false /\
  SYSTEM_GetState (machine (SYSTEM_Reset wake fuel st)) = SYS_STATE_INIT /\
  since st (machine (SYSTEM_Reset wake fuel st)) =
    [(Store_system_state SYS_STATE_INIT, interrupts_enabled st)].
Proof.
  unfold SYSTEM_Reset.
  set (st0 := perform (Store_system_state SYS_STATE_INIT) st).
  assert (Hs : system_state st0 = SYS_STATE_INIT) by reflexivity.
  assert (Hloop : forall n k,
             busy_wait (fun _ => true) wake k n st0 = Blocked st0).
  { induction n as [| n IH]; intros k; simpl; [reflexivity |].
    assert (Hw : (if wake k then SYSTEM_Wakeup st0 else st0) = st0).
    { destruct (wake k); [| reflexivity].
      unfold SYSTEM_Wakeup. rewrite Hs. reflexivity. }
    rewrite Hw. apply IH. }
  rewrite Hloop. simpl.
  repeat split. apply since_perform.
Qed.

(** X9. Of the five lifecycle calls only [SYSTEM_Initialize()] changes
    the interrupt flag or [LATB]: after any other call, returned or still
    waiting, and whatever the interrupt handler did meanwhile, both are as
    before; and only [SYSTEM_Initialize()] and [SYSTEM_Deinitialize()]
    change [TRISB]. In particular [SYSTEM_EnterSleep()] spins with the
    interrupt flag as it found it: it does not enable interrupts before it
    waits for one. *)
Theorem only_Initialize_changes_interrupt_flag
        (c : Call) (wake : nat -> bool) (fuel : nat) (st : Sys) :
  c <> CallInitialize ->
  interrupts_enabled (machine (run dev opts c wake fuel st)) =
    interrupts_enabled st /\
  LATB (machine (run dev opts c wake fuel st)) = LATB st /\
  (c <> CallDeinitialize ->
   TRISB (machine (run dev opts c wake fuel st)) = TRISB st).
Proof.
  intros Hc. destruct c; simpl.
  - contradiction Hc; reflexivity.
  - destruct (SYSTEM_Deinitialize_fields st) as (_ & Hl & _ & Hi).
    split; [exact Hi | split; [exact Hl |]].
    intros Hd. contradiction Hd; reflexivity.
  - unfold SYSTEM_EnterSleep.
    destruct (busy_wait_frame
                (fun st => state_eqb (system_state st) SYS_STATE_SLEEP)
                wake fuel 0 (perform (Store_system_state SYS_STATE_SLEEP) st))
      as (Hl & Ht & Hi).
    rewrite Hl, Ht, Hi. repeat split.
  - destruct (SYSTEM_Wakeup_frame st) as (Hl & Ht & Hi).
    rewrite Hl, Ht, Hi. repeat split.
  - unfold SYSTEM_Reset.
    destruct (busy_wait_frame (fun _ => true)
                wake fuel 0 (perform (Store_system_state SYS_STATE_INIT) st))
      as (Hl & Ht & Hi).
    rewrite Hl, Ht, Hi. repeat split.
Qed.

(** X10. A wake-up is not remembered. Whether [SYSTEM_EnterSleep()] has
    returned after [fuel] polls depends only on whether [SYSTEM_Wakeup()]
    was called at one of these polls, never on the machine state before the
    call: a [SYSTEM_Wakeup()] delivered just before [SYSTEM_EnterSleep()]
    does not shorten the wait, and a second [SYSTEM_Wakeup()] in a row does
    nothing. *)
Theorem wakeup_before_sleep_is_lost
        (wake : nat -> bool) (fuel : nat) (st : Sys) :
  has_returned (SYSTEM_EnterSleep wake fuel st) =
    existsb wake (seq 0 fuel) /\
  has_returned (SYSTEM_EnterSleep wake fuel (SYSTEM_Wakeup st)) =
    has_returned (SYSTEM_EnterSleep wake fuel st) /\
  SYSTEM_Wakeup (SYSTEM_Wakeup st) = SYSTEM_Wakeup st.
Proof.
  assert (Hchar : forall s,
             has_returned (SYSTEM_EnterSleep wake fuel s) =
             existsb wake (seq 0 fuel)).
  { intros s. unfold SYSTEM_EnterSleep.
    set (s0 := perform (Store_system_state SYS_STATE_SLEEP) s).
    pose proof (sleep_loop wake fuel 0 s0 eq_refl) as Hloop.
    destruct (busy_wait _ wake 0 fuel s0) as [s' | s']; simpl.
    - destruct Hloop as (_ & j & Hj & Hw). symmetry.
      apply existsb_exists. exists j. split; [apply in_seq; lia | exact Hw].
    - destruct Hloop as (_ & Hall).
      destruct (existsb wake (seq 0 fuel)) eqn:He; [| reflexivity].
      apply existsb_exists in He. destruct He as (j & Hin & Hw).
      apply in_seq in Hin. rewrite Hall in Hw by lia. discriminate Hw. }
  split; [apply Hchar | split; [rewrite !Hchar; reflexivity |]].
  unfold SYSTEM_Wakeup at 1.
  destruct (state_eqb (system_state (SYSTEM_Wakeup st)) SYS_STATE_SLEEP)
    eqn:E; [| reflexivity].
  apply state_eqb_eq in E. unfold SYSTEM_Wakeup in E.
  destruct (state_eqb (system_state st) SYS_STATE_SLEEP) eqn:E0.
  - discriminate E.
  - rewrite <- state_eqb_eq in E. congruence.
Qed.

End LifecycleFrame.

Lemma p33FJ32MC204_TRISB_bits_in_place : TRISB_bits_in_place p33FJ32MC204.
Proof. intros n Hn. reflexivity. Qed.

Lemma SYSTEM_Initialize_makes_RB0_7_outputs_witness :
  TRISB (SYSTEM_Initialize p33FJ32MC204 Config.config_h power_on) =
    Z.land (TRISB power_on) 0xFF00 /\
  Z.land (TRISB (SYSTEM_Initialize p33FJ32MC204 Config.config_h power_on))
         0xFF = 0 /\
  LATB (SYSTEM_Initialize p33FJ32MC204 Config.config_h power_on) =
    (if def_LATB p33FJ32MC204 then 0 else LATB power_on).
Proof.
  apply (SYSTEM_Initialize_makes_RB0_7_outputs
           p33FJ32MC204 Config.config_h power_on).
  - reflexivity.
  - apply p33FJ32MC204_TRISB_bits_in_place.
Defined.

Lemma Initialize_Deinitialize_restores_TRISB_witness :
  TRISB (SYSTEM_Deinitialize p33FJ32MC204
           (SYSTEM_Initialize p33FJ32MC204 Config.config_h power_on)) =
    TRISB power_on /\
  SYSTEM_GetState
    (SYSTEM_Deinitialize p33FJ32MC204
       (SYSTEM_Initialize p33FJ32MC204 Config.config_h power_on)) =
    SYS_STATE_INIT /\
  LATB (SYSTEM_Deinitialize p33FJ32MC204
          (SYSTEM_Initialize p33FJ32MC204 Config.config_h power_on)) =
    (if def_LATB p33FJ32MC204 then 0 else LATB power_on) /\
  TRISB (SYSTEM_Initialize p33FJ32MC204 Config.config_h
           (SYSTEM_Deinitialize p33FJ32MC204 power_on)) =
    TRISB (SYSTEM_Initialize p33FJ32MC204 Config.config_h power_on).
Proof.
  apply (Initialize_Deinitialize_restores_TRISB
           p33FJ32MC204 Config.config_h power_on).
  - reflexivity.
  - apply p33FJ32MC204_TRISB_bits_in_place.
  - reflexivity.
  - simpl. lia.
  - reflexivity.
Defined.

Lemma only_Initialize_changes_interrupt_flag_witness :
  interrupts_enabled
    (machine (run p33FJ32MC204 Config.config_h CallEnterSleep wake_at_3 10
                  (boot 0 0xFFFF false))) =
    interrupts_enabled (boot 0 0xFFFF false) /\
  LATB (machine (run p33FJ32MC204 Config.config_h CallEnterSleep wake_at_3 10
                     (boot 0 0xFFFF false))) = LATB (boot 0 0xFFFF false) /\
  (CallEnterSleep <> CallDeinitialize ->
   TRISB (machine (run p33FJ32MC204 Config.config_h CallEnterSleep wake_at_3 10
                       (boot 0 0xFFFF false))) = TRISB (boot 0 0xFFFF false)).
Proof.
  apply (only_Initialize_changes_interrupt_flag
           p33FJ32MC204 Config.config_h CallEnterSleep wake_at_3 10
           (boot 0 0xFFFF false)).
  intros Hc. discriminate Hc.
Defined.

End System.

(* ====================================================================== *)
(** * adc.h / adc.c: the analog converter driver *)
(* ====================================================================== *)

Module ADC.
Import Bits Xc.

(** [adc.h]: [#define ADC_RESOLUTION_BITS 12u] and
    [#define ADC_MAX_VALUE ((1u << ADC_RESOLUTION_BITS) - 1u)]; the value
    fits [unsigned int] whatever its width. *)
Definition ADC_RESOLUTION_BITS : Z := 12.
Definition ADC_MAX_VALUE : Z := Z.shiftl 1 ADC_RESOLUTION_BITS - 1.

(** The converter registers the driver touches. *)
Record SFR : Type := mkSFR {
  AD1CON1 : Z;
  AD1CHS0 : Z;
  ADC1BUF0 : Z
}.

(** The error kinds of the design (section 7 of the specification). The
    driver has no way to report any of them: its functions return [void],
    [bool] or the sample. *)
Inductive ErrorKind : Type :=
| ConfigurationWarning
| CapabilityAbsent
| ContractViolation
| TimedOut.

Section Driver.

Variable dev : Device.

(** The converter itself. The registers are [volatile]: the peripheral
    changes them behind the program's back (it sets [DONE], it fills
    [ADC1BUF0]). [hw] is one step of the peripheral, from its hidden state
    and the registers to the new hidden state and registers; nothing is
    assumed about it. A step is taken after every store to a register, at
    every [__builtin_nop()], and after every poll of [DONE] that finds it
    clear. *)
Variable H : Type.
Variable hw : H -> SFR -> H * SFR.

(** The machine as [adc.c] sees it: the registers, the peripheral's hidden
    state, and the driver's one static variable. *)
Record State : Type := mkState {
  sfr : SFR;
  hidden : H;
  adc_last_result : Z
}.

Definition tick (st : State) : State :=
  let '(h, s) := hw (hidden st) (sfr st) in
  mkState s h (adc_last_result st).

(** A store to a register, followed by the peripheral's reaction. *)
Definition store (f : SFR -> SFR) (st : State) : State :=
  tick (mkState (f (sfr st)) (hidden st) (adc_last_result st)).

Definition set_AD1CON1 (v : Z) (s : SFR) : SFR :=
  mkSFR (to_uint16 v) (AD1CHS0 s) (ADC1BUF0 s).

Definition set_AD1CHS0 (v : Z) (s : SFR) : SFR :=
  mkSFR (AD1CON1 s) (to_uint16 v) (ADC1BUF0 s).

(** [AD1CON1bits.SAMP = v] and [AD1CHS0bits.CH0SA = v]. *)
Definition store_SAMP (v : Z) (st : State) : State :=
  store (fun s => set_AD1CON1 (set_field (bf_SAMP dev) v (AD1CON1 s)) s) st.

Definition store_CH0SA (v : Z) (st : State) : State :=
  store (fun s => set_AD1CHS0 (set_field (bf_CH0SA dev) v (AD1CHS0 s)) s) st.

(** [AD1CON1bits.DONE] read as a truth value. *)
Definition read_DONE (st : State) : bool :=
  negb (get_field (bf_DONE dev) (AD1CON1 (sfr st)) =? 0).

Definition builtin_nop (st : State) : State := tick st.

(** [for (volatile int i = 0; i < n; ++i) { __builtin_nop(); }] *)
Fixpoint nop_loop (n : nat) (st : State) : State :=
  match n with
  | O => st
  | S n' => nop_loop n' (builtin_nop st)
  end.

Definition ADC_StartSingle (channel : Z) (st : State) : State :=
  let channel := to_uint8 channel in
  let st := if def_AD1CHS0 dev then store_CH0SA channel st else st in
  let st := if def_AD1CON1 dev then store_SAMP 1 st else st in
  let st := nop_loop 60 st in
  let st := if def_AD1CON1 dev then store_SAMP 0 st else st in
  st.

(** Result of a call that may wait: it came back with a value, or it was
    still waiting when the fuel ran out, the machine being as given. *)
Inductive Outcome (A : Type) : Type :=
| Returned (a : A)
| Blocked (st : State).

Arguments Returned {A} a.
Arguments Blocked {A} st.

(** [while (!AD1CON1bits.DONE) { }]; one unit of fuel per poll. *)
Fixpoint wait_DONE (fuel : nat) (st : State) : Outcome State :=
  match fuel with
  | O => Blocked st
  | S fuel' =>
      if read_DONE st then Returned st else wait_DONE fuel' (tick st)
  end.

Definition ADC_ReadSingleBlocking (fuel : nat) (channel : Z) (st : State)
  : Outcome (Z * State) :=
  let st := ADC_StartSingle channel st in
  match (if def_AD1CON1 dev then wait_DONE fuel st else Returned st) with
  | Blocked st => Blocked st
  | Returned st =>
      let r := 0 in
      let r := if def_ADC1BUF0 dev then to_uint16 (ADC1BUF0 (sfr st)) else r in
      let st := mkState (sfr st) (hidden st)
                        (to_uint16 (Z.land r ADC_MAX_VALUE)) in
      Returned (adc_last_result st, st)
  end.

Definition ADC_IsConversionDone (st : State) : bool :=
  if def_AD1CON1 dev then read_DONE st else true.

Definition ADC_GetResult (st : State) : Z * State :=
  let r := 0 in
  let r := if def_ADC1BUF0 dev then to_uint16 (ADC1BUF0 (sfr st)) else r in
  let st := mkState (sfr st) (hidden st)
                    (to_uint16 (Z.land r ADC_MAX_VALUE)) in
  (adc_last_result st, st).

(** How a call ends, in the words of the design's contracts: it completes,
    or it is rejected with an error kind. [ADC_StartSingle] is a [void]
    function without a test, a loop that waits or a way to report: every
    call of it completes. *)
Inductive CallResult : Type :=
| Completed (st : State)
| Rejected (e : ErrorKind).

Definition call_ADC_StartSingle (channel : Z) (st : State) : CallResult :=
  Completed (ADC_StartSingle channel st).

Definition is_rejected (r : CallResult) : bool :=
  match r with Completed _ => false | Rejected _ => true end.

(** ** The masked sample *)

Lemma ADC_MAX_VALUE_is_4095 : ADC_MAX_VALUE = 4095.
Proof. reflexivity. Qed.

Lemma masked_sample_range (r : Z) :
  0 <= to_uint16 (Z.land r ADC_MAX_VALUE) <= 4095.
Proof.
  change ADC_MAX_VALUE with (Z.ones 12).
  pose proof (land_ones_range r 12 ltac:(lia)) as Hr.
  change (2 ^ 12) with 4096 in Hr.
  unfold to_uint16. rewrite Z.mod_small; [lia |].
  change (2 ^ 16) with 65536. lia.
Qed.

Lemma ADC_GetResult_range (st : State) :
  0 <= fst (ADC_GetResult st) <= 4095.
Proof. unfold ADC_GetResult. simpl. apply masked_sample_range. Qed.

(** The blocking read is the composite the design describes: start, poll
    until done, then exactly what [ADC_GetResult] does, whatever the
    converter does meanwhile. *)
Lemma ADC_ReadSingleBlocking_composite (fuel : nat) (channel : Z) (st : State) :
  ADC_ReadSingleBlocking fuel channel st =
  match (if def_AD1CON1 dev then wait_DONE fuel (ADC_StartSingle channel st)
         else Returned (ADC_StartSingle channel st)) with
  | Blocked s => Blocked s
  | Returned s => Returned (ADC_GetResult s)
  end.
Proof. reflexivity. Qed.

(** The poll loop returns as soon as [DONE] is found set, and only then. *)
Lemma wait_DONE_returned (fuel : nat) :
  forall st st', wait_DONE fuel st = Returned st' -> read_DONE st' = true.
Proof.
  induction fuel as [| fuel IH]; intros st st' Hw; simpl in Hw.
  - discriminate Hw.
  - destruct (read_DONE st) eqn:Hd.
    + inversion Hw; subst. exact Hd.
    + apply (IH _ _ Hw).
Qed.

Lemma wait_DONE_returns (n : nat) :
  forall st fuel,
    read_DONE (nop_loop n st) = true -> (n < fuel)%nat ->
    exists st', wait_DONE fuel st = Returned st'.
Proof.
  induction n as [| n IH]; intros st fuel Hd Hlt;
    (destruct fuel as [| fuel]; [lia |]); simpl in *.
  - rewrite Hd. eexists; reflexivity.
  - destruct (read_DONE st); [eexists; reflexivity |].
    apply IH; [exact Hd | lia].
Qed.

(** C1. [ADC_ReadSingleBlocking(channel)] returns a value in [0, 4095],
    for every channel, every register content and every behaviour of the
    converter: whenever the call returns, the value is between 0 and
    [ADC_MAX_VALUE = 2^12 - 1] (it is the value cached in
    [adc_last_result]); and the call does return, with such a value, as soon
    as the fuel covers the polls until the converter reports the conversion
    done ([nop_loop n] is [n] further steps of the converter after the
    start). *)
Theorem ADC_ReadSingleBlocking_in_range (channel : Z) (st : State) :
  (forall fuel v st',
     ADC_ReadSingleBlocking fuel channel st = Returned (v, st') ->
     0 <= v <= 4095 /\ v <= ADC_MAX_VALUE /\ adc_last_result st' = v) /\
  (forall n fuel,
     ADC_IsConversionDone (nop_loop n (ADC_StartSingle channel st)) = true ->
     (n < fuel)%nat ->
     exists v st',
       ADC_ReadSingleBlocking fuel channel st = Returned (v, st') /\
       0 <= v <= 4095).
Proof.
  split.
  - intros fuel v st' Hr. rewrite ADC_ReadSingleBlocking_composite in Hr.
    destruct (if def_AD1CON1 dev then _ else _) as [s | s];
      [| discriminate Hr].
    injection Hr as Hv Hst. rewrite <- Hv, <- Hst.
    pose proof (ADC_GetResult_range s) as Hrange. simpl in Hrange.
    split; [exact Hrange |].
    split; [rewrite ADC_MAX_VALUE_is_4095 at 2; apply Hrange | reflexivity].
  - intros n fuel Hd Hlt. rewrite ADC_ReadSingleBlocking_composite.
    unfold ADC_IsConversionDone in Hd.
    destruct (def_AD1CON1 dev).
    + destruct (wait_DONE_returns n _ fuel Hd Hlt) as [s Hs]. rewrite Hs.
      exists (fst (ADC_GetResult s)), (snd (ADC_GetResult s)).
      split; [reflexivity | apply ADC_GetResult_range].
    + exists (fst (ADC_GetResult (ADC_StartSingle channel st))),
             (snd (ADC_GetResult (ADC_StartSingle channel st))).
      split; [reflexivity | apply ADC_GetResult_range].
Qed.

(** ** A converter that keeps its result *)

(** The converter leaves the conversion-complete flag and the result
    buffer as they are: the register state a read starts from is the one it
    reads. *)
Definition keeps_result : Prop :=
  forall h s,
    get_field (bf_DONE dev) (AD1CON1 (snd (hw h s))) =
      get_field (bf_DONE dev) (AD1CON1 s) /\
    ADC1BUF0 (snd (hw h s)) = ADC1BUF0 s.

(** The converter leaves the channel multiplexer register as it is. *)
Definition keeps_mux : Prop :=
  forall h s, AD1CHS0 (snd (hw h s)) = AD1CHS0 s.

Definition same_result (st st' : State) : Prop :=
  read_DONE st' = read_DONE st /\
  ADC1BUF0 (sfr st') = ADC1BUF0 (sfr st).

Lemma sfr_tick (st : State) : sfr (tick st) = snd (hw (hidden st) (sfr st)).
Proof. unfold tick. destruct (hw (hidden st) (sfr st)); reflexivity. Qed.

Lemma same_result_trans (a b c : State) :
  same_result a b -> same_result b c -> same_result a c.
Proof. intros [H1 H2] [H3 H4]. split; congruence. Qed.

Lemma tick_same_result (st : State) :
  keeps_result -> same_result st (tick st).
Proof.
  intros Hk. destruct (Hk (hidden st) (sfr st)) as [Hd Hb].
  unfold same_result, read_DONE. rewrite sfr_tick, Hd, Hb. split; reflexivity.
Qed.

Lemma store_SAMP_same_result (v : Z) (st : State) :
  keeps_result ->
  disjoint (bf_DONE dev) (bf_SAMP dev) -> in_register (bf_DONE dev) ->
  same_result st (store_SAMP v st).
Proof.
  intros Hk Hdis Hreg. unfold store_SAMP, store.
  eapply same_result_trans; [| apply tick_same_result; exact Hk].
  unfold same_result, read_DONE. simpl.
  rewrite get_field_to_uint16, get_set_other by assumption.
  split; reflexivity.
Qed.

Lemma store_CH0SA_same_result (v : Z) (st : State) :
  keeps_result -> same_result st (store_CH0SA v st).
Proof.
  intros Hk. unfold store_CH0SA, store.
  eapply same_result_trans; [| apply tick_same_result; exact Hk].
  split; reflexivity.
Qed.

Lemma nop_loop_same_result (n : nat) :
  keeps_result -> forall st, same_result st (nop_loop n st).
Proof.
  intros Hk. induction n as [| n IH]; intros st; simpl.
  - split; reflexivity.
  - eapply same_result_trans; [apply tick_same_result; exact Hk | apply IH].
Qed.

Lemma ADC_StartSingle_same_result (channel : Z) (st : State) :
  keeps_result ->
  disjoint (bf_DONE dev) (bf_SAMP dev) -> in_register (bf_DONE dev) ->
  same_result st (ADC_StartSingle channel st).
Proof.
  intros Hk Hdis Hreg. unfold ADC_StartSingle.
  assert (Hrefl : forall s, same_result s s) by (intros s; split; reflexivity).
  destruct (def_AD1CHS0 dev), (def_AD1CON1 dev); cbn zeta;
    repeat first
      [ apply Hrefl
      | eapply same_result_trans;
        [| first [ apply store_SAMP_same_result; assumption
                 | apply nop_loop_same_result; assumption
                 | apply store_CH0SA_same_result; assumption ] ] ].
Qed.

(** C3, as the code has it. Take any channel and any register state in
    which the conversion is reported done. A direct
    [ADC_ReadSingleBlocking] call does not read that state: it starts a new
    conversion, waits, and then does what [ADC_GetResult()] does, on the
    registers as they are at the end of the wait; both paths compute
    [ADC1BUF0 & ADC_MAX_VALUE] from the buffer they read. So the call
    returns the value [ADC_GetResult()] returns from the state it was
    called in when the conversion it starts leaves the conversion-complete
    flag and the result buffer as they were; and that is so on every
    converter that keeps its result. *)
Theorem blocking_read_agrees_on_kept_result
        (channel : Z) (st : State) (fuel : nat) :
  ADC_IsConversionDone st = true ->
  (0 < fuel)%nat ->
  ADC_ReadSingleBlocking fuel channel st =
    match (if def_AD1CON1 dev
           then wait_DONE fuel (ADC_StartSingle channel st)
           else Returned (ADC_StartSingle channel st)) with
    | Blocked s => Blocked s
    | Returned s => Returned (ADC_GetResult s)
    end /\
  (same_result st (ADC_StartSingle channel st) ->
   exists st',
     ADC_ReadSingleBlocking fuel channel st =
       Returned (fst (ADC_GetResult st), st') /\
     fst (ADC_GetResult st) =
       to_uint16 (Z.land (if def_ADC1BUF0 dev
                          then to_uint16 (ADC1BUF0 (sfr st)) else 0)
                         ADC_MAX_VALUE)) /\
  (keeps_result ->
   disjoint (bf_DONE dev) (bf_SAMP dev) ->
   in_register (bf_DONE dev) ->
   same_result st (ADC_StartSingle channel st)).
Proof.
  intros Hdone Hfuel.
  split; [apply ADC_ReadSingleBlocking_composite | split].
  - intros [Hd Hb].
    rewrite ADC_ReadSingleBlocking_composite.
    set (s := ADC_StartSingle channel st) in *.
    assert (Hs : (if def_AD1CON1 dev then wait_DONE fuel s else Returned s) =
                 Returned s).
    { unfold ADC_IsConversionDone in Hdone.
      destruct (def_AD1CON1 dev); [| reflexivity].
      destruct fuel as [| fuel]; [lia |]. simpl.
      rewrite Hd, Hdone. reflexivity. }
    rewrite Hs. exists (snd (ADC_GetResult s)).
    split; [| reflexivity].
    unfold ADC_GetResult. simpl. rewrite Hb. reflexivity.
  - intros Hk Hdis Hreg.
    apply ADC_StartSingle_same_result; assumption.
Qed.

(** C2, as the code has it. [ADC_StartSingle] makes no range check: for
    every channel, 3 and 9 alike, the call completes and no error is
    raised; when the converter leaves the multiplexer register alone, the
    selector field [CH0SA] then holds the channel number, reduced to the
    [uint8_t] parameter and to the width of the field. *)
Theorem ADC_StartSingle_never_rejects (channel : Z) (st : State) :
  def_AD1CHS0 dev = true ->
  in_register (bf_CH0SA dev) ->
  keeps_mux ->
  exists st',
    call_ADC_StartSingle channel st = Completed st' /\
    is_rejected (call_ADC_StartSingle channel st) = false /\
    get_field (bf_CH0SA dev) (AD1CHS0 (sfr st')) =
      to_uint8 channel mod 2 ^ Z.of_nat (width (bf_CH0SA dev)).
Proof.
  intros Hdef Hreg Hk.
  exists (ADC_StartSingle channel st).
  split; [reflexivity | split; [reflexivity |]].
  assert (Htick : forall s, AD1CHS0 (sfr (tick s)) = AD1CHS0 (sfr s)).
  { intros s. rewrite sfr_tick. apply Hk. }
  assert (Hloop : forall n s, AD1CHS0 (sfr (nop_loop n s)) = AD1CHS0 (sfr s)).
  { induction n as [| n IH]; intros s; simpl; [reflexivity |].
    rewrite IH. apply Htick. }
  assert (Hsamp : forall v s, AD1CHS0 (sfr (store_SAMP v s)) = AD1CHS0 (sfr s)).
  { intros v s. unfold store_SAMP, store. rewrite Htick. reflexivity. }
  assert (Hmux : AD1CHS0 (sfr (ADC_StartSingle channel st)) =
                 to_uint16 (set_field (bf_CH0SA dev) (to_uint8 channel)
                                      (AD1CHS0 (sfr st)))).
  { unfold ADC_StartSingle. rewrite Hdef. cbn zeta.
    destruct (def_AD1CON1 dev); rewrite ?Hsamp, Hloop, ?Hsamp;
      unfold store_CH0SA, store; rewrite Htick; reflexivity. }
  rewrite Hmux, get_field_to_uint16, get_set_same by exact Hreg.
  reflexivity.
Qed.

End Driver.

Arguments mkState {H} sfr hidden adc_last_result.
Arguments sfr {H} s.
Arguments hidden {H} s.
Arguments adc_last_result {H} s.
Arguments Returned {H A} a.
Arguments Blocked {H A} st.
Arguments Completed {H} st.
Arguments Rejected {H} e.
Arguments tick {H} hw st.
Arguments nop_loop {H} hw n st.
Arguments read_DONE dev {H} st.
Arguments ADC_StartSingle dev {H} hw channel st.
Arguments wait_DONE dev {H} hw fuel st.
Arguments ADC_ReadSingleBlocking dev {H} hw fuel channel st.
Arguments ADC_IsConversionDone dev {H} st.
Arguments ADC_GetResult dev {H} st.
Arguments call_ADC_StartSingle dev {H} hw channel st.
Arguments is_rejected {H} r.
Arguments keeps_result dev {H} hw.
Arguments keeps_mux {H} hw.

(** ** The target build, run on concrete converters *)

(** A converter that does nothing on its own. *)
Definition idle (h : unit) (s : SFR) : unit * SFR := (h, s).

(** A converter in the manner of the data sheet, with the target's register
    layout: while [SAMP] is set it samples (a conversion is pending and
    [DONE] is clear); once [SAMP] is cleared it converts for [latency] steps,
    then puts [sample] into the buffer and sets [DONE]. Its hidden state is
    the number of steps the conversion still takes. *)
Definition sar (sample : Z) (latency : nat) (h : option nat) (s : SFR)
  : option nat * SFR :=
  if get_field (bf_SAMP p33FJ32MC204) (AD1CON1 s) =? 1 then
    (Some latency,
     mkSFR (set_field (bf_DONE p33FJ32MC204) 0 (AD1CON1 s))
           (AD1CHS0 s) (ADC1BUF0 s))
  else
    match h with
    | Some (S n) => (Some n, s)
    | Some O =>
        (None,
         mkSFR (set_field (bf_DONE p33FJ32MC204) 1 (AD1CON1 s))
               (AD1CHS0 s) sample)
    | None => (None, s)
    end.

Definition returned_value {H : Type} (o : Outcome H (Z * State H))
  : option Z :=
  match o with
  | Returned (v, _) => Some v
  | Blocked _ => None
  end.

(** Converter on ([ADON], bit 15), previous conversion done, a buffer with
    bits above the twelfth set. *)
Definition conversion_done : State unit :=
  mkState (mkSFR 0x8001 0 0xFABC) tt 0.

(** Converter on ([ADON]) and idle, no conversion done yet. *)
Definition after_init : State (option nat) :=
  mkState (mkSFR 0x8000 0 0) None 0.

Example blocking_read_waits_for_the_converter :
  returned_value
    (ADC_ReadSingleBlocking p33FJ32MC204 (sar 0x1ABC 14) 14 0 after_init)
    = None /\
  returned_value
    (ADC_ReadSingleBlocking p33FJ32MC204 (sar 0x1ABC 14) 15 0 after_init)
    = Some 0xABC.
Proof. split; vm_compute; reflexivity. Qed.

Example get_result_masks_the_buffer :
  fst (ADC_GetResult p33FJ32MC204 conversion_done) = 0xABC.
Proof. reflexivity. Qed.

Example bare_toolchain_reads_zero :
  returned_value
    (ADC_ReadSingleBlocking bare_toolchain idle 0 7 conversion_done) = Some 0.
Proof. reflexivity. Qed.

Lemma idle_keeps_result (dev : Device) : keeps_result dev idle.
Proof. intros h s. split; reflexivity. Qed.

Lemma idle_keeps_mux : keeps_mux idle.
Proof. intros h s. reflexivity. Qed.

Lemma blocking_read_agrees_on_kept_result_witness :
  ADC_IsConversionDone p33FJ32MC204 conversion_done = true /\
  fst (ADC_GetResult p33FJ32MC204 conversion_done) = 0xABC /\
  exists st',
    ADC_ReadSingleBlocking p33FJ32MC204 idle 1 0 conversion_done =
      Returned (fst (ADC_GetResult p33FJ32MC204 conversion_done), st') /\
    fst (ADC_GetResult p33FJ32MC204 conversion_done) =
      to_uint16 (Z.land (if def_ADC1BUF0 p33FJ32MC204
                         then to_uint16 (ADC1BUF0 (sfr conversion_done))
                         else 0)
                        ADC_MAX_VALUE).
Proof.
  split; [reflexivity | split; [reflexivity |]].
  destruct (blocking_read_agrees_on_kept_result
              p33FJ32MC204 unit idle 0 conversion_done 1)
    as [_ [Hsame Hkeeps]].
  - reflexivity.
  - lia.
  - apply Hsame. apply Hkeeps.
    + apply idle_keeps_result.
    + left. simpl. lia.
    + unfold in_register. simpl. lia.
Defined.

(** C2, the claim as stated, fails on the code: on the target, whatever
    number of channels the converter is taken to have, [ADC_StartSingle(9)]
    completes like [ADC_StartSingle(3)] does, with channel 9 selected in the
    multiplexer; it does not raise [ContractViolation]. *)
Lemma ADC_StartSingle_9_completes :
  call_ADC_StartSingle p33FJ32MC204 idle 3 conversion_done =
    Completed (mkState (mkSFR 0x8001 3 0xFABC) tt 0) /\
  call_ADC_StartSingle p33FJ32MC204 idle 9 conversion_done =
    Completed (mkState (mkSFR 0x8001 9 0xFABC) tt 0) /\
  is_rejected (call_ADC_StartSingle p33FJ32MC204 idle 9 conversion_done)
    = false /\
  call_ADC_StartSingle p33FJ32MC204 idle 9 conversion_done
    <> Rejected ContractViolation.
Proof.
  repeat split; try (vm_compute; reflexivity).
  intros Hc. discriminate Hc.
Qed.

Lemma ADC_StartSingle_never_rejects_witness :
  def_AD1CHS0 p33FJ32MC204 = true /\
  exists st',
    call_ADC_StartSingle p33FJ32MC204 idle 9 conversion_done = Completed st' /\
    is_rejected (call_ADC_StartSingle p33FJ32MC204 idle 9 conversion_done)
      = false /\
    get_field (bf_CH0SA p33FJ32MC204) (AD1CHS0 (sfr st')) =
      to_uint8 9 mod 2 ^ Z.of_nat (width (bf_CH0SA p33FJ32MC204)).
Proof.
  split; [reflexivity |].
  apply (ADC_StartSingle_never_rejects
           p33FJ32MC204 unit idle 9 conversion_done).
  - reflexivity.
  - unfold in_register. simpl. lia.
  - apply idle_keeps_mux.
Defined.

(** ** Edge behaviour of the driver *)

Section DriverEdge.

Variable dev : Device.
Variable H : Type.
Variable hw : H -> SFR -> H * SFR.

(** The converter never sets the conversion-complete flag by itself. *)
Definition never_done : Prop :=
  forall h s,
    get_field (bf_DONE dev) (AD1CON1 s) = 0 ->
    get_field (bf_DONE dev) (AD1CON1 (snd (hw h s))) = 0.

Lemma store_CH0SA_low_bits (v1 v2 : Z) (st : State H) :
  v1 mod 2 ^ Z.of_nat (width (bf_CH0SA dev)) =
  v2 mod 2 ^ Z.of_nat (width (bf_CH0SA dev)) ->
  store_CH0SA dev H hw v1 st = store_CH0SA dev H hw v2 st.
Proof.
  intros Heq. unfold store_CH0SA, store. cbv beta.
  rewrite <- (set_field_mod (bf_CH0SA dev) v1), Heq, set_field_mod.
  reflexivity.
Qed.

Lemma ADC_StartSingle_low_bits (ch1 ch2 : Z) (st : State H) :
  to_uint8 ch1 mod 2 ^ Z.of_nat (width (bf_CH0SA dev)) =
  to_uint8 ch2 mod 2 ^ Z.of_nat (width (bf_CH0SA dev)) ->
  ADC_StartSingle dev hw ch1 st = ADC_StartSingle dev hw ch2 st.
Proof.
  intros Heq. unfold ADC_StartSingle. cbv zeta.
  rewrite (store_CH0SA_low_bits _ _ st Heq). reflexivity.
Qed.

(** X11. Channel numbers alias. [ADC_StartSingle] and
    [ADC_ReadSingleBlocking] see only the low bits of [channel] that fit
    the [CH0SA] field (after the conversion to [uint8_t]): two channel
    numbers that agree on these bits start the very same conversion and give
    the very same result, whatever the converter does. *)
Theorem channel_numbers_alias (ch1 ch2 : Z) (st : State H) :
  to_uint8 ch1 mod 2 ^ Z.of_nat (width (bf_CH0SA dev)) =
  to_uint8 ch2 mod 2 ^ Z.of_nat (width (bf_CH0SA dev)) ->
  ADC_StartSingle dev hw ch1 st = ADC_StartSingle dev hw ch2 st /\
  (forall fuel,
     ADC_ReadSingleBlocking dev hw fuel ch1 st =
     ADC_ReadSingleBlocking dev hw fuel ch2 st).
Proof.
  intros Heq.
  split; [apply ADC_StartSingle_low_bits; exact Heq |].
  intros fuel. rewrite !ADC_ReadSingleBlocking_composite.
  rewrite (ADC_StartSingle_low_bits _ _ st Heq). reflexivity.
Qed.

(** The conversion-complete flag reads clear. *)
Definition DONE_clear (st : State H) : Prop :=
  get_field (bf_DONE dev) (AD1CON1 (sfr st)) = 0.

Lemma DONE_clear_read (st : State H) :
  DONE_clear st <-> read_DONE dev st = false.
Proof.
  unfold DONE_clear, read_DONE. rewrite negb_false_iff, Z.eqb_eq. tauto.
Qed.

Lemma tick_DONE_clear (st : State H) :
  never_done -> DONE_clear st -> DONE_clear (tick hw st).
Proof.
  intros Hn Hc. unfold DONE_clear. rewrite sfr_tick. apply Hn. exact Hc.
Qed.

Lemma nop_loop_DONE_clear (n : nat) :
  never_done -> forall st, DONE_clear st -> DONE_clear (nop_loop hw n st).
Proof.
  intros Hn. induction n as [| n IH]; intros st Hc; simpl; [exact Hc |].
  apply IH. apply tick_DONE_clear; assumption.
Qed.

Lemma store_SAMP_DONE_clear (v : Z) (st : State H) :
  never_done ->
  disjoint (bf_DONE dev) (bf_SAMP dev) -> in_register (bf_DONE dev) ->
  DONE_clear st -> DONE_clear (store_SAMP dev H hw v st).
Proof.
  intros Hn Hdis Hreg Hc. unfold store_SAMP, store.
  apply tick_DONE_clear; [exact Hn |].
  unfold DONE_clear. simpl.
  rewrite get_field_to_uint16, get_set_other by assumption. exact Hc.
Qed.

Lemma ADC_StartSingle_DONE_clear (channel : Z) (st : State H) :
  never_done ->
  disjoint (bf_DONE dev) (bf_SAMP dev) -> in_register (bf_DONE dev) ->
  DONE_clear st -> DONE_clear (ADC_StartSingle dev hw channel st).
Proof.
  intros Hn Hdis Hreg Hc. unfold ADC_StartSingle. cbv zeta.
  assert (H1 : DONE_clear
                 (if def_AD1CHS0 dev
                  then store_CH0SA dev H hw (to_uint8 channel) st else st)).
  { destruct (def_AD1CHS0 dev); [| exact Hc].
    unfold store_CH0SA, store. apply tick_DONE_clear; [exact Hn | exact Hc]. }
  destruct (def_AD1CON1 dev).
  - apply store_SAMP_DONE_clear; try assumption.
    apply nop_loop_DONE_clear; [exact Hn |].
    apply store_SAMP_DONE_clear; assumption.
  - apply nop_loop_DONE_clear; assumption.
Qed.

Lemma wait_DONE_blocked (fuel : nat) :
  never_done ->
  forall st, DONE_clear st ->
             exists st', wait_DONE dev hw fuel st = Blocked st' /\
                         DONE_clear st'.
Proof.
  intros Hn. induction fuel as [| fuel IH]; intros st Hc; simpl.
  - exists st. split; [reflexivity | exact Hc].
  - rewrite (proj1 (DONE_clear_read st) Hc).
    apply IH. apply tick_DONE_clear; assumption.
Qed.

(** X12. There is no time-out. On a device with [AD1CON1], when the
    conversion-complete flag is clear at the call and the converter never
    sets it (a converter that is off or stuck), [ADC_ReadSingleBlocking]
    is still polling after any number of polls, however large, and
    [ADC_IsConversionDone] keeps answering false. *)
Theorem blocking_read_has_no_timeout
        (channel : Z) (st : State H) (fuel : nat) :
  def_AD1CON1 dev = true ->
  disjoint (bf_DONE dev) (bf_SAMP dev) ->
  in_register (bf_DONE dev) ->
  never_done ->
  ADC_IsConversionDone dev st = false ->
  exists st',
    ADC_ReadSingleBlocking dev hw fuel channel st = Blocked st' /\
    ADC_IsConversionDone dev st' = false.
Proof.
  intros Hdef Hdis Hreg Hn Hd.
  unfold ADC_IsConversionDone in *. rewrite Hdef in *.
  apply DONE_clear_read in Hd.
  pose proof (ADC_StartSingle_DONE_clear channel st Hn Hdis Hreg Hd) as Hs.
  destruct (wait_DONE_blocked fuel Hn _ Hs) as (st' & Hw & Hc).
  exists st'. rewrite ADC_ReadSingleBlocking_composite, Hdef, Hw.
  split; [reflexivity | apply DONE_clear_read; exact Hc].
Qed.

(** The poll loop, poll by poll: while [DONE] reads clear it is still
    polling, the converter having taken one step per poll; at the first poll
    that finds [DONE] set it returns, with the machine as it is then. *)
Lemma wait_DONE_exact (fuel : nat) :
  forall (n : nat) (st : State H),
    (forall k, (k < n)%nat -> read_DONE dev (nop_loop hw k st) = false) ->
    ((fuel <= n)%nat -> wait_DONE dev hw fuel st = Blocked (nop_loop hw fuel st)) /\
    (read_DONE dev (nop_loop hw n st) = true -> (n < fuel)%nat ->
     wait_DONE dev hw fuel st = Returned (nop_loop hw n st)).
Proof.
  induction fuel as [| fuel IH]; intros n st Hclear.
  - split; [reflexivity | intros _ Hlt; lia].
  - destruct n as [| n].
    + split; [intros Hle; lia |].
      intros Hd _. simpl in *. rewrite Hd. reflexivity.
    + assert (H0 : read_DONE dev st = false) by (apply (Hclear 0%nat); lia).
      assert (Hclear' : forall k, (k < n)%nat ->
                          read_DONE dev (nop_loop hw k (tick hw st)) = false).
      { intros k Hk. apply (Hclear (S k)). lia. }
      destruct (IH n (tick hw st) Hclear') as [Hb Hr].
      simpl. rewrite H0. split.
      * intros Hle. apply Hb. lia.
      * intros Hd Hlt. apply Hr; [exact Hd | lia].
Qed.

(** X13. The blocking read returns the sample of the first poll that finds
    [DONE] set. On a device with [AD1CON1], if after the start [DONE] reads
    clear at the polls 0 .. n-1 and set at poll [n] (the converter taking
    one step per poll), then with fuel up to [n] the call is still polling,
    and with more fuel it returns exactly what [ADC_GetResult] gives on the
    machine as it is at poll [n]: the buffer of that moment, masked. *)
Theorem blocking_read_returns_first_done_sample
        (channel : Z) (st : State H) (n : nat) :
  def_AD1CON1 dev = true ->
  (forall k, (k < n)%nat ->
     read_DONE dev (nop_loop hw k (ADC_StartSingle dev hw channel st)) = false) ->
  read_DONE dev (nop_loop hw n (ADC_StartSingle dev hw channel st)) = true ->
  (forall fuel, (fuel <= n)%nat ->
     ADC_ReadSingleBlocking dev hw fuel channel st =
       Blocked (nop_loop hw fuel (ADC_StartSingle dev hw channel st))) /\
  (forall fuel, (n < fuel)%nat ->
     ADC_ReadSingleBlocking dev hw fuel channel st =
       Returned (ADC_GetResult dev
                   (nop_loop hw n (ADC_StartSingle dev hw channel st)))).
Proof.
  intros Hdef Hclear Hset.
  split; intros fuel Hf; rewrite ADC_ReadSingleBlocking_composite, Hdef;
    destruct (wait_DONE_exact fuel n _ Hclear) as [Hb Hr].
  - rewrite Hb by exact Hf. reflexivity.
  - rewrite Hr by assumption. reflexivity.
Qed.

(** X14. Without [AD1CON1] in the device header the driver never waits:
    [ADC_IsConversionDone] answers true in every state, and
    [ADC_ReadSingleBlocking] returns on the spot, with no poll at all, what
    [ADC_GetResult] gives right after the start; if [ADC1BUF0] is missing
    too, the value is 0. *)
Theorem without_AD1CON1_nothing_waits
        (channel : Z) (st : State H) (fuel : nat) :
  def_AD1CON1 dev = false ->
  ADC_IsConversionDone dev st = true /\
  ADC_ReadSingleBlocking dev hw fuel channel st =
    Returned (ADC_GetResult dev (ADC_StartSingle dev hw channel st)) /\
  (def_ADC1BUF0 dev = false ->
   exists st', ADC_ReadSingleBlocking dev hw fuel channel st =
               Returned (0, st')).
Proof.
  intros Hdef.
  rewrite ADC_ReadSingleBlocking_composite.
  unfold ADC_IsConversionDone. rewrite Hdef.
  split; [reflexivity | split; [reflexivity |]].
  intros Hbuf. unfold ADC_GetResult. rewrite Hbuf.
  eexists. reflexivity.
Qed.

End DriverEdge.

Arguments never_done dev {H} hw.

Lemma channel_numbers_alias_witness :
  ADC_StartSingle p33FJ32MC204 (sar 0x1ABC 14) 3 after_init =
  ADC_StartSingle p33FJ32MC204 (sar 0x1ABC 14) 35 after_init /\
  (forall fuel,
     ADC_ReadSingleBlocking p33FJ32MC204 (sar 0x1ABC 14) fuel 3 after_init =
     ADC_ReadSingleBlocking p33FJ32MC204 (sar 0x1ABC 14) fuel 35 after_init).
Proof.
  apply (channel_numbers_alias
           p33FJ32MC204 (option nat) (sar 0x1ABC 14) 3 35 after_init).
  reflexivity.
Defined.

(** Converter on, previous conversion done, its sample [0xFABC] still in
    the buffer; the converter itself at rest. *)
Definition previous_sample_ready : State (option nat) :=
  mkState (mkSFR 0x8001 0 0xFABC) None 0.

(** C3, the claim as stated, fails on the code: on the target, with the
    conversion reported done and [0xFABC] in the buffer,
    [ADC_GetResult()] returns [0xABC], while a direct
    [ADC_ReadSingleBlocking(0)] from the same register state starts a new
    conversion, is still polling after 14 polls, and returns the new sample
    [0x123] of the converter; it never returns [0xABC]. *)
Lemma blocking_read_returns_the_new_sample :
  ADC_IsConversionDone p33FJ32MC204 previous_sample_ready = true /\
  fst (ADC_GetResult p33FJ32MC204 previous_sample_ready) = 0xABC /\
  (forall fuel,
     returned_value
       (ADC_ReadSingleBlocking p33FJ32MC204 (sar 0x123 14) fuel 0
                               previous_sample_ready) =
     if (fuel <=? 14)%nat then None else Some 0x123) /\
  0x123 <> fst (ADC_GetResult p33FJ32MC204 previous_sample_ready).
Proof.
  split; [reflexivity | split; [reflexivity | split]].
  - intros fuel.
    rewrite ADC_ReadSingleBlocking_composite.
    change (def_AD1CON1 p33FJ32MC204) with true. cbv iota.
    set (s := ADC_StartSingle p33FJ32MC204 (sar 0x123 14) 0
                              previous_sample_ready).
    assert (Hclear : forall k, (k < 14)%nat ->
              read_DONE p33FJ32MC204 (nop_loop (sar 0x123 14) k s) = false).
    { intros k Hk.
      do 14 (destruct k as [| k]; [vm_compute; reflexivity |]). lia. }
    destruct (wait_DONE_exact p33FJ32MC204 (option nat) (sar 0x123 14)
                              fuel 14 s Hclear) as [Hblocked Hreturned].
    destruct (Nat.leb_spec fuel 14) as [Hle | Hlt].
    + rewrite (Hblocked Hle). reflexivity.
    + rewrite (Hreturned ltac:(vm_compute; reflexivity) Hlt).
      vm_compute. reflexivity.
  - vm_compute. intros Hc. discriminate Hc.
Qed.

(** The converter switched on, no conversion done, nothing happening. *)
Definition switched_on : State unit := mkState (mkSFR 0x8000 0 0) tt 0.

Lemma blocking_read_has_no_timeout_witness :
  exists st',
    ADC_ReadSingleBlocking p33FJ32MC204 idle 1000 0 switched_on = Blocked st' /\
    ADC_IsConversionDone p33FJ32MC204 st' = false.
Proof.
  apply (blocking_read_has_no_timeout
           p33FJ32MC204 unit idle 0 switched_on 1000).
  - reflexivity.
  - left. simpl. lia.
  - unfold in_register. simpl. lia.
  - intros h s Hs. exact Hs.
  - reflexivity.
Defined.

Lemma blocking_read_returns_first_done_sample_witness :
  (forall fuel, (fuel <= 14)%nat ->
     ADC_ReadSingleBlocking p33FJ32MC204 (sar 0x1ABC 14) fuel 0 after_init =
       Blocked (nop_loop (sar 0x1ABC 14) fuel
                  (ADC_StartSingle p33FJ32MC204 (sar 0x1ABC 14) 0 after_init))) /\
  (forall fuel, (14 < fuel)%nat ->
     ADC_ReadSingleBlocking p33FJ32MC204 (sar 0x1ABC 14) fuel 0 after_init =
       Returned (ADC_GetResult p33FJ32MC204
                   (nop_loop (sar 0x1ABC 14) 14
                      (ADC_StartSingle p33FJ32MC204 (sar 0x1ABC 14) 0
                                       after_init)))).
Proof.
  apply (blocking_read_returns_first_done_sample
           p33FJ32MC204 (option nat) (sar 0x1ABC 14) 0 after_init 14).
  - reflexivity.
  - intros k Hk.
    do 14 (destruct k as [| k]; [vm_compute; reflexivity |]). lia.
  - vm_compute. reflexivity.
Defined.

Lemma without_AD1CON1_nothing_waits_witness :
  ADC_IsConversionDone bare_toolchain conversion_done = true /\
  ADC_ReadSingleBlocking bare_toolchain idle 0 5 conversion_done =
    Returned (ADC_GetResult bare_toolchain
                (ADC_StartSingle bare_toolchain idle 5 conversion_done)) /\
  (def_ADC1BUF0 bare_toolchain = false ->
   exists st', ADC_ReadSingleBlocking bare_toolchain idle 0 5 conversion_done =
               Returned (0, st')).
Proof.
  apply (without_AD1CON1_nothing_waits
           bare_toolchain unit idle 5 conversion_done 0).
  reflexivity.
Defined.

(** ** [ADC_Init] *)

(** [adc.c]: [#define ADC_SAMPLE_TIME 4] and [#define ADC_ADCS 4]. *)
Definition ADC_SAMPLE_TIME : Z := 4.
Definition ADC_ADCS : Z := 4.

(** What [ADC_Init] needs of the device header beyond [Device]: the two
    further control registers and the bit-fields it writes. *)
Record SetupHeader : Type := mkSetupHeader {
  def_AD1CON2 : bool;   (** [AD1CON2] is defined *)
  def_AD1CON3 : bool;   (** [AD1CON3] is defined *)
  bf_ADON : BitField;   (** [AD1CON1bits.ADON] *)
  bf_FORM : BitField;   (** [AD1CON1bits.FORM] *)
  bf_SSRC : BitField;   (** [AD1CON1bits.SSRC] *)
  bf_ASAM : BitField;   (** [AD1CON1bits.ASAM] *)
  bf_SMPI : BitField;   (** [AD1CON2bits.SMPI] *)
  bf_SAMC : BitField;   (** [AD1CON3bits.SAMC] *)
  bf_ADCS : BitField    (** [AD1CON3bits.ADCS] *)
}.

(** The target: [ADON] is bit 15, [FORM] bits 9..8, [SSRC] bits 7..5 and
    [ASAM] bit 2 of [AD1CON1]; [SMPI] bits 5..2 of [AD1CON2]; [SAMC] bits
    12..8 and [ADCS] bits 7..0 of [AD1CON3]. *)
Definition p33FJ32MC204_setup : SetupHeader :=
  {| def_AD1CON2 := true; def_AD1CON3 := true;
     bf_ADON := mkField 15 1; bf_FORM := mkField 8 2;
     bf_SSRC := mkField 5 3; bf_ASAM := mkField 2 1;
     bf_SMPI := mkField 2 4;
     bf_SAMC := mkField 8 5; bf_ADCS := mkField 0 8 |}.

Section Setup.

Variable dev : Device.
Variable hdr : SetupHeader.
Variable H : Type.
Variable hw : H -> SFR -> H * SFR.

(** The driver's machine together with the two registers only [ADC_Init]
    writes. *)
Record Converter : Type := mkConverter {
  driver : State H;
  AD1CON2 : Z;
  AD1CON3 : Z
}.

Definition on_driver (f : State H -> State H) (c : Converter) : Converter :=
  mkConverter (f (driver c)) (AD1CON2 c) (AD1CON3 c).

(** [AD1CON1 = v], [AD1CON1bits.F = v], [AD1CHS0 = v]. *)
Definition store_AD1CON1 (v : Z) (c : Converter) : Converter :=
  on_driver (store H hw (set_AD1CON1 v)) c.

Definition store_AD1CON1_field (f : BitField) (v : Z) (c : Converter)
  : Converter :=
  on_driver
    (store H hw (fun s => set_AD1CON1 (set_field f v (AD1CON1 s)) s)) c.

Definition store_AD1CHS0 (v : Z) (c : Converter) : Converter :=
  on_driver (store H hw (set_AD1CHS0 v)) c.

(** [AD1CON2 = v] and [AD1CON3 = v]; the converter takes its step after
    these stores as after any other. *)
Definition store_AD1CON2 (v : Z) (c : Converter) : Converter :=
  mkConverter (tick hw (driver c)) (to_uint16 v) (AD1CON3 c).

Definition store_AD1CON3 (v : Z) (c : Converter) : Converter :=
  mkConverter (tick hw (driver c)) (AD1CON2 c) (to_uint16 v).

Definition ADC_Init (c : Converter) : Converter :=
  let c := if def_AD1CON1 dev
           then store_AD1CON1_field (bf_ADON hdr) 0 c else c in
  let c := if def_AD1CON1 dev then
             let c := store_AD1CON1 0 c in
             let c := store_AD1CON1_field (bf_FORM hdr) 0 c in
             let c := store_AD1CON1_field (bf_SSRC hdr) 0 c in
             let c := store_AD1CON1_field (bf_ASAM hdr) 0 c in
             c
           else c in
  let c := if def_AD1CON2 hdr then
             let c := store_AD1CON2 0 c in
             let c := store_AD1CON2 (set_field (bf_SMPI hdr) 0 (AD1CON2 c)) c in
             c
           else c in
  let c := if def_AD1CON3 hdr then
             let c := store_AD1CON3 0 c in
             let c := store_AD1CON3
                        (set_field (bf_SAMC hdr) ADC_SAMPLE_TIME (AD1CON3 c)) c in
             let c := store_AD1CON3
                        (set_field (bf_ADCS hdr) ADC_ADCS (AD1CON3 c)) c in
             c
           else c in
  let c := if def_AD1CHS0 dev then store_AD1CHS0 0 c else c in
  let c := if def_ADC1BUF0 dev then
             let tmp := to_uint16 (ADC1BUF0 (sfr (driver c))) in
             c
           else c in
  let c := if def_AD1CON1 dev
           then store_AD1CON1_field (bf_ADON hdr) 1 c else c in
  c.

(** The converter leaves the control register and the multiplexer
    register as the program wrote them. *)
Definition keeps_control : Prop :=
  forall h s,
    AD1CON1 (snd (hw h s)) = AD1CON1 s /\
    AD1CHS0 (snd (hw h s)) = AD1CHS0 s.

(** The configuration [ADC_Init] sets up: converter on, every other bit of
    [AD1CON1] clear; [AD1CON2] clear; sample time and conversion clock in
    [AD1CON3]; channel 0. *)
Definition AD1CON1_configured : Z := to_uint16 (set_field (bf_ADON hdr) 1 0).
Definition AD1CON3_configured : Z :=
  to_uint16 (set_field (bf_ADCS hdr) ADC_ADCS
               (to_uint16 (set_field (bf_SAMC hdr) ADC_SAMPLE_TIME 0))).

Lemma set_field_0_0 (f : BitField) : set_field f 0 0 = 0.
Proof. rewrite set_field_zero. apply Z.ldiff_0_l. Qed.

Lemma to_uint16_0 : to_uint16 0 = 0.
Proof. reflexivity. Qed.

(** [AD1CON2], [AD1CON3] and the cached result through each store. *)
Lemma on_driver_AD1CON2 (f : State H -> State H) (c : Converter) :
  AD1CON2 (on_driver f c) = AD1CON2 c.
Proof. reflexivity. Qed.

Lemma on_driver_AD1CON3 (f : State H -> State H) (c : Converter) :
  AD1CON3 (on_driver f c) = AD1CON3 c.
Proof. reflexivity. Qed.

Lemma store_AD1CON2_AD1CON2 (v : Z) (c : Converter) :
  AD1CON2 (store_AD1CON2 v c) = to_uint16 v.
Proof. reflexivity. Qed.

Lemma store_AD1CON2_AD1CON3 (v : Z) (c : Converter) :
  AD1CON3 (store_AD1CON2 v c) = AD1CON3 c.
Proof. reflexivity. Qed.

Lemma store_AD1CON3_AD1CON2 (v : Z) (c : Converter) :
  AD1CON2 (store_AD1CON3 v c) = AD1CON2 c.
Proof. reflexivity. Qed.

Lemma store_AD1CON3_AD1CON3 (v : Z) (c : Converter) :
  AD1CON3 (store_AD1CON3 v c) = to_uint16 v.
Proof. reflexivity. Qed.

Lemma tick_adc_last_result (st : State H) :
  adc_last_result (tick hw st) = adc_last_result st.
Proof. unfold tick. destruct (hw (hidden st) (sfr st)); reflexivity. Qed.

Lemma on_driver_store_adc_last_result (g : SFR -> SFR) (c : Converter) :
  adc_last_result (driver (on_driver (store H hw g) c)) =
  adc_last_result (driver c).
Proof. unfold on_driver, store. simpl. rewrite tick_adc_last_result. reflexivity. Qed.

Lemma store_AD1CON2_adc_last_result (v : Z) (c : Converter) :
  adc_last_result (driver (store_AD1CON2 v c)) = adc_last_result (driver c).
Proof. apply tick_adc_last_result. Qed.

Lemma store_AD1CON3_adc_last_result (v : Z) (c : Converter) :
  adc_last_result (driver (store_AD1CON3 v c)) = adc_last_result (driver c).
Proof. apply tick_adc_last_result. Qed.

Ltac through_the_program_stores :=
  unfold store_AD1CON1_field, store_AD1CON1, store_AD1CHS0;
  repeat first
    [ rewrite on_driver_AD1CON2 | rewrite on_driver_AD1CON3
    | rewrite store_AD1CON2_AD1CON2 | rewrite store_AD1CON2_AD1CON3
    | rewrite store_AD1CON3_AD1CON2 | rewrite store_AD1CON3_AD1CON3
    | rewrite on_driver_store_adc_last_result
    | rewrite store_AD1CON2_adc_last_result
    | rewrite store_AD1CON3_adc_last_result ].

Lemma ADC_Init_AD1CON2 (c : Converter) :
  AD1CON2 (ADC_Init c) = (if def_AD1CON2 hdr then 0 else AD1CON2 c).
Proof.
  unfold ADC_Init. cbv zeta.
  destruct (def_AD1CON1 dev), (def_AD1CON2 hdr), (def_AD1CON3 hdr),
    (def_AD1CHS0 dev), (def_ADC1BUF0 dev); through_the_program_stores;
    rewrite ?to_uint16_0, ?set_field_0_0, ?to_uint16_0; reflexivity.
Qed.

Lemma ADC_Init_AD1CON3 (c : Converter) :
  AD1CON3 (ADC_Init c) =
  (if def_AD1CON3 hdr then AD1CON3_configured else AD1CON3 c).
Proof.
  unfold ADC_Init, AD1CON3_configured. cbv zeta.
  destruct (def_AD1CON1 dev), (def_AD1CON2 hdr), (def_AD1CON3 hdr),
    (def_AD1CHS0 dev), (def_ADC1BUF0 dev); through_the_program_stores;
    rewrite ?to_uint16_0; reflexivity.
Qed.

Lemma ADC_Init_adc_last_result (c : Converter) :
  adc_last_result (driver (ADC_Init c)) = adc_last_result (driver c).
Proof.
  unfold ADC_Init. cbv zeta.
  destruct (def_AD1CON1 dev), (def_AD1CON2 hdr), (def_AD1CON3 hdr),
    (def_AD1CHS0 dev), (def_ADC1BUF0 dev); through_the_program_stores;
    reflexivity.
Qed.

Section QuietConverter.

Hypothesis Hk : keeps_control.

Lemma tick_AD1CON1 (st : State H) :
  AD1CON1 (sfr (tick hw st)) = AD1CON1 (sfr st).
Proof. rewrite sfr_tick. apply Hk. Qed.

Lemma tick_AD1CHS0 (st : State H) :
  AD1CHS0 (sfr (tick hw st)) = AD1CHS0 (sfr st).
Proof. rewrite sfr_tick. apply Hk. Qed.

Lemma on_driver_store_AD1CON1 (g : SFR -> SFR) (c : Converter) :
  AD1CON1 (sfr (driver (on_driver (store H hw g) c))) =
  AD1CON1 (g (sfr (driver c))).
Proof. unfold on_driver, store. simpl. apply tick_AD1CON1. Qed.

Lemma on_driver_store_AD1CHS0 (g : SFR -> SFR) (c : Converter) :
  AD1CHS0 (sfr (driver (on_driver (store H hw g) c))) =
  AD1CHS0 (g (sfr (driver c))).
Proof. unfold on_driver, store. simpl. apply tick_AD1CHS0. Qed.

Lemma store_AD1CON2_AD1CON1 (v : Z) (c : Converter) :
  AD1CON1 (sfr (driver (store_AD1CON2 v c))) = AD1CON1 (sfr (driver c)).
Proof. apply tick_AD1CON1. Qed.

Lemma store_AD1CON2_AD1CHS0 (v : Z) (c : Converter) :
  AD1CHS0 (sfr (driver (store_AD1CON2 v c))) = AD1CHS0 (sfr (driver c)).
Proof. apply tick_AD1CHS0. Qed.

Lemma store_AD1CON3_AD1CON1 (v : Z) (c : Converter) :
  AD1CON1 (sfr (driver (store_AD1CON3 v c))) = AD1CON1 (sfr (driver c)).
Proof. apply tick_AD1CON1. Qed.

Lemma store_AD1CON3_AD1CHS0 (v : Z) (c : Converter) :
  AD1CHS0 (sfr (driver (store_AD1CON3 v c))) = AD1CHS0 (sfr (driver c)).
Proof. apply tick_AD1CHS0. Qed.

Ltac through_the_stores :=
  unfold store_AD1CON1_field, store_AD1CON1, store_AD1CHS0;
  repeat first
    [ rewrite on_driver_store_AD1CON1 | rewrite on_driver_store_AD1CHS0
    | rewrite store_AD1CON2_AD1CON1 | rewrite store_AD1CON2_AD1CHS0
    | rewrite store_AD1CON3_AD1CON1 | rewrite store_AD1CON3_AD1CHS0
    | progress cbn [AD1CON1 AD1CHS0 set_AD1CON1 set_AD1CHS0] ].

Lemma ADC_Init_AD1CON1 (c : Converter) :
  AD1CON1 (sfr (driver (ADC_Init c))) =
  (if def_AD1CON1 dev then AD1CON1_configured else AD1CON1 (sfr (driver c))).
Proof.
  unfold ADC_Init, AD1CON1_configured. cbv zeta.
  destruct (def_AD1CON1 dev), (def_AD1CON2 hdr), (def_AD1CON3 hdr),
    (def_AD1CHS0 dev), (def_ADC1BUF0 dev); through_the_stores;
    rewrite ?to_uint16_0, ?set_field_0_0, ?to_uint16_0,
      ?set_field_0_0, ?to_uint16_0, ?set_field_0_0, ?to_uint16_0;
    reflexivity.
Qed.

Lemma ADC_Init_AD1CHS0 (c : Converter) :
  AD1CHS0 (sfr (driver (ADC_Init c))) =
  (if def_AD1CHS0 dev then 0 else AD1CHS0 (sfr (driver c))).
Proof.
  unfold ADC_Init. cbv zeta.
  destruct (def_AD1CON1 dev), (def_AD1CON2 hdr), (def_AD1CON3 hdr),
    (def_AD1CHS0 dev), (def_ADC1BUF0 dev); through_the_stores;
    rewrite ?to_uint16_0; reflexivity.
Qed.

End QuietConverter.

Lemma get_field_0 (f : BitField) : get_field f 0 = 0.
Proof. unfold get_field. rewrite Z.shiftr_0_l. apply Z.land_0_l. Qed.

(** X15. On a converter that leaves the control and multiplexer registers
    as written, [ADC_Init] brings the four configuration registers to one
    fixed configuration whatever they held before: [AD1CON1] has [ADON] set
    and every other bit clear, [AD1CON2] is clear, [AD1CON3] holds the
    sample time and the conversion clock, [AD1CHS0] selects channel 0 (a
    register the header lacks is left alone). Hence a second [ADC_Init]
    changes none of them; and the cached last result is not reset. *)
Theorem ADC_Init_fixed_configuration (c : Converter) :
  keeps_control ->
  AD1CON1 (sfr (driver (ADC_Init c))) =
    (if def_AD1CON1 dev then AD1CON1_configured
     else AD1CON1 (sfr (driver c))) /\
  AD1CON2 (ADC_Init c) = (if def_AD1CON2 hdr then 0 else AD1CON2 c) /\
  AD1CON3 (ADC_Init c) =
    (if def_AD1CON3 hdr then AD1CON3_configured else AD1CON3 c) /\
  AD1CHS0 (sfr (driver (ADC_Init c))) =
    (if def_AD1CHS0 dev then 0 else AD1CHS0 (sfr (driver c))) /\
  (AD1CON1 (sfr (driver (ADC_Init (ADC_Init c)))) =
     AD1CON1 (sfr (driver (ADC_Init c))) /\
   AD1CON2 (ADC_Init (ADC_Init c)) = AD1CON2 (ADC_Init c) /\
   AD1CON3 (ADC_Init (ADC_Init c)) = AD1CON3 (ADC_Init c) /\
   AD1CHS0 (sfr (driver (ADC_Init (ADC_Init c)))) =
     AD1CHS0 (sfr (driver (ADC_Init c)))) /\
  adc_last_result (driver (ADC_Init c)) = adc_last_result (driver c).
Proof.
  intros Hk.
  rewrite !(ADC_Init_AD1CON1 Hk), !(ADC_Init_AD1CHS0 Hk), !ADC_Init_AD1CON2,
    !ADC_Init_AD1CON3.
  repeat split; try apply ADC_Init_adc_last_result.
  - destruct (def_AD1CON1 dev); reflexivity.
  - destruct (def_AD1CON2 hdr); reflexivity.
  - destruct (def_AD1CON3 hdr); reflexivity.
  - destruct (def_AD1CHS0 dev); reflexivity.
Qed.

(** X16. [ADC_Init] leaves no stale completion flag. On a device with
    [AD1CON1] whose [ADON], [SAMP] and [DONE] are distinct fields of the
    16-bit register, and a converter that leaves the control register as
    written: after [ADC_Init] the converter is on, it is not sampling, and
    [ADC_IsConversionDone] answers false, whatever [AD1CON1] held before. *)
Theorem ADC_Init_leaves_no_stale_DONE (c : Converter) :
  def_AD1CON1 dev = true ->
  keeps_control ->
  disjoint (bf_DONE dev) (bf_ADON hdr) ->
  disjoint (bf_SAMP dev) (bf_ADON hdr) ->
  in_register (bf_DONE dev) ->
  in_register (bf_SAMP dev) ->
  in_register (bf_ADON hdr) ->
  (0 < width (bf_ADON hdr))%nat ->
  ADC_IsConversionDone dev (driver (ADC_Init c)) = false /\
  get_field (bf_ADON hdr) (AD1CON1 (sfr (driver (ADC_Init c)))) = 1 /\
  get_field (bf_SAMP dev) (AD1CON1 (sfr (driver (ADC_Init c)))) = 0.
Proof.
  intros Hdef Hk Hd Hs Hrd Hrs Hra Hw.
  unfold ADC_IsConversionDone, read_DONE.
  rewrite Hdef, (ADC_Init_AD1CON1 Hk), Hdef. unfold AD1CON1_configured.
  rewrite !get_field_to_uint16 by assumption.
  rewrite (get_set_other (bf_DONE dev)), (get_set_other (bf_SAMP dev))
    by assumption.
  rewrite get_set_same, !get_field_0.
  split; [reflexivity | split; [| reflexivity]].
  apply Z.mod_small. split; [lia |].
  apply (Z.pow_gt_1 2); lia.
Qed.


End Setup.

Arguments mkConverter {H} driver AD1CON2 AD1CON3.
Arguments driver {H} c.
Arguments AD1CON2 {H} c.
Arguments AD1CON3 {H} c.
Arguments ADC_Init dev hdr {H} hw c.
Arguments keeps_control {H} hw.

Lemma idle_keeps_control : keeps_control idle.
Proof. intros h s. split; reflexivity. Qed.

(** Registers full of leftovers: a stale [DONE], [SAMP] set, a channel
    selected, an old sample in the cache. *)
Definition leftovers : Converter unit :=
  mkConverter (mkState (mkSFR 0x04E7 0x0305 0x0123) tt 0x0777) 0x003C 0x1F1F.

Example ADC_Init_on_the_target :
  ADC_Init p33FJ32MC204 p33FJ32MC204_setup idle leftovers =
  mkConverter (mkState (mkSFR 0x8000 0 0x0123) tt 0x0777) 0 0x0404.
Proof. vm_compute. reflexivity. Qed.

Lemma ADC_Init_fixed_configuration_witness :
  AD1CON1 (sfr (driver (ADC_Init p33FJ32MC204 p33FJ32MC204_setup idle
                          leftovers))) =
    (if def_AD1CON1 p33FJ32MC204
     then AD1CON1_configured p33FJ32MC204_setup
     else AD1CON1 (sfr (driver leftovers))) /\
  AD1CON2 (ADC_Init p33FJ32MC204 p33FJ32MC204_setup idle leftovers) =
    (if def_AD1CON2 p33FJ32MC204_setup then 0 else AD1CON2 leftovers) /\
  AD1CON3 (ADC_Init p33FJ32MC204 p33FJ32MC204_setup idle leftovers) =
    (if def_AD1CON3 p33FJ32MC204_setup
     then AD1CON3_configured p33FJ32MC204_setup
     else AD1CON3 leftovers) /\
  AD1CHS0 (sfr (driver (ADC_Init p33FJ32MC204 p33FJ32MC204_setup idle
                          leftovers))) =
    (if def_AD1CHS0 p33FJ32MC204 then 0
     else AD1CHS0 (sfr (driver leftovers))) /\
  (AD1CON1 (sfr (driver
     (ADC_Init p33FJ32MC204 p33FJ32MC204_setup idle
        (ADC_Init p33FJ32MC204 p33FJ32MC204_setup idle leftovers)))) =
     AD1CON1 (sfr (driver
       (ADC_Init p33FJ32MC204 p33FJ32MC204_setup idle leftovers))) /\
   AD1CON2 (ADC_Init p33FJ32MC204 p33FJ32MC204_setup idle
              (ADC_Init p33FJ32MC204 p33FJ32MC204_setup idle leftovers)) =
     AD1CON2 (ADC_Init p33FJ32MC204 p33FJ32MC204_setup idle leftovers) /\
   AD1CON3 (ADC_Init p33FJ32MC204 p33FJ32MC204_setup idle
              (ADC_Init p33FJ32MC204 p33FJ32MC204_setup idle leftovers)) =
     AD1CON3 (ADC_Init p33FJ32MC204 p33FJ32MC204_setup idle leftovers) /\
   AD1CHS0 (sfr (driver
     (ADC_Init p33FJ32MC204 p33FJ32MC204_setup idle
        (ADC_Init p33FJ32MC204 p33FJ32MC204_setup idle leftovers)))) =
     AD1CHS0 (sfr (driver
       (ADC_Init p33FJ32MC204 p33FJ32MC204_setup idle leftovers)))) /\
  adc_last_result
    (driver (ADC_Init p33FJ32MC204 p33FJ32MC204_setup idle leftovers)) =
    adc_last_result (driver leftovers).
Proof.
  apply (ADC_Init_fixed_configuration
           p33FJ32MC204 p33FJ32MC204_setup unit idle leftovers).
  apply idle_keeps_control.
Defined.

Lemma ADC_Init_leaves_no_stale_DONE_witness :
  ADC_IsConversionDone p33FJ32MC204 (driver leftovers) = true /\
  ADC_IsConversionDone p33FJ32MC204
    (driver (ADC_Init p33FJ32MC204 p33FJ32MC204_setup idle leftovers))
    = false /\
  get_field (bf_ADON p33FJ32MC204_setup)
    (AD1CON1 (sfr (driver (ADC_Init p33FJ32MC204 p33FJ32MC204_setup idle
                             leftovers)))) = 1 /\
  get_field (bf_SAMP p33FJ32MC204)
    (AD1CON1 (sfr (driver (ADC_Init p33FJ32MC204 p33FJ32MC204_setup idle
                             leftovers)))) = 0.
Proof.
  split; [reflexivity |].
  apply (ADC_Init_leaves_no_stale_DONE
           p33FJ32MC204 p33FJ32MC204_setup unit idle leftovers).
  - reflexivity.
  - apply idle_keeps_control.
  - left. simpl. lia.
  - left. simpl. lia.
  - unfold in_register. simpl. lia.
  - unfold in_register. simpl. lia.
  - unfold in_register. simpl. lia.
  - simpl. lia.
Defined.

(** Whatever the device and the converter, a value the blocking read
    returns is a 12-bit value, and it is the cached one. *)
Lemma ADC_ReadSingleBlocking_value
      (dev : Device) (H : Type) (hw : H -> SFR -> H * SFR)
      (fuel : nat) (channel : Z) (st st' : State H) (v : Z) :
  ADC_ReadSingleBlocking dev hw fuel channel st = Returned (v, st') ->
  0 <= v <= 4095 /\ adc_last_result st' = v.
Proof.
  intros Hr. rewrite ADC_ReadSingleBlocking_composite in Hr.
  destruct (if def_AD1CON1 dev then _ else _) as [s | s]; [| discriminate Hr].
  injection Hr as Hv Hst. rewrite <- Hv, <- Hst.
  split; [apply masked_sample_range | reflexivity].
Qed.

End ADC.

(* ====================================================================== *)
(** * config.c: the configuration report *)
(* ====================================================================== *)

Module Report.
Import Bits Xc.
Local Open Scope string_scope.

(** The [CONFIG_*] choices of sections 2 to 5 of [config.h] that the report
    tests: each is "this macro is defined". *)
Record Protection : Type := mkProtection {
  CONFIG_WDT_OFF : bool;
  CONFIG_MCLR_ENABLED : bool;
  CONFIG_BOR_OFF : bool;
  CONFIG_CODE_PROTECT_OFF : bool
}.

(** The header as it stands in the repository. *)
Definition config_h_protection : Protection :=
  {| CONFIG_WDT_OFF := true; CONFIG_MCLR_ENABLED := true;
     CONFIG_BOR_OFF := true; CONFIG_CODE_PROTECT_OFF := true |}.

(** The two characters every format string of the report ends with. *)
Definition CRLF : string :=
  String (ascii_of_nat 13) (String (ascii_of_nat 10) EmptyString).

(** What [printf] writes for [%lu]. *)
Definition print_lu (v : Z) : string :=
  NilZero.string_of_uint (N.to_uint (Z.to_N v)).

Definition oscillator_line (o : Config.Options) : string :=
  if Config.CONFIG_OSC_INTERNO_PLL o
  then "  Oscillator: INTERNAL + PLL" ++ CRLF
  else if Config.CONFIG_OSC_INTERNO_SIMPLE o
  then "  Oscillator: INTERNAL (no PLL)" ++ CRLF
  else if Config.CONFIG_OSC_EXTERNO_PLL o
  then "  Oscillator: EXTERNAL + PLL" ++ CRLF
  else if Config.CONFIG_OSC_EXTERNO_SIMPLE o
  then "  Oscillator: EXTERNAL (no PLL)" ++ CRLF
  else "  Oscillator: DEFAULT" ++ CRLF.

(** [SYSTEM_PrintConfiguration]: what each [printf] call writes to the
    standard output, in order; nothing when [__XC16__] is not defined. *)
Definition SYSTEM_PrintConfiguration
           (dev : Device) (o : Config.Options) (p : Protection)
  : list string :=
  if def_XC16 dev then
    [ "System configuration:" ++ CRLF;
      oscillator_line o;
      (if CONFIG_WDT_OFF p then "  WDT: OFF" ++ CRLF
       else "  WDT: ON" ++ CRLF);
      (if CONFIG_MCLR_ENABLED p then "  MCLR: ENABLED" ++ CRLF
       else "  MCLR: DISABLED" ++ CRLF);
      (if CONFIG_BOR_OFF p then "  BOR: OFF" ++ CRLF
       else "  BOR: ON" ++ CRLF);
      (if CONFIG_CODE_PROTECT_OFF p then "  Code Protect: OFF" ++ CRLF
       else "  Code Protect: ON" ++ CRLF);
      "  FCY: " ++ print_lu (to_uint32 (Config.SYSTEM_GetClockFrequency o))
                ++ " Hz" ++ CRLF ]
  else [].

Example report_of_the_repository :
  String.concat "" (SYSTEM_PrintConfiguration p33FJ32MC204 Config.config_h
                      config_h_protection) =
  "System configuration:" ++ CRLF ++
  "  Oscillator: INTERNAL + PLL" ++ CRLF ++
  "  WDT: OFF" ++ CRLF ++
  "  MCLR: ENABLED" ++ CRLF ++
  "  BOR: OFF" ++ CRLF ++
  "  Code Protect: OFF" ++ CRLF ++
  "  FCY: 40000000 Hz" ++ CRLF.
Proof. vm_compute. reflexivity. Qed.

(** X17. The report and the header agree on the oscillator. Built with
    XC16, the second line of the report is the oscillator line; it reads
    DEFAULT exactly when reading [config.h] gave the configuration warning,
    and, with no frequency macro defined ahead of the header, it names a
    PLL oscillator exactly when the frequency printed in the last line is
    40000000: with several options defined at once, the report's
    [#ifdef] chain picks the same one as the header's. *)
Theorem report_names_the_oscillator_in_use
        (dev : Device) (o : Config.Options) (p : Protection) :
  def_XC16 dev = true ->
  nth_error (SYSTEM_PrintConfiguration dev o p) 1 = Some (oscillator_line o) /\
  (oscillator_line o = "  Oscillator: DEFAULT" ++ CRLF <->
   In Config.ConfigurationWarning (Config.diagnostics o)) /\
  (Config.predefined_FOSC_PRIM o = None ->
   Config.predefined_FOSC o = None ->
   Config.predefined_FCY o = None ->
   (oscillator_line o = "  Oscillator: INTERNAL + PLL" ++ CRLF \/
    oscillator_line o = "  Oscillator: EXTERNAL + PLL" ++ CRLF <->
    Config.SYSTEM_GetClockFrequency o = 40000000) /\
   nth_error (SYSTEM_PrintConfiguration dev o p) 6 =
     Some ("  FCY: " ++ print_lu (Config.SYSTEM_GetClockFrequency o)
                     ++ " Hz" ++ CRLF)).
Proof.
  intros Hxc. unfold SYSTEM_PrintConfiguration. rewrite Hxc.
  split; [reflexivity |].
  split.
  - rewrite Config.diagnostics_chain.
    unfold oscillator_line, Config.no_oscillator_option.
    destruct (Config.CONFIG_OSC_INTERNO_PLL o),
      (Config.CONFIG_OSC_INTERNO_SIMPLE o),
      (Config.CONFIG_OSC_EXTERNO_PLL o),
      (Config.CONFIG_OSC_EXTERNO_SIMPLE o);
      simpl; split; intros Hx;
      first [ discriminate Hx | contradiction Hx | reflexivity
            | left; reflexivity ].
  - intros Hp Hs Hf.
    rewrite Config.clock_in_uint32, (Config.clock_chain o Hp Hs Hf).
    unfold oscillator_line.
    destruct (Config.CONFIG_OSC_INTERNO_PLL o),
      (Config.CONFIG_OSC_INTERNO_SIMPLE o),
      (Config.CONFIG_OSC_EXTERNO_PLL o),
      (Config.CONFIG_OSC_EXTERNO_SIMPLE o);
      (split; [| reflexivity]);
      split; intros Hx;
      first [ discriminate Hx
            | destruct Hx as [Hx | Hx]; discriminate Hx
            | reflexivity | left; reflexivity | right; reflexivity ].
Qed.

Lemma report_names_the_oscillator_in_use_witness :
  nth_error (SYSTEM_PrintConfiguration p33FJ32MC204 Config.two_options_selected
               config_h_protection) 1 =
    Some (oscillator_line Config.two_options_selected) /\
  (oscillator_line Config.two_options_selected =
     "  Oscillator: DEFAULT" ++ CRLF <->
   In Config.ConfigurationWarning
      (Config.diagnostics Config.two_options_selected)) /\
  (Config.predefined_FOSC_PRIM Config.two_options_selected = None ->
   Config.predefined_FOSC Config.two_options_selected = None ->
   Config.predefined_FCY Config.two_options_selected = None ->
   (oscillator_line Config.two_options_selected =
      "  Oscillator: INTERNAL + PLL" ++ CRLF \/
    oscillator_line Config.two_options_selected =
      "  Oscillator: EXTERNAL + PLL" ++ CRLF <->
    Config.SYSTEM_GetClockFrequency Config.two_options_selected = 40000000) /\
   nth_error (SYSTEM_PrintConfiguration p33FJ32MC204
                Config.two_options_selected config_h_protection) 6 =
     Some ("  FCY: " ++
           print_lu (Config.SYSTEM_GetClockFrequency
                       Config.two_options_selected)
           ++ " Hz" ++ CRLF)).
Proof.
  apply (report_names_the_oscillator_in_use
           p33FJ32MC204 Config.two_options_selected config_h_protection).
  reflexivity.
Defined.

Example report_with_two_options :
  nth_error (SYSTEM_PrintConfiguration p33FJ32MC204 Config.two_options_selected
               config_h_protection) 1 =
    Some ("  Oscillator: INTERNAL (no PLL)" ++ CRLF) /\
  nth_error (SYSTEM_PrintConfiguration p33FJ32MC204 Config.two_options_selected
               config_h_protection) 6 =
    Some ("  FCY: 3685000 Hz" ++ CRLF).
Proof. split; vm_compute; reflexivity. Qed.

End Report.

(* ====================================================================== *)
(** * main.c: the ADC check program *)
(* ====================================================================== *)

Module Main.
Import Bits Xc.

(** [#define SAMPLE_PERIOD_MS 50u] *)
Definition SAMPLE_PERIOD_MS : Z := 50.

(** What [board_pins_init] and the main loop need of the device header
    beyond [Device]. *)
Record PinHeader : Type := mkPinHeader {
  def_AD1PCFGL : bool;     (** [AD1PCFGL] is defined *)
  def_AD1PCFG : bool;      (** [AD1PCFG] is defined *)
  def_ANSELAbits : bool;   (** [ANSELAbits] is defined *)
  def_TRISAbits : bool;    (** [TRISAbits] is defined *)
  def_TRISA : bool;        (** [TRISA] is defined *)
  def_PORTB : bool;        (** [PORTB] is defined *)
  bf_ANSA0 : BitField;     (** [ANSELAbits.ANSA0] *)
  bf_TRISA0 : BitField     (** [TRISAbits.TRISA0] *)
}.

(** The target: [AD1PCFGL] and no [ANSELA]; [TRISA0] is bit 0 of [TRISA]. *)
Definition p33FJ32MC204_pins : PinHeader :=
  {| def_AD1PCFGL := true; def_AD1PCFG := false; def_ANSELAbits := false;
     def_TRISAbits := true; def_TRISA := true; def_PORTB := true;
     bf_ANSA0 := mkField 0 1; bf_TRISA0 := mkField 0 1 |}.

(** The pin registers of port A and of the analog inputs, and [PORTB]. *)
Record Pins : Type := mkPins {
  AD1PCFGL : Z;
  AD1PCFG : Z;
  ANSELA : Z;
  TRISA : Z;
  PORTB : Z
}.

Section Application.

Variable dev : Device.
Variable hdr : ADC.SetupHeader.
Variable pin : PinHeader.
Variable opts : Config.Options.
Variable prot : Report.Protection.
Variable H : Type.
Variable hw : H -> ADC.SFR -> H * ADC.SFR.

(** [__delay_ms] of libpic30 is not in the repository: the number of steps
    the converter takes during a delay of so many milliseconds is a
    parameter. *)
Variable delay_ms : Z -> nat.

(** The whole board as [main.c] sees it: the lifecycle machine with port
    B, the pin registers, the converter, and what was printed so far. *)
Record Board : Type := mkBoard {
  sys : System.Sys;
  pins : Pins;
  conv : ADC.Converter H;
  stdout : list string
}.

Definition board_pins_init (b : Board) : Board :=
  let p := pins b in
  let p := if def_AD1PCFGL pin then
             mkPins (to_uint16 (Z.land (AD1PCFGL p)
                                       (to_uint16 (Z.lnot (Z.shiftl 1 0)))))
                    (AD1PCFG p) (ANSELA p) (TRISA p) (PORTB p)
           else if def_AD1PCFG pin then
             mkPins (AD1PCFGL p)
                    (to_uint16 (Z.land (AD1PCFG p)
                                       (to_uint16 (Z.lnot (Z.shiftl 1 0)))))
                    (ANSELA p) (TRISA p) (PORTB p)
           else p in
  let p := if def_ANSELAbits pin then
             mkPins (AD1PCFGL p) (AD1PCFG p)
                    (to_uint16 (set_field (bf_ANSA0 pin) 1 (ANSELA p)))
                    (TRISA p) (PORTB p)
           else p in
  let p := if def_TRISAbits pin then
             mkPins (AD1PCFGL p) (AD1PCFG p) (ANSELA p)
                    (to_uint16 (set_field (bf_TRISA0 pin) 1 (TRISA p)))
                    (PORTB p)
           else if def_TRISA pin then
             mkPins (AD1PCFGL p) (AD1PCFG p) (ANSELA p)
                    (to_uint16 (Z.lor (TRISA p) (Z.shiftl 1 0)))
                    (PORTB p)
           else p in
  let s := sys b in
  let s := if def_LATB dev
           then System.perform
                  (System.Store_LATB (Z.land (System.LATB s) 0xFF00)) s
           else s in
  let s := if def_TRISBbits dev then
             let s := System.store_TRISBbit dev 0 0 s in
             let s := System.store_TRISBbit dev 1 0 s in
             let s := System.store_TRISBbit dev 2 0 s in
             let s := System.store_TRISBbit dev 3 0 s in
             let s := System.store_TRISBbit dev 4 0 s in
             let s := System.store_TRISBbit dev 5 0 s in
             let s := System.store_TRISBbit dev 6 0 s in
             let s := System.store_TRISBbit dev 7 0 s in
             s
           else if def_TRISB dev then
             System.perform
               (System.Store_TRISB
                  (Z.land (System.TRISB s) (to_uint16 (Z.lnot 255)))) s
           else s in
  mkBoard s p (conv b) (stdout b).

(** [leds = (uint8_t)((adc_value >> 4) & 0xFFu);] *)
Definition leds_of (adc_value : Z) : Z :=
  to_uint8 (Z.land (Z.shiftr adc_value 4) 0xFF).

(** The program between two rounds of its loop, or inside a blocking
    read that has not returned yet. [main] never returns. *)
Inductive Run : Type :=
| Running (b : Board)
| Waiting (b : Board).

Definition board_of (r : Run) : Board :=
  match r with Running b => b | Waiting b => b end.

Definition with_driver (st : ADC.State H) (b : Board) : Board :=
  mkBoard (sys b) (pins b)
          (ADC.mkConverter st (ADC.AD1CON2 (conv b)) (ADC.AD1CON3 (conv b)))
          (stdout b).

(** [DELAY_MS(ms)]: time passes for the converter. *)
Definition DELAY_MS (ms : Z) (b : Board) : Board :=
  with_driver (ADC.nop_loop hw (delay_ms ms) (ADC.driver (conv b))) b.

(** One round of the [while (1)] loop of [main]. *)
Definition loop_body (fuel : nat) (b : Board) : Run :=
  match ADC.ADC_ReadSingleBlocking dev hw fuel 0 (ADC.driver (conv b)) with
  | ADC.Blocked st => Waiting (with_driver st b)
  | ADC.Returned (adc_value, st) =>
      let b := with_driver st b in
      let leds := leds_of adc_value in
      let b := if def_LATB dev then
                 mkBoard (System.perform
                            (System.Store_LATB
                               (Z.lor (Z.land (System.LATB (sys b)) 0xFF00)
                                      leds))
                            (sys b))
                         (pins b) (conv b) (stdout b)
               else if def_PORTB pin then
                 mkBoard (sys b)
                         (mkPins (AD1PCFGL (pins b)) (AD1PCFG (pins b))
                                 (ANSELA (pins b)) (TRISA (pins b))
                                 (to_uint16
                                    (Z.lor (Z.land (PORTB (pins b)) 0xFF00)
                                           leds)))
                         (conv b) (stdout b)
               else b in
      Running (DELAY_MS SAMPLE_PERIOD_MS b)
  end.

Fixpoint main_loop (rounds fuel : nat) (b : Board) : Run :=
  match rounds with
  | O => Running b
  | S rounds' =>
      match loop_body fuel b with
      | Waiting b' => Waiting b'
      | Running b' => main_loop rounds' fuel b'
      end
  end.

(** [main] up to its loop. *)
Definition main_init (b : Board) : Board :=
  let b := mkBoard (System.SYSTEM_Initialize dev opts (sys b))
                   (pins b) (conv b) (stdout b) in
  let b := board_pins_init b in
  let b := mkBoard (sys b) (pins b) (conv b)
                   (stdout b ++
                    Report.SYSTEM_PrintConfiguration dev opts prot) in
  let b := mkBoard (sys b) (pins b) (ADC.ADC_Init dev hdr hw (conv b))
                   (stdout b) in
  b.

(** [main], run for so many rounds of its loop, each blocking read with
    so much fuel. *)
Definition main (rounds fuel : nat) (b : Board) : Run :=
  main_loop rounds fuel (main_init b).

(** ** What [board_pins_init] does to the lifecycle machine *)

Lemma board_pins_init_frame (b : Board) :
  conv (board_pins_init b) = conv b /\
  stdout (board_pins_init b) = stdout b /\
  PORTB (pins (board_pins_init b)) = PORTB (pins b).
Proof.
  unfold board_pins_init. cbv zeta. cbn [conv stdout pins].
  split; [reflexivity | split; [reflexivity |]].
  destruct (def_AD1PCFGL pin), (def_AD1PCFG pin), (def_ANSELAbits pin),
    (def_TRISAbits pin), (def_TRISA pin); reflexivity.
Qed.

Lemma board_pins_init_log (b : Board) :
  System.port_stores_only (sys b) (sys (board_pins_init b)).
Proof.
  unfold board_pins_init, System.store_TRISBbit. cbv zeta. cbn [sys].
  destruct (def_LATB dev), (def_TRISBbits dev), (def_TRISB dev);
    repeat (apply System.port_stores_only_step; [reflexivity |]);
    apply System.port_stores_only_refl.
Qed.

Lemma board_pins_init_LATB (b : Board) :
  System.LATB (sys (board_pins_init b)) =
  (if def_LATB dev then Z.land (System.LATB (sys b)) 0xFF00
   else System.LATB (sys b)).
Proof.
  unfold board_pins_init, System.store_TRISBbit. cbv zeta. cbn [sys].
  destruct (def_LATB dev), (def_TRISBbits dev), (def_TRISB dev);
    cbn [System.perform System.effect System.record System.LATB];
    rewrite ?to_uint16_land_high; reflexivity.
Qed.

Lemma board_pins_init_TRISB (b : Board) :
  System.TRISB (sys (board_pins_init b)) =
  (if def_TRISBbits dev
   then Z.land (System.TRISB (sys b)) (System.keep_all dev)
   else if def_TRISB dev then Z.land (System.TRISB (sys b)) 0xFF00
   else System.TRISB (sys b)).
Proof.
  unfold board_pins_init. cbv zeta. cbn [sys].
  destruct (def_TRISBbits dev), (def_TRISB dev).
  1, 2: rewrite <- System.clear_TRISB0_7;
        unfold System.store_TRISBbit, System.clear_TRISBbit;
        destruct (def_LATB dev);
        cbn [System.perform System.effect System.record System.TRISB];
        reflexivity.
  1: destruct (def_LATB dev);
     cbn [System.perform System.effect System.record System.TRISB];
     change (to_uint16 (Z.lnot 255)) with 0xFF00;
     apply to_uint16_land_high.
  destruct (def_LATB dev); reflexivity.
Qed.

(** X18. On a header with [AD1PCFGL], [board_pins_init] makes AN0 an analog
    input: it clears bit 0 of [AD1PCFGL] and keeps its other fifteen bits,
    does not write [AD1PCFG] (the [#elif]), and puts RA0 in input direction
    through [TRISAbits] or, failing that, through bit 0 of [TRISA]. It
    leaves [PORTB], the converter and the output alone. *)
Theorem board_pins_init_makes_AN0_analog_input (b : Board) :
  def_AD1PCFGL pin = true ->
  Z.land (AD1PCFGL (pins (board_pins_init b))) 1 = 0 /\
  Z.land (AD1PCFGL (pins (board_pins_init b))) 0xFFFE =
    Z.land (AD1PCFGL (pins b)) 0xFFFE /\
  AD1PCFG (pins (board_pins_init b)) = AD1PCFG (pins b) /\
  (def_TRISAbits pin = true -> in_register (bf_TRISA0 pin) ->
   (0 < width (bf_TRISA0 pin))%nat ->
   get_field (bf_TRISA0 pin) (TRISA (pins (board_pins_init b))) = 1) /\
  (def_TRISAbits pin = false -> def_TRISA pin = true ->
   Z.land (TRISA (pins (board_pins_init b))) 1 = 1) /\
  PORTB (pins (board_pins_init b)) = PORTB (pins b) /\
  conv (board_pins_init b) = conv b /\
  stdout (board_pins_init b) = stdout b.
Proof.
  intros Hdef.
  unfold board_pins_init. cbv zeta. cbn [pins conv stdout]. rewrite Hdef.
  change (to_uint16 (Z.lnot (Z.shiftl 1 0))) with 0xFFFE.
  change (Z.shiftl 1 0) with 1.
  split; [| split; [| split; [| split; [| split]]]].
  - destruct (def_ANSELAbits pin), (def_TRISAbits pin), (def_TRISA pin);
      cbn [AD1PCFGL]; apply clear_bit0_low.
  - destruct (def_ANSELAbits pin), (def_TRISAbits pin), (def_TRISA pin);
      cbn [AD1PCFGL]; apply clear_bit0_high.
  - destruct (def_ANSELAbits pin), (def_TRISAbits pin), (def_TRISA pin);
      reflexivity.
  - intros Hbits Hreg Hw. rewrite Hbits.
    destruct (def_ANSELAbits pin); cbn [TRISA];
      rewrite get_field_to_uint16, get_set_same by exact Hreg;
      apply Z.mod_small; (split; [lia | apply (Z.pow_gt_1 2); lia]).
  - intros Hbits Hreg. rewrite Hbits, Hreg.
    destruct (def_ANSELAbits pin); cbn [TRISA]; apply set_bit0_low.
  - destruct (def_ANSELAbits pin), (def_TRISAbits pin), (def_TRISA pin);
      repeat split; reflexivity.
Qed.

(** X19. With port B enabled in [config.h], [board_pins_init] repeats on
    port B what [SYSTEM_Initialize()] has just done: called right after it,
    as [main] does, it changes neither [LATB] nor [TRISB], whichever
    [#ifdef] branches are compiled, and the state stays Ready. *)
Theorem board_pins_init_repeats_ports_init (b : Board) :
  Config.CONFIG_PORT_B_ENABLED opts = true ->
  let b1 := mkBoard (System.SYSTEM_Initialize dev opts (sys b))
                    (pins b) (conv b) (stdout b) in
  System.LATB (sys (board_pins_init b1)) = System.LATB (sys b1) /\
  System.TRISB (sys (board_pins_init b1)) = System.TRISB (sys b1) /\
  System.SYSTEM_GetState (sys (board_pins_init b1)) = System.SYS_STATE_READY /\
  System.interrupts_enabled (sys (board_pins_init b1)) =
    System.interrupts_enabled (sys b1).
Proof.
  intros Hen b1.
  destruct (System.SYSTEM_Initialize_fields dev opts (sys b))
    as (Hs & Hl & Ht & _).
  destruct (board_pins_init_log b1) as (l & _ & _ & Hst & Hie).
  unfold System.SYSTEM_GetState.
  rewrite board_pins_init_LATB, board_pins_init_TRISB, Hst, Hie.
  cbn [sys b1]. rewrite Hs, Hl, Ht.
  split; [| split; [| split; reflexivity]].
  - destruct (def_LATB dev); reflexivity.
  - unfold System.TRISB_after_ports. rewrite Hen.
    destruct (def_TRISBbits dev).
    + rewrite System.clear_TRISB0_7. apply System.land_land_same.
    + change (to_uint16 (Z.lnot 255)) with 0xFF00.
      rewrite to_uint16_land_high.
      destruct (def_TRISB dev); [apply System.land_land_same | reflexivity].
Qed.

(** X20. The application's own pin setup runs outside the critical
    section. Built with XC16, [SYSTEM_Initialize()] returns with
    interrupts enabled, so every store [board_pins_init] then performs on a
    port B register, and it performs nothing else on the lifecycle machine,
    is performed with interrupts enabled. *)
Theorem board_pins_init_runs_with_interrupts_enabled (b : Board) :
  def_XC16 dev = true ->
  let b1 := mkBoard (System.SYSTEM_Initialize dev opts (sys b))
                    (pins b) (conv b) (stdout b) in
  System.interrupts_enabled (sys b1) = true /\
  Forall (fun e => System.is_port_store (fst e) = true /\ snd e = true)
         (System.since (sys b1) (sys (board_pins_init b1))).
Proof.
  intros Hxc b1.
  destruct (System.SYSTEM_Initialize_fields dev opts (sys b))
    as (_ & _ & _ & Hi).
  rewrite Hxc in Hi.
  destruct (board_pins_init_log b1) as (l & Hl & Hall & _ & _).
  cbn [sys b1] in *. rewrite Hi in Hall.
  split; [exact Hi |].
  rewrite (System.since_app _ _ l Hl). exact Hall.
Qed.

(** ** The loop of [main] *)

Lemma nop_loop_adc_last_result (n : nat) :
  forall st, ADC.adc_last_result (ADC.nop_loop hw n st) =
             ADC.adc_last_result st.
Proof.
  induction n as [| n IH]; intros st; simpl; [reflexivity |].
  rewrite IH. apply ADC.tick_adc_last_result.
Qed.

Lemma leds_of_range (v : Z) : 0 <= leds_of v <= 255.
Proof. apply to_uint8_range. Qed.

(** X21. One round of the loop shows the eight most significant bits of
    the 12-bit sample on RB0..RB7. Where [LATB] exists, when the round's
    blocking read returns the sample [v] (which is the driver's cached
    value, between 0 and 4095): the low byte of [LATB] becomes [v / 16]
    exactly, nothing of the sample being cut off by the mask or by the
    conversion to [uint8_t]; the high byte of [LATB] is kept; and [TRISB],
    the lifecycle state and the interrupt flag are not touched. *)
Theorem loop_round_shows_top_eight_bits (fuel : nat) (b b' : Board) :
  def_LATB dev = true ->
  loop_body fuel b = Running b' ->
  exists v,
    0 <= v <= 4095 /\
    ADC.adc_last_result (ADC.driver (conv b')) = v /\
    leds_of v = v / 16 /\
    System.LATB (sys b') = Z.lor (Z.land (System.LATB (sys b)) 0xFF00) (v / 16) /\
    Z.land (System.LATB (sys b')) 0xFF = v / 16 /\
    Z.land (System.LATB (sys b')) 0xFF00 = Z.land (System.LATB (sys b)) 0xFF00 /\
    System.TRISB (sys b') = System.TRISB (sys b) /\
    System.system_state (sys b') = System.system_state (sys b) /\
    System.interrupts_enabled (sys b') = System.interrupts_enabled (sys b).
Proof.
  intros Hdef Hrun. unfold loop_body in Hrun.
  destruct (ADC.ADC_ReadSingleBlocking dev hw fuel 0 (ADC.driver (conv b)))
    as [[v st] | st] eqn:Hread; [| discriminate Hrun].
  destruct (ADC.ADC_ReadSingleBlocking_value _ _ _ _ _ _ _ _ Hread)
    as [Hv Hcache].
  destruct (top_eight_of_twelve v Hv) as [Hleds Hq].
  cbv zeta in Hrun. rewrite Hdef in Hrun.
  injection Hrun as Hb'. subst b'.
  exists v. unfold DELAY_MS, with_driver, leds_of.
  cbn [sys conv ADC.driver System.perform System.effect System.record
       System.LATB System.TRISB System.system_state
       System.interrupts_enabled].
  rewrite nop_loop_adc_last_result, Hleds.
  rewrite (to_uint16_lor_bytes _ _ Hq).
  split; [exact Hv |].
  split; [exact Hcache |].
  split; [reflexivity |].
  split; [reflexivity |].
  split; [apply lor_bytes_low; exact Hq |].
  split; [apply lor_bytes_high; exact Hq |].
  split; [reflexivity | split; reflexivity].
Qed.

(** What holds of the lifecycle machine at every moment of [main] after
    its set-up, where [LATB] exists. *)
Definition displaying (s0 s : System.Sys) : Prop :=
  System.system_state s = System.system_state s0 /\
  System.TRISB s = System.TRISB s0 /\
  System.interrupts_enabled s = System.interrupts_enabled s0 /\
  0 <= System.LATB s <= 255.

Lemma loop_body_displaying (fuel : nat) (s0 : System.Sys) (b : Board) :
  def_LATB dev = true ->
  displaying s0 (sys b) ->
  displaying s0 (sys (board_of (loop_body fuel b))) /\
  stdout (board_of (loop_body fuel b)) = stdout b.
Proof.
  intros Hdef (Hs & Ht & Hi & Hl). unfold loop_body.
  destruct (ADC.ADC_ReadSingleBlocking dev hw fuel 0 (ADC.driver (conv b)))
    as [[v st] | st].
  - cbv zeta. rewrite Hdef. unfold DELAY_MS, with_driver.
    cbn [board_of sys conv stdout System.perform System.effect System.record
         System.LATB System.TRISB System.system_state
         System.interrupts_enabled].
    split; [| reflexivity].
    split; [exact Hs | split; [exact Ht | split; [exact Hi |]]].
    rewrite (land_high_of_byte _ Hl), Z.lor_0_l.
    pose proof (leds_of_range v) as Hr.
    unfold to_uint16. change (2 ^ 16) with 65536.
    rewrite Z.mod_small by lia. exact Hr.
  - unfold with_driver. cbn [board_of sys stdout].
    split; [| reflexivity].
    split; [exact Hs | split; [exact Ht | split; [exact Hi | exact Hl]]].
Qed.

Lemma main_loop_displaying (rounds fuel : nat) (s0 : System.Sys) :
  def_LATB dev = true ->
  forall b, displaying s0 (sys b) ->
            displaying s0 (sys (board_of (main_loop rounds fuel b))) /\
            stdout (board_of (main_loop rounds fuel b)) = stdout b.
Proof.
  intros Hdef. induction rounds as [| rounds IH]; intros b Hd; simpl.
  - split; [exact Hd | reflexivity].
  - destruct (loop_body_displaying fuel s0 b Hdef Hd) as [Hd' Ho'].
    destruct (loop_body fuel b) as [b1 | b1]; cbn [board_of] in *.
    + destruct (IH b1 Hd') as [Hd2 Ho2]. split; [exact Hd2 | congruence].
    + split; assumption.
Qed.

(** X22. [main] only ever drives RB0..RB7. Where [LATB] exists, after the
    set-up of [main] and at any later moment (between two rounds of the
    loop or inside a blocking read, after any number of rounds): the
    lifecycle state is Ready, [LATB] is a value between 0 and 255 (the high
    byte of the latch is never set), [TRISB] and the interrupt flag are as
    the set-up left them, and the configuration report has been printed
    once, after what was on the output before. *)
Theorem main_keeps_ready_and_drives_RB0_7_only
        (rounds fuel : nat) (b : Board) :
  def_LATB dev = true ->
  let now := board_of (main rounds fuel b) in
  System.SYSTEM_GetState (sys now) = System.SYS_STATE_READY /\
  0 <= System.LATB (sys now) <= 255 /\
  System.TRISB (sys now) = System.TRISB (sys (main_init b)) /\
  System.interrupts_enabled (sys now) =
    System.interrupts_enabled (System.SYSTEM_Initialize dev opts (sys b)) /\
  stdout now =
    stdout b ++ Report.SYSTEM_PrintConfiguration dev opts prot.
Proof.
  intros Hdef now.
  set (b1 := mkBoard (System.SYSTEM_Initialize dev opts (sys b))
                     (pins b) (conv b) (stdout b)).
  destruct (System.SYSTEM_Initialize_fields dev opts (sys b))
    as (Hs & Hl & _ & _).
  destruct (board_pins_init_log b1) as (l & _ & _ & Hst & Hie).
  destruct (board_pins_init_frame b1) as (_ & Hout & _).
  pose proof (board_pins_init_LATB b1) as Hlatb.
  rewrite Hdef in Hlatb, Hl. cbn [sys b1] in Hst, Hie, Hlatb.
  rewrite Hl in Hlatb. change (Z.land 0 0xFF00) with 0 in Hlatb.
  assert (Hinit : sys (main_init b) = sys (board_pins_init b1))
    by reflexivity.
  assert (Hstart : displaying (sys (main_init b)) (sys (main_init b))).
  { split; [reflexivity | split; [reflexivity | split; [reflexivity |]]].
    rewrite Hinit, Hlatb. lia. }
  destruct (main_loop_displaying rounds fuel _ Hdef (main_init b) Hstart)
    as [(Hs' & Ht' & Hi' & Hl') Ho'].
  fold (main rounds fuel b) in Hs', Ht', Hi', Hl', Ho'. fold now in Hs', Ht', Hi', Hl', Ho'.
  unfold System.SYSTEM_GetState.
  rewrite Hs', Hi', Ho', Hinit, Hst, Hie, Hs.
  split; [reflexivity | split; [exact Hl' | split; [exact Ht' |]]].
  split; [reflexivity |].
  change (stdout (main_init b))
    with (stdout (board_pins_init b1) ++
          Report.SYSTEM_PrintConfiguration dev opts prot).
  rewrite Hout. reflexivity.
Qed.

End Application.

Arguments mkBoard {H} sys pins conv stdout.
Arguments sys {H} b.
Arguments pins {H} b.
Arguments conv {H} b.
Arguments stdout {H} b.
Arguments Running {H} b.
Arguments Waiting {H} b.
Arguments board_of {H} r.
Arguments board_pins_init dev pin {H} b.
Arguments loop_body dev pin {H} hw delay_ms fuel b.
Arguments main_init dev hdr pin opts prot {H} hw b.
Arguments main dev hdr pin opts prot {H} hw delay_ms rounds fuel b.

(** ** The program on the target, with a converter on the bench *)

(** The board at power-on: every pin an input, the converter registers
    clear, nothing printed. *)
Definition bench : Board (option nat) :=
  mkBoard System.power_on (mkPins 0xFFFF 0 0 0xFFFF 0)
          (ADC.mkConverter (ADC.mkState (ADC.mkSFR 0 0 0) None 0) 0 0) [].

(** A delay during which the converter takes one step per millisecond. *)
Definition one_step_per_ms (ms : Z) : nat := Z.to_nat ms.

Definition bench_main (rounds fuel : nat) : Run (option nat) :=
  main p33FJ32MC204 ADC.p33FJ32MC204_setup p33FJ32MC204_pins Config.config_h
       Report.config_h_protection (ADC.sar 0x1ABC 14) one_step_per_ms
       rounds fuel bench.

Definition bench_ready : Board (option nat) :=
  main_init p33FJ32MC204 ADC.p33FJ32MC204_setup p33FJ32MC204_pins
            Config.config_h Report.config_h_protection (ADC.sar 0x1ABC 14)
            bench.

Example bench_after_two_rounds :
  System.LATB (sys (board_of (bench_main 2 20))) = 0xAB /\
  System.TRISB (sys (board_of (bench_main 2 20))) = 0xFF00 /\
  AD1PCFGL (pins (board_of (bench_main 2 20))) = 0xFFFE /\
  ADC.adc_last_result (ADC.driver (conv (board_of (bench_main 2 20)))) = 0xABC.
Proof. vm_compute. repeat split; reflexivity. Qed.

Example bench_waits_with_little_fuel :
  match bench_main 2 10 with Waiting _ => True | Running _ => False end.
Proof. vm_compute. exact I. Qed.

Lemma board_pins_init_makes_AN0_analog_input_witness :
  Z.land (AD1PCFGL (pins (board_pins_init p33FJ32MC204 p33FJ32MC204_pins
                            bench))) 1 = 0 /\
  Z.land (AD1PCFGL (pins (board_pins_init p33FJ32MC204 p33FJ32MC204_pins
                            bench))) 0xFFFE =
    Z.land (AD1PCFGL (pins bench)) 0xFFFE /\
  AD1PCFG (pins (board_pins_init p33FJ32MC204 p33FJ32MC204_pins bench)) =
    AD1PCFG (pins bench) /\
  (def_TRISAbits p33FJ32MC204_pins = true ->
   in_register (bf_TRISA0 p33FJ32MC204_pins) ->
   (0 < width (bf_TRISA0 p33FJ32MC204_pins))%nat ->
   get_field (bf_TRISA0 p33FJ32MC204_pins)
     (TRISA (pins (board_pins_init p33FJ32MC204 p33FJ32MC204_pins bench)))
     = 1) /\
  (def_TRISAbits p33FJ32MC204_pins = false ->
   def_TRISA p33FJ32MC204_pins = true ->
   Z.land (TRISA (pins (board_pins_init p33FJ32MC204 p33FJ32MC204_pins
                          bench))) 1 = 1) /\
  PORTB (pins (board_pins_init p33FJ32MC204 p33FJ32MC204_pins bench)) =
    PORTB (pins bench) /\
  conv (board_pins_init p33FJ32MC204 p33FJ32MC204_pins bench) = conv bench /\
  stdout (board_pins_init p33FJ32MC204 p33FJ32MC204_pins bench) =
    stdout bench.
Proof.
  apply (board_pins_init_makes_AN0_analog_input
           p33FJ32MC204 p33FJ32MC204_pins (option nat) bench).
  reflexivity.
Defined.

Lemma board_pins_init_repeats_ports_init_witness :
  let b1 := mkBoard (System.SYSTEM_Initialize p33FJ32MC204 Config.config_h
                       (sys bench))
                    (pins bench) (conv bench) (stdout bench) in
  System.LATB (sys (board_pins_init p33FJ32MC204 p33FJ32MC204_pins b1)) =
    System.LATB (sys b1) /\
  System.TRISB (sys (board_pins_init p33FJ32MC204 p33FJ32MC204_pins b1)) =
    System.TRISB (sys b1) /\
  System.SYSTEM_GetState
    (sys (board_pins_init p33FJ32MC204 p33FJ32MC204_pins b1)) =
    System.SYS_STATE_READY /\
  System.interrupts_enabled
    (sys (board_pins_init p33FJ32MC204 p33FJ32MC204_pins b1)) =
    System.interrupts_enabled (sys b1).
Proof.
  apply (board_pins_init_repeats_ports_init
           p33FJ32MC204 p33FJ32MC204_pins Config.config_h (option nat) bench).
  reflexivity.
Defined.

Lemma board_pins_init_runs_with_interrupts_enabled_witness :
  let b1 := mkBoard (System.SYSTEM_Initialize p33FJ32MC204 Config.config_h
                       (sys bench))
                    (pins bench) (conv bench) (stdout bench) in
  System.interrupts_enabled (sys b1) = true /\
  Forall (fun e => System.is_port_store (fst e) = true /\ snd e = true)
         (System.since (sys b1)
            (sys (board_pins_init p33FJ32MC204 p33FJ32MC204_pins b1))).
Proof.
  apply (board_pins_init_runs_with_interrupts_enabled
           p33FJ32MC204 p33FJ32MC204_pins Config.config_h (option nat) bench).
  reflexivity.
Defined.

Example bench_pin_setup_log :
  System.since (sys (mkBoard (System.SYSTEM_Initialize p33FJ32MC204
                                Config.config_h (sys bench))
                             (pins bench) (conv bench) (stdout bench)))
    (sys (board_pins_init p33FJ32MC204 p33FJ32MC204_pins
            (mkBoard (System.SYSTEM_Initialize p33FJ32MC204 Config.config_h
                        (sys bench))
                     (pins bench) (conv bench) (stdout bench)))) =
  [ (System.Store_LATB 0, true);
    (System.Store_TRISB 0xFF00, true); (System.Store_TRISB 0xFF00, true);
    (System.Store_TRISB 0xFF00, true); (System.Store_TRISB 0xFF00, true);
    (System.Store_TRISB 0xFF00, true); (System.Store_TRISB 0xFF00, true);
    (System.Store_TRISB 0xFF00, true); (System.Store_TRISB 0xFF00, true) ].
Proof. vm_compute. reflexivity. Qed.

Lemma loop_round_shows_top_eight_bits_witness :
  exists v,
    0 <= v <= 4095 /\
    ADC.adc_last_result
      (ADC.driver
         (conv (board_of (loop_body p33FJ32MC204 p33FJ32MC204_pins
                            (ADC.sar 0x1ABC 14) one_step_per_ms 20
                            bench_ready)))) = v /\
    leds_of v = v / 16 /\
    System.LATB
      (sys (board_of (loop_body p33FJ32MC204 p33FJ32MC204_pins
                        (ADC.sar 0x1ABC 14) one_step_per_ms 20 bench_ready))) =
      Z.lor (Z.land (System.LATB (sys bench_ready)) 0xFF00) (v / 16) /\
    Z.land
      (System.LATB
         (sys (board_of (loop_body p33FJ32MC204 p33FJ32MC204_pins
                           (ADC.sar 0x1ABC 14) one_step_per_ms 20
                           bench_ready)))) 0xFF = v / 16 /\
    Z.land
      (System.LATB
         (sys (board_of (loop_body p33FJ32MC204 p33FJ32MC204_pins
                           (ADC.sar 0x1ABC 14) one_step_per_ms 20
                           bench_ready)))) 0xFF00 =
      Z.land (System.LATB (sys bench_ready)) 0xFF00 /\
    System.TRISB
      (sys (board_of (loop_body p33FJ32MC204 p33FJ32MC204_pins
                        (ADC.sar 0x1ABC 14) one_step_per_ms 20 bench_ready))) =
      System.TRISB (sys bench_ready) /\
    System.system_state
      (sys (board_of (loop_body p33FJ32MC204 p33FJ32MC204_pins
                        (ADC.sar 0x1ABC 14) one_step_per_ms 20 bench_ready))) =
      System.system_state (sys bench_ready) /\
    System.interrupts_enabled
      (sys (board_of (loop_body p33FJ32MC204 p33FJ32MC204_pins
                        (ADC.sar 0x1ABC 14) one_step_per_ms 20 bench_ready))) =
      System.interrupts_enabled (sys bench_ready).
Proof.
  apply (loop_round_shows_top_eight_bits
           p33FJ32MC204 p33FJ32MC204_pins (option nat) (ADC.sar 0x1ABC 14)
           one_step_per_ms 20 bench_ready).
  - reflexivity.
  - vm_compute. reflexivity.
Defined.

Lemma main_keeps_ready_and_drives_RB0_7_only_witness :
  let now := board_of (bench_main 3 20) in
  System.SYSTEM_GetState (sys now) = System.SYS_STATE_READY /\
  0 <= System.LATB (sys now) <= 255 /\
  System.TRISB (sys now) = System.TRISB (sys bench_ready) /\
  System.interrupts_enabled (sys now) =
    System.interrupts_enabled
      (System.SYSTEM_Initialize p33FJ32MC204 Config.config_h (sys bench)) /\
  stdout now =
    stdout bench ++
    Report.SYSTEM_PrintConfiguration p33FJ32MC204 Config.config_h
      Report.config_h_protection.
Proof.
  apply (main_keeps_ready_and_drives_RB0_7_only
           p33FJ32MC204 ADC.p33FJ32MC204_setup p33FJ32MC204_pins
           Config.config_h Report.config_h_protection (option nat)
           (ADC.sar 0x1ABC 14) one_step_per_ms 3 20 bench).
  reflexivity.
Defined.

End Main.
